(** * MRKL agent: input validator, tool router, parameter extractor, reflector

    A shallow embedding of [mrkl_agent/agent.py],
    [mrkl_agent/reflector_agent.py] and the two adapters of
    [mrkl_agent/tools.py] that compute without the network.

    Text is modelled over the ASCII alphabet: a Python [str] is a
    [String.string], one [ascii] per character.  Every builtin used by the
    source ([str.lower], [str.strip], [str.split], [in], [re.search], ...)
    is given below with its behaviour on ASCII text ([is_ascii]); a
    character outside ASCII would be several bytes here, and one character
    to Python.  The hosted language model, the tool adapters, the clock,
    the builtin [eval] and float arithmetic are external collaborators and
    enter as section variables. *)

From Stdlib Require Import String Ascii List ZArith Bool Arith Lia DecimalString.
Import ListNotations.
Open Scope string_scope.

(** ** Python string builtins on ASCII text *)

Module PyStr.

Definition code (c : ascii) : nat := nat_of_ascii c.

Definition between (lo hi : nat) (c : ascii) : bool :=
  (lo <=? code c)%nat && (code c <=? hi)%nat.

Definition is_digit (c : ascii) : bool := between 48 57 c.
Definition is_upper_c (c : ascii) : bool := between 65 90 c.
Definition is_lower_c (c : ascii) : bool := between 97 122 c.
Definition is_alpha (c : ascii) : bool := is_upper_c c || is_lower_c c.

(** [str.isspace] on one character: TAB, LF, VT, FF, CR, the four
    separators FS, GS, RS, US, and the space. *)
Definition is_space (c : ascii) : bool :=
  between 9 13 c || between 28 32 c.

Definition lower_c (c : ascii) : ascii :=
  if is_upper_c c then ascii_of_nat (code c + 32) else c.
Definition upper_c (c : ascii) : ascii :=
  if is_lower_c c then ascii_of_nat (code c - 32) else c.

Fixpoint map_chars (f : ascii -> ascii) (s : string) : string :=
  match s with
  | EmptyString => EmptyString
  | String c t => String (f c) (map_chars f t)
  end.

Definition lower : string -> string := map_chars lower_c.
Definition upper : string -> string := map_chars upper_c.

(** [len(s)] for ASCII text: one [ascii] per character. *)
Definition len (s : string) : nat := String.length s.

Fixpoint drop (n : nat) (s : string) : string :=
  match n, s with
  | O, _ => s
  | S n', String _ t => drop n' t
  | S _, EmptyString => EmptyString
  end.

Fixpoint take (n : nat) (s : string) : string :=
  match n, s with
  | S n', String c t => String c (take n' t)
  | _, _ => EmptyString
  end.

Definition chars (s : string) : list ascii := list_ascii_of_string s.

Fixpoint forallb_str (p : ascii -> bool) (s : string) : bool :=
  match s with
  | EmptyString => true
  | String c t => p c && forallb_str p t
  end.

Fixpoint existsb_str (p : ascii -> bool) (s : string) : bool :=
  match s with
  | EmptyString => false
  | String c t => p c || existsb_str p t
  end.

(** [s.isascii()]: the text on which the builtins below are Python's. *)
Definition is_ascii (s : string) : bool :=
  forallb_str (fun a => (code a <? 128)%nat) s.

(** No line feed in [s]: every character is one that [.] matches. *)
Definition no_newline (s : string) : bool :=
  forallb_str (fun a => negb (code a =? 10)%nat) s.

(** [needle in hay] *)
Fixpoint contains (needle hay : string) : bool :=
  prefix needle hay ||
  match hay with
  | EmptyString => false
  | String _ t => contains needle t
  end.

(** [any(k in s for k in keywords)] *)
Definition any_in (keywords : list string) (s : string) : bool :=
  existsb (fun k => contains k s) keywords.

(** [x in list_of_strings] *)
Definition mem (x : string) (l : list string) : bool :=
  existsb (String.eqb x) l.

Fixpoint lstrip (s : string) : string :=
  match s with
  | String c t => if is_space c then lstrip t else s
  | EmptyString => EmptyString
  end.

Fixpoint rstrip (s : string) : string :=
  match s with
  | EmptyString => EmptyString
  | String c t =>
      match rstrip t with
      | EmptyString => if is_space c then EmptyString else String c EmptyString
      | t' => String c t'
      end
  end.

Definition strip (s : string) : string := rstrip (lstrip s).

(** [s.split()]: maximal runs of non-whitespace characters. *)
Fixpoint split_go (cur : string) (s : string) : list string :=
  let flush := match cur with EmptyString => [] | _ => [cur] end in
  match s with
  | EmptyString => flush
  | String c t =>
      if is_space c then flush ++ split_go EmptyString t
      else split_go (cur ++ String c EmptyString) t
  end.

Definition split (s : string) : list string := split_go EmptyString s.

(** [sep.join(l)] *)
Fixpoint join (sep : string) (l : list string) : string :=
  match l with
  | [] => EmptyString
  | [x] => x
  | x :: rest => x ++ sep ++ join sep rest
  end.

(** [s.title()]: a letter is upper-cased when the previous character is not
    a letter and lower-cased otherwise. *)
Fixpoint title_go (prev_cased : bool) (s : string) : string :=
  match s with
  | EmptyString => EmptyString
  | String c t =>
      String (if prev_cased then lower_c c else upper_c c)
             (title_go (is_alpha c) t)
  end.

Definition title : string -> string := title_go false.

(** [s.replace(old, new)] for a non-empty [old]: leftmost occurrences,
    not overlapping. *)
Fixpoint replace_go (old new : string) (skip : nat) (s : string) : string :=
  match s with
  | EmptyString => EmptyString
  | String c t =>
      match skip with
      | S n => replace_go old new n t
      | O =>
          if prefix old s then new ++ replace_go old new (len old - 1) t
          else String c (replace_go old new 0 t)
      end
  end.

Definition replace (old new s : string) : string := replace_go old new 0 s.

(** [len(set(s))] and [max(Counter(s).values())] *)
Definition distinct_count (s : string) : nat :=
  List.length (nodup ascii_dec (chars s)).

Definition count_char (c : ascii) (s : string) : nat :=
  count_occ ascii_dec (chars s) c.

Definition max_count (s : string) : nat :=
  fold_right (fun c m => Nat.max (count_char c s) m) 0 (chars s).

(** The number a run of decimal digits denotes. *)
Definition digit_val (c : ascii) : Z := Z.of_nat (code c - 48).

Fixpoint int_of_digits_go (acc : Z) (s : string) : Z :=
  match s with
  | EmptyString => acc
  | String c t => int_of_digits_go (10 * acc + digit_val c)%Z t
  end.

Definition int_of_digits : string -> Z := int_of_digits_go 0%Z.

(** [sys.get_int_max_str_digits()], as the interpreter sets it. *)
Definition int_max_str_digits : nat := 4300.

(** [int(text)] for a run of decimal digits; [None] stands for the
    [ValueError] raised on more than [int_max_str_digits] digits. *)
Definition py_int (t : string) : option Z :=
  if (int_max_str_digits <? len t)%nat then None else Some (int_of_digits t).

(** [fits digits z]: the natural number [z] is written with [digits]
    decimal digits at most. *)
Fixpoint fits (digits : nat) (z : Z) : bool :=
  match digits with
  | O => (z <? 1)%Z
  | S d => if (z <? 10)%Z then true else fits d (z / 10)%Z
  end.

(** [str(z)] raises [ValueError]: [z] has more than [int_max_str_digits]
    digits. *)
Definition unprintable (z : Z) : bool :=
  negb (fits int_max_str_digits (Z.abs z)).

End PyStr.

(** ** Python's [re] module: a backtracking matcher

    Leftmost match, alternatives tried left to right, greedy repetition
    tried longest first and lazy repetition shortest first, as in [re].
    The only flags used by the source are the default ones and
    [re.IGNORECASE], which is expressed in the character tests. *)

Module PyRe.
Import PyStr.

Inductive regex : Type :=
| Eps
| Chr (p : ascii -> bool)                                (* one character *)
| Seq (r1 r2 : regex)
| Alt (r1 r2 : regex)                                    (* r1|r2 *)
| Rep (greedy : bool) (lo : nat) (hi : option nat) (r : regex)   (* r{lo,hi} *)
| Grp (i : nat) (r : regex)                              (* i-th ( ... ) *)
| Bref (i : nat)                                         (* \i *)
| Bol                                                    (* ^ *)
| Eol.                                                   (* $ *)

(** Captured groups, most recent binding first. *)
Definition caps := list (nat * string).

Fixpoint group (i : nat) (c : caps) : option string :=
  match c with
  | [] => None
  | (j, t) :: c' => if (i =? j)%nat then Some t else group i c'
  end.

Definition under (hi : option nat) (n : nat) : bool :=
  match hi with
  | None => true
  | Some h => (n <? h)%nat
  end.

Definition cont := string -> caps -> option (string * caps).

(** The loop of [r{lo,hi}]: [body] matches one more [r]; an iteration that
    consumes nothing ends the loop. *)
Fixpoint rep_loop (body : string -> caps -> cont -> option (string * caps))
  (greedy : bool) (lo : nat) (hi : option nat) (k : cont)
  (fuel n : nat) (rest : string) (c : caps) {struct fuel}
  : option (string * caps) :=
  match fuel with
  | O => None
  | S fuel' =>
      let more (_ : unit) :=
        if under hi n then
          body rest c
            (fun rest' c' =>
               if (len rest' <? len rest)%nat
               then rep_loop body greedy lo hi k fuel' (S n) rest' c'
               else None)
        else None in
      let stop (_ : unit) :=
        if (lo <=? n)%nat then k rest c else None in
      if greedy then
        match more tt with Some m => Some m | None => stop tt end
      else
        match stop tt with Some m => Some m | None => more tt end
  end.

(** [run s0 r rest c k]: match [r] at the suffix [rest] of the subject
    [s0], then continue with [k] on what is left. *)
Fixpoint run (s0 : string) (r : regex) (rest : string) (c : caps) (k : cont)
  {struct r} : option (string * caps) :=
  match r with
  | Eps => k rest c
  | Chr p =>
      match rest with
      | String a t => if p a then k t c else None
      | EmptyString => None
      end
  | Seq r1 r2 => run s0 r1 rest c (fun rest' c' => run s0 r2 rest' c' k)
  | Alt r1 r2 =>
      match run s0 r1 rest c k with
      | Some m => Some m
      | None => run s0 r2 rest c k
      end
  | Rep greedy lo hi r1 =>
      rep_loop (run s0 r1) greedy lo hi k (S (len rest)) 0 rest c
  | Grp i r1 =>
      run s0 r1 rest c
        (fun rest' c' => k rest' ((i, take (len rest - len rest') rest) :: c'))
  | Bref i =>
      match group i c with
      | Some t => if prefix t rest then k (drop (len t) rest) c else None
      | None => None
      end
  | Bol => if (len rest =? len s0)%nat then k rest c else None
  | Eol =>
      match rest with
      | EmptyString => k rest c
      | String a EmptyString => if (code a =? 10)%nat then k rest c else None
      | _ => None
      end
  end.

(** [leads body rest c rest' c']: [body] has a way from [rest] to [rest'],
    so it succeeds whenever its continuation does there. *)
Definition leads (body : string -> caps -> cont -> option (string * caps))
  (rest : string) (c : caps) (rest' : string) (c' : caps) : Prop :=
  forall k : cont, k rest' c' <> None -> body rest c k <> None.

(** A match: the suffix where it starts, the suffix left after it, and the
    groups. *)
Record rmatch := { m_from : string; m_rest : string; m_caps : caps }.

Definition m_text (m : rmatch) : string :=
  take (len (m_from m) - len (m_rest m)) (m_from m).

(** [m.group(i)] for a group that took part in the match. *)
Definition m_group (i : nat) (m : rmatch) : string :=
  match group i (m_caps m) with Some t => t | None => EmptyString end.

Definition match_at (s0 : string) (r : regex) (rest : string) : option rmatch :=
  match run s0 r rest [] (fun rest' c' => Some (rest', c')) with
  | Some (e, c) => Some {| m_from := rest; m_rest := e; m_caps := c |}
  | None => None
  end.

(** [re.match(r, s)] *)
Definition rematch (r : regex) (s : string) : option rmatch := match_at s r s.

Fixpoint search_from (s0 : string) (r : regex) (rest : string) : option rmatch :=
  match match_at s0 r rest with
  | Some m => Some m
  | None =>
      match rest with
      | EmptyString => None
      | String _ t => search_from s0 r t
      end
  end.

(** [re.search(r, s)] *)
Definition search (r : regex) (s : string) : option rmatch := search_from s r s.

Definition found (o : option rmatch) : bool :=
  match o with Some _ => true | None => false end.

(** [re.findall(r, s)] for a pattern without groups; the patterns it is
    used with never match the empty string. *)
Fixpoint findall_go (fuel : nat) (s0 : string) (r : regex) (rest : string)
  : list string :=
  match fuel with
  | O => []
  | S fuel' =>
      match search_from s0 r rest with
      | None => []
      | Some m =>
          if (len (m_rest m) <? len (m_from m))%nat
          then m_text m :: findall_go fuel' s0 r (m_rest m)
          else []
      end
  end.

Definition findall (r : regex) (s : string) : list string :=
  findall_go (S (len s)) s r s.

(** [re.split(r'[sep]', s)] for a pattern that is one character class. *)
Fixpoint split_class_go (sep : ascii -> bool) (cur : string) (s : string)
  : list string :=
  match s with
  | EmptyString => [cur]
  | String a t =>
      if sep a then cur :: split_class_go sep EmptyString t
      else split_class_go sep (cur ++ String a EmptyString) t
  end.

Definition split_class (sep : ascii -> bool) (s : string) : list string :=
  split_class_go sep EmptyString s.

(** Pattern syntax. *)
Definition ch (a : ascii) : regex := Chr (Ascii.eqb a).
Definition chi (a : ascii) : regex :=
  Chr (fun b => Ascii.eqb (lower_c b) (lower_c a)).
Definition one_of (set : string) : ascii -> bool :=
  fun a => existsb_str (Ascii.eqb a) set.
Definition dot : regex := Chr (fun a => negb (code a =? 10)%nat).
Definition digit : regex := Chr is_digit.          (* \d *)
Definition space : regex := Chr is_space.          (* \s *)

Fixpoint lit_with (f : ascii -> regex) (s : string) : regex :=
  match s with
  | EmptyString => Eps
  | String a EmptyString => f a
  | String a t => Seq (f a) (lit_with f t)
  end.

Definition lit : string -> regex := lit_with ch.
Definition liti : string -> regex := lit_with chi.   (* under re.IGNORECASE *)

Definition star (r : regex) : regex := Rep true 0 None r.
Definition plus (r : regex) : regex := Rep true 1 None r.
Definition opt (r : regex) : regex := Rep true 0 (Some 1) r.
Definition plus_lazy (r : regex) : regex := Rep false 1 None r.
Definition at_least (n : nat) (r : regex) : regex := Rep true n None r.
Definition from_to (lo hi : nat) (r : regex) : regex := Rep true lo (Some hi) r.

Fixpoint seq (rs : list regex) : regex :=
  match rs with
  | [] => Eps
  | [r] => r
  | r :: rest => Seq r (seq rest)
  end.

Fixpoint alt (rs : list regex) : regex :=
  match rs with
  | [] => Eps
  | [r] => r
  | r :: rest => Alt r (alt rest)
  end.

End PyRe.

(** ** agent.py: the input validator and the tool router *)

Module Agent.
Import PyStr PyRe.
Open Scope bool_scope.

(** One entry of [self.reasoning_steps]: [{"step": ..., "content": ...}]. *)
Record ReasoningStep := { step : string; content : string }.

(** The values [think] returns. *)
Inductive ToolId := calculator | weather | search | news | invalid.

Definition tool_name (t : ToolId) : string :=
  match t with
  | calculator => "calculator"
  | weather => "weather"
  | search => "search"
  | news => "news"
  | invalid => "invalid"
  end.

(** *** [_is_meaningless_query], rule by rule on [cleaned_query] *)

(** [len(cleaned_query) < 3] *)
Definition too_short (cleaned : string) : bool := (len cleaned <? 3)%nat.

(** [len(set(cleaned_query)) <= 2 and len(cleaned_query) > 5] *)
Definition few_distinct (cleaned : string) : bool :=
  (distinct_count cleaned <=? 2)%nat && (5 <? len cleaned)%nat.

(** [len > 10 and len(unique_chars) <= 4] and then
    [max_count >= len(cleaned_query) * 0.3].  The product is a double within
    one rounding of [3 * len / 10] and [max_count] is an integer, so for
    every length below 2^50 the comparison is the integer one
    [10 * max_count >= 3 * len]. *)
Definition limited_charset (cleaned : string) : bool :=
  (10 <? len cleaned)%nat && (distinct_count cleaned <=? 4)%nat &&
  (3 * len cleaned <=? 10 * max_count cleaned)%nat.

(** [re.search(r'(.{1,3})\1{4,}', cleaned_query)] *)
Definition small_pattern : regex :=
  Seq (Grp 1 (from_to 1 3 dot)) (at_least 4 (Bref 1)).

Definition excessive_repetition (cleaned : string) : bool :=
  found (PyRe.search small_pattern cleaned).

(** The vowel and consonant counts over [query_letters]. *)
Definition vowels : string := "aeiou".
Definition consonants : string := "bcdfghjklmnpqrstvwxyz".

Definition query_letters (cleaned : string) : list ascii :=
  filter is_alpha (chars cleaned).

Definition vowel_count (cleaned : string) : nat :=
  List.length (filter (one_of vowels) (query_letters cleaned)).

Definition consonant_count (cleaned : string) : nat :=
  List.length (filter (one_of consonants) (query_letters cleaned)).

(** [consonant_count / vowel_count > 8] is [consonant_count > 8 * vowel_count]
    for a positive [vowel_count]. *)
Definition suspicious_letters (cleaned : string) : bool :=
  (5 <? List.length (query_letters cleaned))%nat &&
  (((vowel_count cleaned =? 0)%nat && (5 <? consonant_count cleaned)%nat) ||
   ((0 <? vowel_count cleaned)%nat &&
    (8 * vowel_count cleaned <? consonant_count cleaned)%nat)).

(** [pattern * repetitions] *)
Fixpoint tile (pattern : string) (repetitions : nat) : string :=
  match repetitions with
  | O => EmptyString
  | S n => pattern ++ tile pattern n
  end.

(** [sum(1 for a, b in zip(x, y) if a == b)] *)
Fixpoint similarity (x y : string) : nat :=
  match x, y with
  | String a x', String b y' =>
      (if Ascii.eqb a b then 1 else 0) + similarity x' y'
  | _, _ => 0
  end.

(** The body of [for i in range(2, 6)]; [similarity / len > 0.7] is
    [10 * similarity > 7 * len]. *)
Definition tiles_with (cleaned : string) (i : nat) : bool :=
  let pattern := take i cleaned in
  let repetitions := len cleaned / len pattern in
  (3 <=? repetitions)%nat &&
  (let reconstructed := take (len cleaned) (tile pattern repetitions) in
   (7 * len cleaned <? 10 * similarity cleaned reconstructed)%nat).

Definition repetitive_prefix (cleaned : string) : bool :=
  (10 <? len cleaned)%nat && existsb (tiles_with cleaned) [2; 3; 4; 5].

(** [random_patterns] *)
Definition only (set : string) : regex :=
  seq [Bol; plus (Chr (one_of set)); Eol].

Definition random_patterns : list regex :=
  [only "yh"; only "qwerty"; only "asdfgh"; only "zxcvbn"].

Definition keyboard_rows (cleaned : string) : bool :=
  existsb (fun pattern => found (rematch pattern cleaned) && (8 <? len cleaned)%nat)
          random_patterns.

Definition common_words : list string :=
  ["the"; "and"; "is"; "in"; "to"; "of"; "a"; "that"; "it"; "with"; "for";
   "as"; "was"; "on"; "are"; "you"; "this"; "be"; "at"; "have"; "or"; "not";
   "from"; "by"; "they"; "we"; "say"; "her"; "she"; "an"; "each"; "which";
   "do"; "how"; "their"; "if"; "will"; "up"; "other"; "about"; "out"; "many";
   "then"; "them"; "these"; "so"; "some"; "what"; "would"; "make"; "like";
   "into"; "time"; "has"; "two"; "more"; "go"; "no"; "way"; "could"; "my";
   "than"; "first"; "been"; "call"; "who"; "oil"; "its"; "now"; "find";
   "long"; "down"; "day"; "did"; "get"; "come"; "made"; "may"; "part";
   "weather"; "calculate"; "news"; "search"; "tell"; "me"; "what"; "when";
   "where"; "why"; "how"; "university"; "heriot"; "watt"].

(** [re.split(r'[^a-zA-Z]', cleaned_query)] and the loop that fills
    [valid_words]. *)
Definition potential_words (cleaned : string) : list string :=
  split_class (fun a => negb (is_alpha a)) cleaned.

Definition is_valid_word (word : string) : bool :=
  let word := strip (lower word) in
  (3 <=? len word)%nat && (mem word common_words || (4 <=? len word)%nat).

Definition valid_words (cleaned : string) : list string :=
  map (fun w => strip (lower w)) (filter is_valid_word (potential_words cleaned)).

Definition no_words (cleaned : string) : bool :=
  (10 <? len cleaned)%nat && (List.length (valid_words cleaned) =? 0)%nat.

Definition _is_meaningless_query (query : string) : bool :=
  let cleaned_query := lower (strip query) in
  too_short cleaned_query
  || few_distinct cleaned_query
  || limited_charset cleaned_query
  || excessive_repetition cleaned_query
  || suspicious_letters cleaned_query
  || repetitive_prefix cleaned_query
  || keyboard_rows cleaned_query
  || no_words cleaned_query.

(** *** [think]: the keyword cascade *)

Definition calculator_keywords : list string :=
  ["calculate"; "math"; "+"; "-"; "*"; "/"; "="; "sum"; "multiply"; "divide";
   "compute"; "formula"].
Definition weather_keywords : list string :=
  ["weather"; "temperature"; "rain"; "sunny"; "climate"; "forecast";
   "humidity"; "wind"].
Definition news_keywords : list string :=
  ["news"; "latest"; "recent"; "current events"; "breaking"; "today";
   "yesterday"; "happening"].
Definition search_keywords : list string :=
  ["what is"; "tell me about"; "define"; "explain"; "information"; "who is";
   "when did"; "where is"; "how does"].

(** [think] resets [self.reasoning_steps], so its result is the selected
    tool together with the steps recorded so far. *)
Definition think (query : string) : ToolId * list ReasoningStep :=
  let steps :=
    [{| step := "Query Analysis";
        content := "Analyzing user query: '" ++ query ++ "'" |}] in
  if _is_meaningless_query query then
    (invalid,
     app steps [{| step := "Input Validation";
                   content := "Detected meaningless or random input - cannot process" |}])
  else
    let query_lower := lower query in
    let '(selected_tool, reasoning) :=
      if any_in calculator_keywords query_lower then
        (calculator, "Detected mathematical operations - selecting Calculator tool")
      else if any_in weather_keywords query_lower then
        (weather, "Detected weather-related query - selecting Weather tool")
      else if any_in news_keywords query_lower then
        (news, "Detected news/current events request - selecting News tool")
      else if any_in search_keywords query_lower then
        (search, "Detected general information request - selecting Search tool")
      else
        (search, "General query detected - defaulting to Search tool for comprehensive information")
    in
    (selected_tool,
     app steps [{| step := "Tool Selection"; content := reasoning |}]).

(** *** [extract_parameters] *)

(** [r'[\d\+\-\*\/\(\)\.\s\^]+'] *)
Definition math_pattern : regex :=
  plus (Chr (fun a => is_digit a || one_of "+-*/()." a || is_space a
                      || one_of "^" a)).

(** [r'\d+\.?\d*'] *)
Definition number_pattern : regex :=
  seq [plus digit; opt (ch "."); star digit].

(** [max(matches, key=len)]: the first of the longest; [None] stands for the
    empty list, which the source tests before. *)
Fixpoint longest (matches : list string) : option string :=
  match matches with
  | [] => None
  | x :: rest =>
      match longest rest with
      | Some y => if (len x <? len y)%nat then Some y else Some x
      | None => Some x
      end
  end.

Definition extract_calculator (query : string) : string :=
  let matches := findall math_pattern query in
  let by_pattern :=
    match longest matches with
    | Some m =>
        let expr := strip m in
        if any_in ["+"; "-"; "*"; "/"] expr then Some expr else None
    | None => None
    end in
  match by_pattern with
  | Some expr => expr
  | None =>
      if contains "circle" (lower query) && contains "radius" (lower query)
         && contains "5" query
      then "3.14159 * 5 * 5"
      else
        match findall number_pattern query with
        | n0 :: n1 :: _ =>
            if contains "multiply" query || contains "*" query
            then n0 ++ " * " ++ n1
            else if contains "add" query || contains "+" query
            then n0 ++ " + " ++ n1
            else query
        | _ => query
        end
  end.

Definition locations : list string :=
  ["london"; "paris"; "tokyo"; "new york"; "mumbai"; "berlin"; "delhi";
   "sydney"; "toronto"; "dubai"; "abu dhabi"; "uae"; "united arab emirates";
   "india"; "usa"; "uk"; "canada"; "germany"; "france"; "japan"; "australia";
   "singapore"; "hong kong"; "bangkok"; "moscow"; "rome"; "madrid";
   "amsterdam"; "zurich"; "istanbul"; "cairo"; "riyadh"].

Definition uae_names : list string := ["uae"; "united arab emirates"].

(** [([a-zA-Z\s]+?)] and [(?:\?|$|,)] *)
Definition place : regex :=
  Grp 1 (plus_lazy (Chr (fun a => is_alpha a || is_space a))).
Definition place_end : regex := alt [ch "?"; Eol; ch ","].
Definition in_or_of : regex := Alt (lit "in") (lit "of").

Definition weather_patterns : list regex :=
  [seq [lit "weather "; in_or_of; ch " "; place; place_end];
   seq [in_or_of; ch " "; place; place_end];
   seq [place; lit " weather"]].

(** [re.sub(r'^(the|a|an)\s+', '', location)]: [^] only matches at the
    start, so at most the leading match is removed. *)
Definition article : regex :=
  seq [Bol; Grp 1 (alt [lit "the"; lit "a"; lit "an"]); plus space].

Definition drop_article (location : string) : string :=
  match PyRe.search article location with
  | Some m => m_rest m
  | None => location
  end.

(** The body of [for pattern in patterns]: [Some] is a [return]. *)
Definition location_by_pattern (query_lower : string) (pattern : regex)
  : option string :=
  match PyRe.search pattern query_lower with
  | Some m =>
      let location := drop_article (strip (m_group 1 m)) in
      if (1 <? len location)%nat
         && negb (mem location ["weather"; "temperature"; "forecast"])
      then Some (if mem location uae_names then "Dubai" else title location)
      else None
  | None => None
  end.

(** [next(f(x) for x in l if f(x) is a return)] *)
Fixpoint first_some {A B : Type} (f : A -> option B) (l : list A) : option B :=
  match l with
  | [] => None
  | x :: rest =>
      match f x with
      | Some y => Some y
      | None => first_some f rest
      end
  end.

Definition head_is_upper (word : string) : bool :=
  match word with
  | String a _ => is_upper_c a
  | EmptyString => false
  end.

Definition proper_noun (word : string) : option string :=
  if head_is_upper word && (2 <? len word)%nat
     && negb (mem (lower word) ["weather"; "what"; "is"; "the"])
  then Some (if String.eqb (upper word) "UAE" then "Dubai" else word)
  else None.

Definition known_location (query_lower : string) (location : string)
  : option string :=
  if contains location query_lower
  then Some (if mem location uae_names then "Dubai" else title location)
  else None.

Definition extract_weather (query : string) : string :=
  let query_lower := lower query in
  match first_some (known_location query_lower) locations with
  | Some l => l
  | None =>
      match first_some (location_by_pattern query_lower) weather_patterns with
      | Some l => l
      | None =>
          match first_some proper_noun (split query) with
          | Some w => w
          | None => "London"
          end
      end
  end.

Definition search_stop_words : list string :=
  ["what"; "is"; "tell"; "me"; "about"; "explain"; "define"; "the"].
Definition news_stop_words : list string :=
  ["get"; "me"; "the"; "some"; "find"].

(** [' '.join([w for w in query.lower().split() if w not in stop][:n])] *)
Definition topic (stop_words : list string) (n : nat) (query : string) : string :=
  let words := filter (fun w => negb (mem w stop_words)) (split (lower query)) in
  join " " (firstn n words).

Definition extract_parameters (query : string) (tool : ToolId) : string :=
  match tool with
  | calculator => extract_calculator query
  | weather => extract_weather query
  | search => topic search_stop_words 3 query
  | news => topic news_stop_words 4 query
  | invalid => query
  end.

End Agent.

(** ** reflector_agent.py *)

Module Reflector.
Import PyStr PyRe Agent.
Open Scope bool_scope.
Open Scope Z_scope.

(** The exceptions [except Exception] catches. *)
Inductive Exc := SyntaxError | ValueError | ZeroDivisionError | TypeError
               | OtherError.

(** What a call can leave by: an [Exception], or [SystemExit], which is
    none and which [except Exception] lets through. *)
Inductive Raised := AnException (e : Exc) | SystemExit.
Coercion AnException : Exc >-> Raised.

Inductive Result (A : Type) :=
| Return (a : A)
| Raise (e : Raised).
Arguments Return {A} a.
Arguments Raise {A} e.

Definition bind {A B : Type} (m : Result A) (f : A -> Result B) : Result B :=
  match m with
  | Return a => f a
  | Raise e => Raise e
  end.

Notation "x <- m ;; f" := (bind m (fun x => f))
  (at level 61, m at next level, right associativity).

(** [len(x)]: defined on a string, [TypeError] on an int. *)
Inductive PyObj := AnInt (n : Z) | AStr (s : string).

Definition py_len (x : PyObj) : Result Z :=
  match x with
  | AStr s => Return (Z.of_nat (len s))
  | AnInt _ => Raise TypeError
  end.

(** [str(n)] for a natural number. *)
Definition str_nat (n : nat) : string :=
  DecimalString.NilEmpty.string_of_uint (Nat.to_uint n).

Definition str_Z (z : Z) : string :=
  if z <? 0 then "-" ++ str_nat (Z.to_nat (- z)) else str_nat (Z.to_nat z).

(** [repr(s)] of an ASCII string, as [str(list_of_dicts)] prints it. *)
Definition hex_digit (n : nat) : ascii :=
  if (n <? 10)%nat then ascii_of_nat (48 + n) else ascii_of_nat (87 + n).

Definition repr_char (quote : ascii) (a : ascii) : string :=
  let n := code a in
  if Ascii.eqb a quote || (n =? 92)%nat then String "\" (String a EmptyString)
  else if (n =? 10)%nat then "\n"
  else if (n =? 13)%nat then "\r"
  else if (n =? 9)%nat then "\t"
  else if (n <? 32)%nat || (n =? 127)%nat
       then "\x" ++ String (hex_digit (n / 16)) (String (hex_digit (n mod 16)) EmptyString)
  else String a EmptyString.

Fixpoint concat_map (f : ascii -> string) (s : string) : string :=
  match s with
  | EmptyString => EmptyString
  | String a t => f a ++ concat_map f t
  end.

Definition double_quote : ascii := ascii_of_nat 34.

Definition repr (s : string) : string :=
  let quote : ascii :=
    if contains "'" s && negb (contains (String double_quote EmptyString) s)
    then double_quote else "'"%char in
  String quote (concat_map (repr_char quote) s) ++ String quote EmptyString.

Definition str_step (st : ReasoningStep) : string :=
  "{'step': " ++ repr (step st) ++ ", 'content': " ++ repr (content st) ++ "}".

(** [str(reasoning_steps)] *)
Definition str_steps (steps : list ReasoningStep) : string :=
  "[" ++ join ", " (map str_step steps) ++ "]".

Section Collaborators.

(** Python's values other than ints, kept abstract: the floats, and the
    other objects [eval] can return from the characters the reflector
    lets through (a complex number, the empty tuple, [Ellipsis]). *)
Variable F : Type.

(** A value [eval] can return: an int, a float, or another object. *)
Inductive PyVal := VInt (z : Z) | VFloat (f : F) | VObj (o : F).

Inductive Outcome := Returns (v : PyVal) | Raises (e : Exc).

(** The builtin [eval] on [safe_expr], which holds no letter: it returns,
    or raises an [Exception]. *)
Variable py_eval : string -> Outcome.
(** [float(text)] for [text] matching [\d+\.\d+]. *)
Variable py_float : string -> F.
(** [abs(expected - provided) < 0.01] on two values one of which is a
    float; [None] when it raises (an int too large for a float, a tuple
    or [Ellipsis] in a subtraction). *)
Variable float_close : PyVal -> PyVal -> option bool.
(** [expected == provided] on two values that are not both ints and none
    of which is a float. *)
Variable py_equal : PyVal -> PyVal -> bool.
(** The text an f-string prints for a result it can print ([None] is
    Python's [None]). *)
Variable show : option PyVal -> string.

(** [f"{v}"]: printing an int of more than [int_max_str_digits] digits
    raises [ValueError]. *)
Definition format (v : option PyVal) : Result string :=
  match v with
  | Some (VInt z) => if unprintable z then Raise ValueError else Return (show v)
  | _ => Return (show v)
  end.
(** [datetime.now().strftime(...)] at the time of the call. *)
Variable now : string.

(** *** [_extract_math_expression] *)

Definition times_sign : string :=      (* U+00D7 *)
  String (ascii_of_nat 195) (String (ascii_of_nat 151) EmptyString).
Definition division_sign : string :=   (* U+00F7 *)
  String (ascii_of_nat 195) (String (ascii_of_nat 183) EmptyString).

(** [\d+(?:\.\d+)?], [[+\-*/^]] and [[0-9+\-*/.^() ]] *)
Definition number : regex := seq [plus digit; opt (seq [ch "."; plus digit])].
Definition operator : regex := Chr (one_of "+-*/^").
Definition expr_char : regex :=
  Chr (fun a => is_digit a || one_of "+-*/.^() " a).

Definition expression_patterns : list regex :=
  [Grp 1 (seq [number; star space; operator; star space; number;
               star (seq [star space; operator; star space; number])]);
   seq [liti "calculate"; plus space; Grp 1 (plus expr_char)];
   seq [liti "what"; star (Chr (fun a => one_of "'s" (lower_c a)));
        plus space; Grp 1 (plus expr_char); star (ch "?")];
   seq [Grp 1 (plus expr_char); star space; ch "="]].

Definition expression_of (query_clean : string) (pattern : regex)
  : option string :=
  match PyRe.search pattern query_clean with
  | Some m =>
      let expr := strip (m_group 1 m) in
      if existsb_str is_digit expr && existsb_str (one_of "+-*/^") expr
      then Some expr else None
  | None => None
  end.

Definition _extract_math_expression (query : string) : option string :=
  let query_clean := replace division_sign "/" (replace times_sign "*" query) in
  first_some (expression_of query_clean) expression_patterns.

(** *** [_extract_result_from_response] *)

Definition result_patterns : list regex :=
  [seq [ch "="; star space; Grp 1 number];
   seq [liti "result"; plus (Chr (fun a => one_of ":" a || is_space a)); Grp 1 number];
   seq [liti "answer"; plus (Chr (fun a => one_of ":" a || is_space a)); Grp 1 number];
   seq [Grp 1 number; Eol];
   seq [ch ":"; star space; Grp 1 number]].

(** [float(t) if '.' in t else int(t)]; [None] stands for the
    [ValueError] of [int], which both callers swallow. *)
Definition to_number (t : string) : option PyVal :=
  if contains "." t then Some (VFloat (py_float t))
  else option_map VInt (py_int t).

(** The body of [for pattern in patterns]: [Some] is a [return], [None]
    goes on to the next pattern (no match, or [except ValueError:
    continue]). *)
Definition result_by_pattern (response : string) (pattern : regex)
  : option PyVal :=
  match PyRe.search pattern response with
  | Some m => to_number (m_group 1 m)
  | None => None
  end.

Definition _extract_result_from_response (response : string) : option PyVal :=
  match first_some (result_by_pattern response) result_patterns with
  | Some v => Some v
  | None =>
      match rev (findall number response) with
      | last :: _ => to_number last     (* [except ValueError: pass] *)
      | [] => None
      end
  end.

(** *** [_validate_mathematical_answer] *)

Record MathValidation := {
  is_correct : bool;
  expected_result : option PyVal;
  provided_result : option PyVal;
  expression : option string
}.

(** The comparison under [if provided_result is not None]; [None] stands
    for an exception, which the outer [except Exception] turns into a
    lenient [True]. *)
Definition compare_results (expected provided : PyVal) : option bool :=
  match expected, provided with
  | VFloat _, _ | _, VFloat _ => float_close expected provided
  | VInt e, VInt p => Some (e =? p)
  | _, _ => Some (py_equal expected provided)
  end.

Definition _validate_mathematical_answer (query response : string)
  : MathValidation :=
  match _extract_math_expression query with
  | None =>
      {| is_correct := false; expected_result := None;
         provided_result := None; expression := None |}
  | Some expr =>
      let safe_expr :=
        replace "X" "*" (replace "x" "*" (replace "^" "**" expr)) in
      if forallb_str (one_of "0123456789+-*/(). ") safe_expr then
        match py_eval safe_expr with
        | Raises _ =>
            (* both handlers are lenient: is_correct = True *)
            {| is_correct := true; expected_result := None;
               provided_result := None; expression := Some expr |}
        | Returns expected =>
            let provided := _extract_result_from_response response in
            {| is_correct :=
                 match provided with
                 | Some p =>
                     match compare_results expected p with
                     | Some b => b
                     | None => true
                     end
                 | None => false
                 end;
               expected_result := Some expected;
               provided_result := provided;
               expression := Some expr |}
        end
      else
        {| is_correct := false; expected_result := None;
           provided_result := None; expression := Some expr |}
  end.

(** *** [_analyze_answer_content] *)

Record AnswerAnalysis := {
  answer_type : string;
  contains_calculation : bool;
  contains_factual_info : bool;
  response_length : Z;
  specific_patterns : list string;
  potential_issues : list string;
  math_validation : option MathValidation
}.

Definition _analyze_answer_content (query response : string)
  : Result AnswerAnalysis :=
  let query_lower := lower query in
  let response_lower := lower response in
  let length := Z.of_nat (len response) in
  let completeness : list string :=
    if length <? 10 then ["Response appears too short"]
    else if 500 <? length then ["Response might be unnecessarily long"]
    else [] in
  if any_in ["calculate"; "math"; "+"; "-"; "*"; "/"; "="] query_lower then
    if existsb_str is_digit response then
      let mv := _validate_mathematical_answer query response in
      (* (specific_patterns, potential_issues) of the re-check *)
      found <-
        (if is_correct mv then
           expected <- format (expected_result mv) ;;
           Return (["Mathematical calculation verified as correct: " ++ expected],
                   [])
         else
           match expected_result mv with
           | Some _ =>
               expected <- format (expected_result mv) ;;
               provided <- format (provided_result mv) ;;
               Return ([], ["Mathematical error: Expected " ++ expected
                              ++ ", got " ++ provided])
           | None => Return ([], ["Could not verify mathematical calculation"])
           end) ;;
      Return
      {| answer_type := "mathematical";
         contains_calculation := true;
         contains_factual_info := false;
         response_length := length;
         specific_patterns := fst found;
         potential_issues := app (snd found) completeness;
         math_validation := Some mv |}
    else
      Return
      {| answer_type := "mathematical";
         contains_calculation := false;
         contains_factual_info := false;
         response_length := length;
         specific_patterns := [];
         potential_issues :=
           ("Mathematical query but no numerical answer found" :: completeness);
         math_validation := None |}
  else if any_in ["weather"; "temperature"; "climate"] query_lower then
    let informed :=
      any_in ["temperature"; "degrees"; "weather"; "sunny"; "cloudy"; "rain"]
             response_lower in
    Return
    {| answer_type := "weather";
       contains_calculation := false;
       contains_factual_info := informed;
       response_length := length;
       specific_patterns :=
         if informed then ["Contains weather-related information"] else [];
       potential_issues :=
         app (if informed then []
              else ["Weather query but no weather information in response"])
             completeness;
       math_validation := None |}
  else if any_in ["what"; "who"; "where"; "when"; "why"; "how"] query_lower then
    Return
    {| answer_type := "informational";
       contains_calculation := false;
       contains_factual_info := 30 <? length;
       response_length := length;
       specific_patterns := [];
       potential_issues :=
         app (if 30 <? length then []
              else ["Informational query but response seems too brief"])
             completeness;
       math_validation := None |}
  else
    Return
    {| answer_type := "unknown";
       contains_calculation := false;
       contains_factual_info := false;
       response_length := length;
       specific_patterns := [];
       potential_issues := completeness;
       math_validation := None |}.

(** *** [_validate_reasoning_chain] *)

Record ReasoningValidation := {
  step_count : Z;
  logical_consistency : bool;
  completeness_score : Z;
  step_issues : list string;
  missing_steps : list string;
  reasoning_quality : string
}.

(** [_validate_reasoning_chain] calls this to choose [expected_steps],
    which it then never reads. *)
Definition _determine_query_type (query : string) : string :=
  let query_lower := lower query in
  if any_in ["calculate"; "math"; "+"; "-"; "*"; "/"] query_lower
  then "mathematical"
  else if any_in ["weather"; "temperature"] query_lower then "weather"
  else "informational".

Definition critical_steps : list string :=
  ["Query Analysis"; "Tool Selection"; "Tool Execution"].

Fixpoint minimal_steps (i : nat) (steps : list ReasoningStep) : list string :=
  match steps with
  | [] => []
  | st :: rest =>
      app (if (len (content st) <? 5)%nat
           then ["Step " ++ str_nat (i + 1) ++ " (" ++ step st
                   ++ "): Very minimal content"]
           else [])
          (minimal_steps (i + 1) rest)
  end.

(** [int(completion_ratio * 100)]: the ratio is [(3 - missing) / 3], raised
    to [0.8] when there are three steps or more; the products are
    100, 66.67, 33.33, 0 and 80.00000000000001. *)
Definition score_of (missing steps : nat) : Z :=
  let base := (Z.of_nat (3 - missing) * 100) / 3 in
  if (3 <=? steps)%nat then Z.max base 80 else base.

Definition _validate_reasoning_chain (reasoning_steps : list ReasoningStep)
  (original_query : string) : ReasoningValidation :=
  let actual_steps := map step reasoning_steps in
  let missing :=
    filter (fun critical_step =>
              negb (existsb (fun actual_step =>
                               contains (lower critical_step) (lower actual_step))
                            actual_steps))
           critical_steps in
  let issues := minimal_steps 0 reasoning_steps in
  let score := score_of (List.length missing) (List.length actual_steps) in
  let '(quality, consistent) :=
    if (80 <=? score) && (List.length issues =? 0)%nat then ("Excellent", true)
    else if 60 <=? score then ("Good", true)
    else if 40 <=? score then ("Acceptable", true)
    else ("Poor", false) in
  {| step_count := Z.of_nat (List.length reasoning_steps);
     logical_consistency := consistent;
     completeness_score := score;
     step_issues := issues;
     missing_steps := missing;
     reasoning_quality := quality |}.

(** *** [_ai_powered_validation]: the rule-based second scorer *)

Record AIValidation := {
  ai_confidence : Z;
  ai_decision : string;
  ai_reasoning : string;
  model_used : string;
  validation_successful : bool
}.

Definition _ai_powered_validation (query response : string)
  (reasoning_steps : list ReasoningStep) : AIValidation :=
  let query_lower := lower query in
  let response_lower := lower response in
  let length := Z.of_nat (len response) in
  (* the category test: (issues_found, positive_indicators, ai_confidence) *)
  let '(issues0, positive0, confidence0) :=
    if any_in ["calculate"; "math"; "+"; "-"; "*"; "/"] query_lower then
      if existsb_str is_digit response
      then ([], ["Contains numerical result for math query"], 85)
      else (["Mathematical query missing numerical answer"], [], 30)
    else if any_in ["weather"; "temperature"; "climate"] query_lower then
      if any_in ["temperature"; "degrees"; "weather"; "sunny"; "cloudy"; "rain";
                 "celsius"; "fahrenheit"] response_lower
      then ([], ["Contains weather-related information"], 80)
      else (["Weather query lacks weather information"], [], 40)
    else if any_in ["what"; "who"; "where"; "when"; "why"; "how"; "explain";
                    "define"] query_lower then
      if 20 <? length
      then ([], ["Provides substantial informational content"], 75)
      else (["Informational query has very brief response"], [], 50)
    else ([], ["Response addresses the query appropriately"], 70) in
  (* response quality *)
  let '(issues1, positive1, confidence1) :=
    if 100 <? length
    then (issues0, app positive0 ["Detailed response provided"], confidence0)
    else if length <? 10
    then (app issues0 ["Response appears too brief"], positive0, confidence0 - 20)
    else (issues0, positive0, confidence0) in
  (* tool usage consistency *)
  let tool_mentioned :=
    any_in ["calculator"; "weather"; "search"; "news"]
           (lower (str_steps reasoning_steps)) in
  let '(positive2, confidence2) :=
    if tool_mentioned
    then (app positive1 ["Appropriate tool usage detected in reasoning"],
          confidence1 + 5)
    else (positive1, confidence1) in
  if negb (List.length issues1 =? 0)%nat
     && (List.length positive2 <=? List.length issues1)%nat
  then
    {| ai_confidence := Z.max (confidence2 - 20) 20;
       ai_decision := "incorrect";
       ai_reasoning := "Issues identified: " ++ join ", " issues1;
       model_used := "Rule-Based Validator";
       validation_successful := true |}
  else
    {| ai_confidence := Z.min (confidence2 + 10) 90;
       ai_decision := "correct";
       ai_reasoning := "Validation passed: " ++ join ", " positive2;
       model_used := "Rule-Based Validator";
       validation_successful := true |}.

(** *** [_make_validation_decision] *)

Record Decision := {
  d_is_correct : bool;
  d_confidence : Z;
  d_reasoning : string;
  d_suggestions : list string
}.

Definition check_mark : string := "✅".
Definition cross_mark : string := "❌".

(** The mathematical check: (reasoning_parts, major_issues, confidence). *)
Definition math_priority (answer_analysis : AnswerAnalysis)
  : Result (list string * list string * Z) :=
  match math_validation answer_analysis with
  | Some math_val =>
      if is_correct math_val
      then Return ([check_mark ++ " Mathematical calculation verified as correct"],
                   [], 90)
      else
        expected <- format (expected_result math_val) ;;
        provided <- format (provided_result math_val) ;;
        Return ([],
                [cross_mark ++ " Mathematical error: Expected "
                   ++ expected ++ ", got " ++ provided],
                30)
  | None => Return ([], [], 85)
  end.

(** The answer-type check: (reasoning_parts, major_issues) to append.  In
    the informational branch the source evaluates
    [len(answer_analysis.get('response_length', 0))] on the integer stored
    by [_analyze_answer_content]. *)
Definition content_check (answer_analysis : AnswerAnalysis)
  : Result (list string * list string) :=
  if String.eqb (answer_type answer_analysis) "mathematical" then
    if contains_calculation answer_analysis
    then Return (["Contains appropriate numerical calculation for math query"], [])
    else Return ([], ["Mathematical query missing numerical answer"])
  else if String.eqb (answer_type answer_analysis) "weather" then
    if contains_factual_info answer_analysis
    then Return (["Contains relevant weather information"], [])
    else Return ([], ["Weather query missing weather information"])
  else if String.eqb (answer_type answer_analysis) "informational" then
    if contains_factual_info answer_analysis
    then Return (["Contains appropriate factual information"], [])
    else
      n <- py_len (AnInt (response_length answer_analysis)) ;;
      if n <? 20
      then Return ([], ["Informational query has very brief response"])
      else Return ([], [])
  else Return ([], []).

Definition reasoning_note (reasoning_score : Z) : string :=
  if 80 <=? reasoning_score
  then "Strong reasoning process (" ++ str_Z reasoning_score ++ "%)"
  else if 60 <=? reasoning_score
  then "Adequate reasoning process (" ++ str_Z reasoning_score ++ "%)"
  else "Basic reasoning process (" ++ str_Z reasoning_score ++ "%)".

(** The AI nudge: (reasoning_parts to append, confidence). *)
Definition ai_nudge (ai_validation : AIValidation) (confidence : Z)
  : list string * Z :=
  if validation_successful ai_validation then
    if String.eqb (ai_decision ai_validation) "correct"
    then (["AI model confirms answer correctness"], Z.min (confidence + 5) 95)
    else if String.eqb (ai_decision ai_validation) "incorrect"
    then (["AI model has concerns about the answer"], Z.max (confidence - 15) 40)
    else ([], confidence)
  else (["AI validation unavailable"], confidence).

Definition minor_suggestions (answer_analysis : AnswerAnalysis) : list string :=
  firstn 2
    (filter (fun issue => negb (contains "lacks clear result format" issue)
                          && negb (contains "too brief" issue))
            (potential_issues answer_analysis)).

Definition _make_validation_decision (answer_analysis : AnswerAnalysis)
  (reasoning_validation : ReasoningValidation) (ai_validation : AIValidation)
  : Result Decision :=
  prior <- math_priority answer_analysis ;;
  let '(parts0, major0, confidence0) := prior in
  checked <- content_check answer_analysis ;;
  let '(parts1, major1) := checked in
  let '(parts2, confidence1) := ai_nudge ai_validation confidence0 in
  let reasoning_parts :=
    app parts0 (app parts1
      (reasoning_note (completeness_score reasoning_validation) :: parts2)) in
  let major_issues := app major0 major1 in
  match major_issues with
  | _ :: _ =>
      Return {| d_is_correct := false;
                d_confidence := Z.max (confidence1 - 30) 20;
                d_reasoning :=
                  cross_mark ++ " ANSWER FLAGGED: " ++ join " | " major_issues;
                d_suggestions := major_issues |}
  | [] =>
      Return {| d_is_correct := true;
                d_confidence := confidence1;
                d_reasoning :=
                  check_mark ++ " ANSWER VALIDATED: " ++ join " | " reasoning_parts;
                d_suggestions := minor_suggestions answer_analysis |}
  end.

(** *** [validate_response] *)

Record ValidationReport := {
  timestamp : string;
  original_query : string;
  mrkl_response : string;
  validation_decision : bool;
  confidence_level : Z;
  validation_reasoning : string;
  answer_analysis_of : AnswerAnalysis;
  reasoning_validation_of : ReasoningValidation;
  ai_validation_of : AIValidation;
  improvement_suggestions : list string;
  validation_status : string
}.

(** [self.validation_history] is threaded through: the call returns the
    report or the exception, and the history after it. *)
Definition validate_response (validation_history : list ValidationReport)
  (query response : string) (reasoning_steps : list ReasoningStep)
  : Result ValidationReport * list ValidationReport :=
  match _analyze_answer_content query response with
  | Raise e => (Raise e, validation_history)
  | Return answer_analysis =>
  let reasoning_validation := _validate_reasoning_chain reasoning_steps query in
  let ai_validation := _ai_powered_validation query response reasoning_steps in
  match _make_validation_decision answer_analysis reasoning_validation
                                  ai_validation with
  | Raise e => (Raise e, validation_history)
  | Return final_decision =>
      let validation_report :=
        {| timestamp := now;
           original_query := query;
           mrkl_response := response;
           validation_decision := d_is_correct final_decision;
           confidence_level := d_confidence final_decision;
           validation_reasoning := d_reasoning final_decision;
           answer_analysis_of := answer_analysis;
           reasoning_validation_of := reasoning_validation;
           ai_validation_of := ai_validation;
           improvement_suggestions := d_suggestions final_decision;
           validation_status :=
             if d_is_correct final_decision then "CORRECT" else "INCORRECT" |} in
      (Return validation_report, app validation_history [validation_report])
  end
  end.

End Collaborators.

Arguments VInt {F} z.
Arguments VFloat {F} f.
Arguments VObj {F} o.
Arguments Returns {F} v.
Arguments Raises {F} e.
Arguments is_correct {F} m.
Arguments expected_result {F} m.
Arguments provided_result {F} m.
Arguments expression {F} m.
Arguments answer_type {F} a.
Arguments contains_calculation {F} a.
Arguments contains_factual_info {F} a.
Arguments response_length {F} a.
Arguments specific_patterns {F} a.
Arguments potential_issues {F} a.
Arguments math_validation {F} a.
Arguments content_check {F} answer_analysis.
Arguments minor_suggestions {F} answer_analysis.
Arguments timestamp {F} v.
Arguments original_query {F} v.
Arguments mrkl_response {F} v.
Arguments validation_decision {F} v.
Arguments confidence_level {F} v.
Arguments validation_reasoning {F} v.
Arguments answer_analysis_of {F} v.
Arguments reasoning_validation_of {F} v.
Arguments ai_validation_of {F} v.
Arguments improvement_suggestions {F} v.
Arguments validation_status {F} v.

End Reflector.

(** ** agent.py: [process_query], the pipeline *)

Module Pipeline.
Import PyStr PyRe Agent Reflector.
Open Scope bool_scope.
Open Scope Z_scope.

Section Collaborators.

Variable F : Type.
Variable py_eval : string -> Outcome F.
Variable py_float : string -> F.
Variable float_close : PyVal F -> PyVal F -> option bool.
Variable py_equal : PyVal F -> PyVal F -> bool.
Variable show : option (PyVal F) -> string.
Variable now : string.
(** [TOOLS[name].execute(parameters)]: every adapter catches
    [Exception] and answers with text; [None] stands for what it does not
    catch, the [SystemExit] that [eval] raises in the calculator on
    [exit(...)]. *)
Variable tool_execute : ToolId -> string -> option string.
(** The hosted model's text, when a token is configured and the call
    succeeds with a non-empty answer. *)
Variable llm_generate : string -> string -> option string.

Definition Report : Type := ValidationReport F.

(** The dictionary literal built for rejected input. *)
Record ValidationDetails := {
  vd_answer_type : string;
  vd_contains_factual_info : bool;
  vd_specific_patterns : list string;
  vd_potential_issues : list string
}.

Record InputVerdict := {
  overall_decision : string;
  confidence : Z;
  reasoning : string;
  validation_details : ValidationDetails
}.

(** What the envelope carries under ['validation']. *)
Inductive Validation :=
| FromReflector (report : Report)
| ForInvalidInput (verdict : InputVerdict).

(** The keys of the dictionary under ['validation']. *)
Definition validation_keys (v : Validation) : list string :=
  match v with
  | FromReflector _ =>
      ["timestamp"; "original_query"; "mrkl_response"; "validation_decision";
       "confidence_level"; "validation_reasoning"; "answer_analysis";
       "reasoning_validation"; "ai_validation"; "improvement_suggestions";
       "validation_status"]
  | ForInvalidInput _ =>
      ["overall_decision"; "confidence"; "reasoning"; "validation_details"]
  end.

(** [validation.get('validation_decision')] *)
Definition get_validation_decision (v : Validation) : option bool :=
  match v with
  | FromReflector report => Some (validation_decision report)
  | ForInvalidInput _ => None
  end.

(** The dictionary [process_query] returns (['reflection'] is the same
    object as ['validation']). *)
Record Envelope := {
  response : string;
  reasoning_steps : list ReasoningStep;
  tool_used : string;
  parameters : string;
  validation : Validation
}.

(** The two mutable attributes a call touches. *)
Record AgentState := {
  self_reasoning_steps : list ReasoningStep;
  validation_history : list Report
}.

Definition knowledge_response : string :=
  "The Rabbitron Lab is hosting a workshop about AI agents where students and researchers can learn about artificial intelligence, autonomous systems, and intelligent agent development.".

Definition error_response : string :=
  "I'm sorry, but your input appears to be random characters or doesn't contain recognizable words. Could you please provide a clear question or request? For example:"
  ++ String (ascii_of_nat 10) (String (ascii_of_nat 10) EmptyString)
  ++ "• Ask for a calculation: 'What is 25 * 4 + 100?'"
  ++ String (ascii_of_nat 10) EmptyString
  ++ "• Request weather: 'What's the weather in London?'"
  ++ String (ascii_of_nat 10) EmptyString
  ++ "• Search for information: 'What is quantum computing?'"
  ++ String (ascii_of_nat 10) EmptyString
  ++ "• Get news: 'Latest news about AI'".

Definition invalid_input_verdict : InputVerdict :=
  {| overall_decision := "correct";
     confidence := 95;
     reasoning :=
       "Correctly identified and handled meaningless input with helpful guidance";
     validation_details :=
       {| vd_answer_type := "error_handling";
          vd_contains_factual_info := false;
          vd_specific_patterns :=
            ["Input validation error"; "Helpful guidance provided"];
          vd_potential_issues := [] |} |}.

(** The keyword conjunction of the special case. *)
Definition is_special_case (query : string) : bool :=
  let query_lower := lower query in
  contains "heriot" query_lower && contains "watt" query_lower
  && (contains "current" query_lower || contains "event" query_lower
      || contains "happening" query_lower).

Definition special_case_steps : list ReasoningStep :=
  [{| step := "Query Analysis";
      content := "Detected specific question about current events at Heriot-Watt University" |};
   {| step := "Knowledge Retrieval";
      content := "Accessing prepared information about Rabbitron Lab activities" |};
   {| step := "Response Generation";
      content := "Providing current workshop information" |}].

(** [execute_tool] for a tool of [TOOLS]: the result, and the steps it
    records on the way (one before the adapter runs, one after). *)
Definition execute_tool (tool : ToolId) (parameters : string)
  : Result string * list ReasoningStep :=
  match tool with
  | invalid => (Return ("Tool " ++ tool_name tool ++ " not found"), [])
  | _ =>
      let started :=
        {| step := "Tool Execution";
           content := "Executing " ++ tool_name tool ++ " with parameters: "
                        ++ parameters |} in
      match tool_execute tool parameters with
      | Some result =>
          (Return result, [started; {| step := "Result"; content := result |}])
      | None => (Raise SystemExit, [started])
      end
  end.

Definition _create_smart_response (query tool_result : string) : string :=
  tool_result.

Definition generate_response (query tool_result : string) : string :=
  match llm_generate query tool_result with
  | Some generated_text => generated_text
  | None => _create_smart_response query tool_result
  end.

Definition reflect (st : AgentState) (query response : string)
  (steps : list ReasoningStep) : Result Report * AgentState :=
  let '(outcome, history) :=
    validate_response F py_eval py_float float_close py_equal show now
                      (validation_history st) query response steps in
  (outcome,
   {| self_reasoning_steps := steps; validation_history := history |}).

Definition process_query (st : AgentState) (query : string)
  : Result Envelope * AgentState :=
  if is_special_case query then
    let '(outcome, st') := reflect st query knowledge_response special_case_steps in
    (validation <- outcome ;;
     Return {| response := knowledge_response;
               reasoning_steps := special_case_steps;
               tool_used := "University Knowledge Base";
               parameters := "Heriot-Watt University Current Events";
               validation := FromReflector validation |},
     st')
  else
    let '(selected_tool, steps) := think query in
    match selected_tool with
    | invalid =>
        let steps :=
          app steps
              [{| step := "Input Validation Failed";
                  content := "Query appears to be random characters or meaningless input" |}] in
        (Return {| response := error_response;
                   reasoning_steps := steps;
                   tool_used := "input_validator";
                   parameters := "invalid_input_detected";
                   validation := ForInvalidInput invalid_input_verdict |},
         {| self_reasoning_steps := steps;
            validation_history := validation_history st |})
    | _ =>
        let parameters := extract_parameters query selected_tool in
        let steps :=
          app steps [{| step := "Parameter Extraction";
                        content := "Extracted parameters: " ++ parameters |}] in
        match execute_tool selected_tool parameters with
        | (Raise e, executed) =>
            (Raise e,
             {| self_reasoning_steps := app steps executed;
                validation_history := validation_history st |})
        | (Return tool_result, executed) =>
            let final_response := generate_response query tool_result in
            let steps :=
              app steps
                  (app executed
                       [{| step := "Final Response"; content := final_response |}]) in
            let '(outcome, st') := reflect st query final_response steps in
            (validation <- outcome ;;
             Return {| response := final_response;
                       reasoning_steps := steps;
                       tool_used := tool_name selected_tool;
                       parameters := parameters;
                       validation := FromReflector validation |},
             st')
        end
    end.

End Collaborators.

Arguments FromReflector {F} report.
Arguments ForInvalidInput {F} verdict.
Arguments validation_keys {F} v.
Arguments get_validation_decision {F} v.
Arguments response {F} e.
Arguments reasoning_steps {F} e.
Arguments tool_used {F} e.
Arguments parameters {F} e.
Arguments validation {F} e.
Arguments self_reasoning_steps {F} a.
Arguments validation_history {F} a.

End Pipeline.

(** ** The router as the specification words it

    "An ordered list of (predicate, label) pairs evaluated top-to-bottom
    with first-match-wins semantics", defaulting to search. *)

Module RouterSpec.
Import PyStr Agent.

Definition routing_table : list (list string * ToolId) :=
  [(calculator_keywords, calculator);
   (weather_keywords, weather);
   (news_keywords, news);
   (search_keywords, search)].

Fixpoint first_match (table : list (list string * ToolId)) (query_lower : string)
  : ToolId :=
  match table with
  | [] => search
  | (keywords, label) :: rest =>
      if any_in keywords query_lower then label
      else first_match rest query_lower
  end.

Definition select_tool (query : string) : ToolId :=
  first_match routing_table (lower query).

End RouterSpec.

(** ** A closed choice of collaborators, to run the pipeline on examples *)

Module Closed.
Import PyStr Agent Reflector Pipeline.
Open Scope Z_scope.

(** No float is ever built by the examples. *)
Definition F : Type := unit.

(** [eval] on the two expressions the examples use. *)
Definition py_eval (safe_expr : string) : Outcome F :=
  if String.eqb safe_expr "2+2" then Returns (VInt 4)
  else if String.eqb safe_expr "2-5" then Returns (VInt (-3))
  else Raises SyntaxError.

Definition py_float (_ : string) : F := tt.
Definition float_close (_ _ : PyVal F) : option bool := None.
Definition py_equal (_ _ : PyVal F) : bool := false.

Definition show (v : option (PyVal F)) : string :=
  match v with
  | Some (VInt z) => str_Z z
  | Some (VFloat _) => "0.0"
  | Some (VObj _) => "()"
  | None => "None"
  end.

Definition now : string := "2025-01-01 00:00:00".
Definition tool_execute (t : ToolId) (parameters : string) : option string :=
  Some ("Result of " ++ tool_name t ++ " for " ++ parameters).
Definition llm_generate (_ _ : string) : option string := None.

Definition validate :=
  validate_response F py_eval py_float float_close py_equal show now.
Definition recheck :=
  _validate_mathematical_answer F py_eval py_float float_close py_equal.
Definition process :=
  process_query F py_eval py_float float_close py_equal show now tool_execute llm_generate.

Definition fresh : AgentState F :=
  {| self_reasoning_steps := []; validation_history := [] |}.

End Closed.

(** ** tools.py: the calculator adapter and the search adapter's cleaning *)

Module Tools.
Import PyStr.
Open Scope bool_scope.

(** [c.isalnum()] on an ASCII character. *)
Definition is_alnum (c : ascii) : bool := is_alpha c || is_digit c.

(** [str(math.pi)], and the Greek letter as its two UTF-8 bytes. *)
Definition pi_text : string := "3.141592653589793".
Definition pi_sign : string :=
  String (ascii_of_nat 207) (String (ascii_of_nat 128) EmptyString).

Definition allowed_chars : string := "0123456789+-*/.() ".

(** What [eval(safe_expression)] does: a value, printed by the f-string; an
    [Exception], with its [str(e)]; or something [except Exception] does
    not catch ([SystemExit] from [exit()]). *)
Inductive Evaluated :=
| Value (text : string)
| Failure (message : string)
| Uncaught.

Module Calculator.
Section Eval.

Variable py_eval : string -> Evaluated.

(** [Calculator.execute]; [None] stands for the uncaught exit. *)
Definition execute (expression : string) : option string :=
  let safe_expression :=
    replace "pi" pi_text
      (replace pi_sign pi_text (replace "^" "**" expression)) in
  if forallb_str (fun c => PyRe.one_of allowed_chars c || is_alnum c)
                 safe_expression
  then
    match py_eval safe_expression with
    | Value result =>
        Some ("Calculation: " ++ expression ++ " = " ++ result)
    | Failure message =>
        Some ("Error calculating " ++ expression ++ ": " ++ message)
    | Uncaught => None
    end
  else Some "Error: Invalid characters in expression".

End Eval.
End Calculator.

(** [Search._clean_search_query] *)
Definition clean_stop_words : list string :=
  ["tell"; "me"; "about"; "explain"; "define"].

Definition _clean_search_query (query : string) : string :=
  let words := split (lower query) in
  let cleaned_words := filter (fun word => negb (mem word clean_stop_words)) words in
  match cleaned_words with
  | [] => query
  | _ => join " " cleaned_words
  end.

End Tools.

(** ** reflector_agent.py: the summary and the compatibility wrapper *)

Module Reports.
Import PyStr Agent Reflector.
Open Scope bool_scope.
Open Scope Z_scope.

(** [len(text)] for text that carries characters outside ASCII as UTF-8:
    the bytes that do not continue a character. *)
Definition is_continuation (a : ascii) : bool := between 128 191 a.

Fixpoint text_len (s : string) : Z :=
  match s with
  | EmptyString => 0
  | String a t => (if is_continuation a then 0 else 1) + text_len t
  end.

(** [l[-n:]] *)
Definition last_n {A : Type} (n : nat) (l : list A) : list A :=
  skipn (List.length l - n) l.

Section Collaborators.

Variable F : Type.
Variable py_eval : string -> Outcome F.
Variable py_float : string -> F.
Variable float_close : PyVal F -> PyVal F -> option bool.
Variable py_equal : PyVal F -> PyVal F -> bool.
Variable show : option (PyVal F) -> string.
Variable now : string.
(** [round((correct_count / total_validations) * 100, 1)] and
    [round(sum_of_confidence / total_validations, 1)]. *)
Variable percent_rounded : Z -> Z -> F.
Variable mean_rounded : Z -> Z -> F.

Record Summary := {
  total_validations : Z;
  accuracy_rate : F;
  average_confidence : F;
  recent_correct : Z;
  recent_total : Z;
  latest_validation : string;
  validation_trend : string
}.

Inductive SummaryResult :=
| NoValidations (message : string)
| Summarised (summary : Summary).

(** [sum(1 for v in l if v['validation_decision'])] *)
Definition count_correct (l : list (ValidationReport F)) : Z :=
  Z.of_nat (List.length (filter (fun v => validation_decision v) l)).

Definition sum_confidence (l : list (ValidationReport F)) : Z :=
  fold_right (fun v acc => confidence_level v + acc) 0 l.

(** [get_validation_summary].  [accuracy_rate] is the double
    [(correct / total) * 100]; it exceeds 80 exactly when
    [100 * correct > 80 * total] and is below 60 exactly when
    [100 * correct < 60 * total] (at the two boundaries the double is
    exactly 80.0 and 60.0), for every history shorter than 2^45. *)
Definition get_validation_summary (validation_history : list (ValidationReport F))
  : SummaryResult :=
  match validation_history with
  | [] => NoValidations "No validations performed yet"
  | first :: _ =>
      let total := Z.of_nat (List.length validation_history) in
      let correct_count := count_correct validation_history in
      let recent_validations := last_n 5 validation_history in
      Summarised
        {| total_validations := total;
           accuracy_rate := percent_rounded correct_count total;
           average_confidence :=
             mean_rounded (sum_confidence validation_history) total;
           recent_correct := count_correct recent_validations;
           recent_total := Z.of_nat (List.length recent_validations);
           latest_validation := timestamp (last validation_history first);
           validation_trend :=
             if 80 * total <? 100 * correct_count then "Improving"
             else if 100 * correct_count <? 60 * total then "Needs attention"
             else "Stable" |}
  end.

Record ResponseQuality := {
  relevance : Z;
  completeness : Z;
  accuracy_likelihood : Z;
  clarity : Z
}.

Record Reflection := {
  r_timestamp : string;
  response_quality : ResponseQuality;
  reasoning_analysis : ReasoningValidation;
  r_improvement_suggestions : list string;
  confidence_score : Z;
  r_validation_status : string;
  r_validation_reasoning : string;
  r_ai_validation : AIValidation
}.

(** [reflect_on_response] *)
Definition reflect_on_response (validation_history : list (ValidationReport F))
  (original_query mrkl_response : string) (reasoning_steps : list ReasoningStep)
  : Result Reflection * list (ValidationReport F) :=
  let '(outcome, history) :=
    validate_response F py_eval py_float float_close py_equal show now
                      validation_history original_query mrkl_response
                      reasoning_steps in
  (validation_result <- outcome ;;
   Return
     {| r_timestamp := timestamp validation_result;
        response_quality :=
          {| relevance := if validation_decision validation_result then 85 else 45;
             completeness := confidence_level validation_result;
             accuracy_likelihood := confidence_level validation_result;
             clarity :=
               if 20 <? text_len (validation_reasoning validation_result)
               then 80 else 60 |};
        reasoning_analysis := reasoning_validation_of validation_result;
        r_improvement_suggestions := improvement_suggestions validation_result;
        confidence_score := confidence_level validation_result;
        r_validation_status := validation_status validation_result;
        r_validation_reasoning := validation_reasoning validation_result;
        r_ai_validation := ai_validation_of validation_result |},
   history).

End Collaborators.

Arguments total_validations {F} s.
Arguments accuracy_rate {F} s.
Arguments average_confidence {F} s.
Arguments recent_correct {F} s.
Arguments recent_total {F} s.
Arguments latest_validation {F} s.
Arguments validation_trend {F} s.
Arguments NoValidations {F} message.
Arguments Summarised {F} summary.
Arguments count_correct {F} l.
Arguments sum_confidence {F} l.

End Reports.

(** ** Patterns read declaratively

    What it means for a pattern to match a stretch of text, whatever the
    order in which the matcher tries its alternatives; and the shapes of
    continuation-passing matchers the proofs go through. *)

Module PyReSpec.
Import PyStr PyRe.

(** [n] rounds of [step], each consuming at least one character. *)
Inductive iterates (step : string -> caps -> string -> caps -> Prop)
  : nat -> string -> caps -> string -> caps -> Prop :=
| iterates_stop (rest : string) (c : caps) : iterates step 0 rest c rest c
| iterates_more (n : nat) (rest : string) (c : caps) (rest1 : string) (c1 : caps)
    (rest2 : string) (c2 : caps) :
    step rest c rest1 c1 -> (len rest1 < len rest)%nat ->
    iterates step n rest1 c1 rest2 c2 ->
    iterates step (S n) rest c rest2 c2.

Definition within (hi : option nat) (n : nat) : Prop :=
  match hi with
  | None => True
  | Some h => (n <= h)%nat
  end.

(** [matches s0 r rest c rest' c']: read as a pattern, [r] matches the
    text between the suffixes [rest] and [rest'] of [s0], turning the
    groups [c] into [c']. *)
Fixpoint matches (s0 : string) (r : regex) (rest : string) (c : caps)
  (rest' : string) (c' : caps) : Prop :=
  match r with
  | Eps => rest' = rest /\ c' = c
  | Chr p => exists a, p a = true /\ rest = String a rest' /\ c' = c
  | Seq r1 r2 =>
      exists mid cm, matches s0 r1 rest c mid cm /\ matches s0 r2 mid cm rest' c'
  | Alt r1 r2 => matches s0 r1 rest c rest' c' \/ matches s0 r2 rest c rest' c'
  | Rep _ lo hi r1 =>
      exists n, (lo <= n)%nat /\ within hi n
                /\ iterates (matches s0 r1) n rest c rest' c'
  | Grp i r1 =>
      exists cm, matches s0 r1 rest c rest' cm
                 /\ c' = (i, take (len rest - len rest') rest) :: cm
  | Bref i =>
      exists t, group i c = Some t /\ prefix t rest = true
                /\ rest' = drop (len t) rest /\ c' = c
  | Bol => len rest = len s0 /\ rest' = rest /\ c' = c
  | Eol =>
      (rest = EmptyString \/ rest = String (ascii_of_nat 10) EmptyString)
      /\ rest' = rest /\ c' = c
  end.

(** Every character [r] can consume satisfies [P]. *)
Fixpoint made_of (P : ascii -> bool) (r : regex) : Prop :=
  match r with
  | Chr p => forall a, p a = true -> P a = true
  | Seq r1 r2 | Alt r1 r2 => made_of P r1 /\ made_of P r2
  | Rep _ _ _ r1 | Grp _ r1 => made_of P r1
  | Bref _ => False
  | Eps | Bol | Eol => True
  end.

(** Every group numbered [i] of [r] encloses a pattern made of [P]. *)
Fixpoint groups_made_of (P : ascii -> bool) (i : nat) (r : regex) : Prop :=
  match r with
  | Seq r1 r2 | Alt r1 r2 => groups_made_of P i r1 /\ groups_made_of P i r2
  | Rep _ _ _ r1 => groups_made_of P i r1
  | Grp j r1 =>
      groups_made_of P i r1 /\ ((i =? j)%nat = true -> made_of P r1)
  | Eps | Chr _ | Bref _ | Bol | Eol => True
  end.

(** A matcher in continuation-passing style. *)
Definition matcher : Type := string -> caps -> cont -> option (string * caps).

(** Whatever [body] answers, it got from its continuation, called where
    [step] leads. *)
Definition sound (body : matcher)
  (step : string -> caps -> string -> caps -> Prop) : Prop :=
  forall rest c k x, body rest c k = Some x ->
    exists rest' c', step rest c rest' c' /\ k rest' c' = Some x.

(** [body] calls its continuation on a text that is not longer. *)
Definition calls_shorter (body : matcher) : Prop :=
  forall rest c k x, body rest c k = Some x ->
    exists rest' c', (len rest' <= len rest)%nat /\ k rest' c' = Some x.

(** [k] has no answer on a text with the property [P]. *)
Definition fails_on (P : string -> Prop) (k : cont) : Prop :=
  forall rest c, P rest -> k rest c = None.

(** The text between [rest] and [rest'] is made of [P]. *)
Definition spans (P : ascii -> bool) (rest rest' : string) : Prop :=
  exists t, rest = t ++ rest' /\ forallb_str P t = true.

(** Group [i], when bound, holds a text made of [P]. *)
Definition group_ok (P : ascii -> bool) (i : nat) (c : caps) : Prop :=
  forall t, group i c = Some t -> forallb_str P t = true.

End PyReSpec.

(** ** Notions the further properties are stated with *)

Module Notions.
Import PyStr PyRe Agent Reflector.
Open Scope bool_scope.

(** One character, [n] times: [a * n]. *)
Definition stutter (a : ascii) (n : nat) : string := tile (String a EmptyString) n.

(** No white space in [w]; a word is what [str.split] yields. *)
Definition spaceless (w : string) : bool :=
  forallb_str (fun a => negb (is_space a)) w.

Definition word (w : string) : Prop := w <> EmptyString /\ spaceless w = true.

(** [c in s] for one character. *)
Definition has_char (c : ascii) (s : string) : bool := existsb_str (Ascii.eqb c) s.

(** No upper-case letter in [s]. *)
Definition no_upper (s : string) : bool :=
  forallb_str (fun a => negb (is_upper_c a)) s.

Definition digitless (s : string) : Prop := existsb_str is_digit s = false.

(** The characters of [\d+(?:\.\d+)?]. *)
Definition number_char (a : ascii) : bool := is_digit a || Ascii.eqb "." a.



(** The f-string cannot print [v]: an int of more than
    [int_max_str_digits] digits. *)
Definition unprintable_result {F : Type} (v : option (PyVal F)) : bool :=
  match v with
  | Some (VInt z) => unprintable z
  | _ => false
  end.

(** The keyword lists of [_analyze_answer_content]. *)
Definition math_words : list string :=
  ["calculate"; "math"; "+"; "-"; "*"; "/"; "="].
Definition weather_words : list string := ["weather"; "temperature"; "climate"].
Definition question_words : list string :=
  ["what"; "who"; "where"; "when"; "why"; "how"].

End Notions.

(** ** What [process_query] records and answers on the way through a tool *)

Module Traces.
Import PyStr Agent Pipeline.

Section Collaborators.

Variable llm_generate : string -> string -> option string.

(** The step recorded before the adapter runs. *)
Definition tool_started (query : string) : ReasoningStep :=
  let tool := fst (think query) in
  {| step := "Tool Execution";
     content := "Executing " ++ tool_name tool ++ " with parameters: "
                  ++ extract_parameters query tool |}.

(** The steps recorded up to the adapter's run. *)
Definition steps_before_tool (query : string) : list ReasoningStep :=
  let tool := fst (think query) in
  app (snd (think query))
      [{| step := "Parameter Extraction";
          content := "Extracted parameters: " ++ extract_parameters query tool |};
       tool_started query].

(** The response to a query whose adapter answered [tool_result]. *)
Definition tool_response (query tool_result : string) : string :=
  generate_response llm_generate query tool_result.

(** The steps of a query whose adapter answered [tool_result]. *)
Definition tool_steps (query tool_result : string) : list ReasoningStep :=
  app (steps_before_tool query)
      [{| step := "Result"; content := tool_result |};
       {| step := "Final Response"; content := tool_response query tool_result |}].

End Collaborators.

End Traces.

(** ** The closed collaborators of the summary *)

Module ClosedReports.
Import Reports.

Definition percent_rounded (_ _ : Z) : Closed.F := tt.
Definition mean_rounded (_ _ : Z) : Closed.F := tt.
Definition summary :=
  get_validation_summary Closed.F percent_rounded mean_rounded.

End ClosedReports.

(** * Properties *)

Import PyStr PyRe Agent Reflector Pipeline.

(** ** Strings and the matcher *)

Section MatcherFacts.
Local Open Scope nat_scope.

Lemma len_app (a b : string) : len (a ++ b) = len a + len b.
Proof. unfold len. induction a as [|x a IH]; cbn; [reflexivity|]. now rewrite IH. Qed.

Lemma app_assoc_str (a b c : string) : (a ++ b) ++ c = a ++ (b ++ c).
Proof. induction a as [|x a IH]; cbn; [reflexivity|]. now rewrite IH. Qed.

Lemma prefix_app (u t : string) : prefix u (u ++ t) = true.
Proof.
  induction u as [|x u IH]; cbn; [now destruct t|].
  destruct (ascii_dec x x); [exact IH|contradiction].
Qed.

Lemma drop_app (u t : string) : drop (len u) (u ++ t) = t.
Proof. unfold len. induction u as [|x u IH]; cbn; [reflexivity|exact IH]. Qed.

Lemma take_app (u t : string) : take (len u) (u ++ t) = u.
Proof. unfold len. induction u as [|x u IH]; cbn; [now destruct t|]. now rewrite IH. Qed.

Section Loop.
Variable body : string -> caps -> cont -> option (string * caps).
Variables (greedy : bool) (lo : nat) (hi : option nat) (k : cont).

Lemma rep_loop_more (fuel n : nat) (rest : string) (c : caps)
  (rest' : string) (c' : caps) :
  leads body rest c rest' c' -> under hi n = true -> len rest' < len rest ->
  rep_loop body greedy lo hi k fuel (S n) rest' c' <> None ->
  rep_loop body greedy lo hi k (S fuel) n rest c <> None.
Proof.
  intros Hl Hu Hlt Hnext. cbn [rep_loop]. rewrite Hu.
  match goal with
  | |- context [body rest c ?k'] =>
      assert (Hmore : body rest c k' <> None)
  end.
  { apply Hl. rewrite (proj2 (Nat.ltb_lt _ _) Hlt). exact Hnext. }
  destruct greedy.
  - destruct (body rest c _); [discriminate|contradiction].
  - destruct (if lo <=? n then k rest c else None); [discriminate|exact Hmore].
Qed.

Lemma rep_loop_stop (fuel n : nat) (rest : string) (c : caps) :
  lo <= n -> k rest c <> None ->
  rep_loop body greedy lo hi k (S fuel) n rest c <> None.
Proof.
  intros Hlo Hk. cbn [rep_loop]. rewrite (proj2 (Nat.leb_le _ _) Hlo).
  destruct greedy.
  - destruct (if under hi n then _ else None); [discriminate|exact Hk].
  - destruct (k rest c); [discriminate|contradiction].
Qed.
End Loop.

Lemma dot_leads (s0 : string) (a : ascii) (t : string) (c : caps) :
  (code a =? 10)%nat = false -> leads (run s0 dot) (String a t) c t c.
Proof. intros Ha k Hk. cbn. now rewrite Ha. Qed.

Lemma bref_leads (s0 : string) (i : nat) (u t : string) (c : caps) :
  group i c = Some u -> leads (run s0 (Bref i)) (u ++ t) c t c.
Proof.
  intros Hg k Hk. cbn. rewrite Hg, prefix_app, drop_app. exact Hk.
Qed.

Lemma dots_consume (s0 : string) (lo h : nat) (k : cont) (u : string) :
  no_newline u = true ->
  forall (n fuel : nat) (tail : string) (c : caps),
    len u < fuel -> n + len u <= h ->
    (forall fuel', 0 < fuel' ->
       rep_loop (run s0 dot) true lo (Some h) k fuel' (n + len u) tail c <> None) ->
    rep_loop (run s0 dot) true lo (Some h) k fuel n (u ++ tail) c <> None.
Proof.
  induction u as [|a u IH]; intros Hu n fuel tail c Hfuel Hh Hend.
  - unfold len in *. cbn in *. rewrite Nat.add_0_r in Hend. apply Hend. lia.
  - cbn in Hu. apply andb_prop in Hu as [Ha Hu].
    apply negb_true_iff in Ha. unfold len in *. cbn [String.length] in *.
    destruct fuel as [|fuel]; [lia|].
    apply rep_loop_more with (rest' := u ++ tail) (c' := c).
    + cbn [append]. now apply dot_leads.
    + cbn. apply Nat.ltb_lt. lia.
    + unfold len. cbn. lia.
    + apply IH; [exact Hu|lia|lia|].
      intros fuel' Hf. replace (S n + String.length u) with (n + S (String.length u)) by lia.
      now apply Hend.
Qed.

Lemma brefs_consume (s0 : string) (lo i : nat) (k : cont) (u : string) (m : nat) :
  u <> EmptyString ->
  forall (n fuel : nat) (tail : string) (c : caps),
    group i c = Some u -> m < fuel ->
    (forall fuel', 0 < fuel' ->
       rep_loop (run s0 (Bref i)) true lo None k fuel' (n + m) tail c <> None) ->
    rep_loop (run s0 (Bref i)) true lo None k fuel n (tile u m ++ tail) c <> None.
Proof.
  intros Hne. induction m as [|m IH]; intros n fuel tail c Hg Hfuel Hend.
  - cbn. rewrite Nat.add_0_r in Hend. apply Hend. lia.
  - destruct fuel as [|fuel]; [lia|]. cbn [tile]. rewrite app_assoc_str.
    apply rep_loop_more with (rest' := tile u m ++ tail) (c' := c).
    + now apply bref_leads.
    + reflexivity.
    + rewrite !len_app. destruct u; [contradiction|]. unfold len. cbn. lia.
    + apply IH; [exact Hg|lia|].
      intros fuel' Hf. replace (S n + m) with (n + S m) by lia. now apply Hend.
Qed.

Lemma len_tile (u : string) (m : nat) : len (tile u m) = m * len u.
Proof. induction m as [|m IH]; cbn [tile]; [reflexivity|]. rewrite len_app, IH. lia. Qed.

Lemma small_pattern_matches (s0 u post : string) :
  1 <= len u <= 3 -> no_newline u = true ->
  found (match_at s0 small_pattern (tile u 5 ++ post)) = true.
Proof.
  intros Hlen Hu.
  assert (Hne : u <> EmptyString).
  { intros ->. cbn in Hlen. lia. }
  assert (Hrun : run s0 small_pattern (tile u 5 ++ post) []
                   (fun rest' c' => Some (rest', c')) <> None).
  { change (tile u 5) with (u ++ tile u 4). rewrite app_assoc_str.
    unfold small_pattern, from_to, at_least. cbn [run].
    apply (dots_consume s0 1 3 _ u Hu); [rewrite len_app; lia|lia|].
    intros fuel' Hf. destruct fuel' as [|fuel']; [lia|].
    apply rep_loop_stop; [cbn; lia|].
    rewrite (len_app u), Nat.add_sub, take_app.
    apply (brefs_consume s0 4 1 _ u 4 Hne);
      [reflexivity|rewrite len_app, len_tile; lia|].
    intros fuel'' Hf'. destruct fuel'' as [|fuel'']; [lia|].
    apply rep_loop_stop; [cbn; lia|discriminate]. }
  unfold match_at. destruct (run _ _ _ _ _) as [[e c]|]; [reflexivity|contradiction].
Qed.

Lemma search_from_suffix (s0 : string) (r : regex) (pre rest : string) :
  found (match_at s0 r rest) = true ->
  found (search_from s0 r (pre ++ rest)) = true.
Proof.
  intros Hm. induction pre as [|a pre IH].
  - cbn [append]. destruct rest; cbn [search_from];
      destruct (match_at s0 r _); try reflexivity; discriminate.
  - cbn [append search_from].
    destruct (match_at s0 r (String a (pre ++ rest))); [reflexivity|exact IH].
Qed.

Lemma repetition_detected (pre u post : string) :
  1 <= len u <= 3 -> no_newline u = true ->
  excessive_repetition (pre ++ tile u 5 ++ post) = true.
Proof.
  intros Hlen Hu. unfold excessive_repetition, PyRe.search.
  apply search_from_suffix. now apply small_pattern_matches.
Qed.

End MatcherFacts.

(** ** The input validator *)

Lemma meaningless_cases (query : string) :
  _is_meaningless_query query =
    let cleaned := lower (strip query) in
    (too_short cleaned || few_distinct cleaned || limited_charset cleaned
     || excessive_repetition cleaned || suspicious_letters cleaned
     || repetitive_prefix cleaned || keyboard_rows cleaned
     || no_words cleaned)%bool.
Proof. reflexivity. Qed.

(** Four occurrences of a unit in a row are not enough for the repetition
    pattern [(.{1,3})\1{4,}], which asks for the unit and four further
    copies; no other rule fires on this query either. *)
Lemma four_repetitions_not_flagged :
  let query := "abcabcabcabc hello world" in
  let cleaned := lower (strip query) in
  contains (tile "abc" 4) cleaned = true
  /\ excessive_repetition cleaned = false
  /\ _is_meaningless_query query = false.
Proof. vm_compute. repeat split. Qed.

(** A unit the pattern's [.] does not match is not counted: five line
    feeds in a row between two words. *)
Example newline_unit_not_flagged :
  let nl := String (ascii_of_nat 10) EmptyString in
  _is_meaningless_query ("hello" ++ tile nl 5 ++ "world") = false.
Proof. vm_compute. reflexivity. Qed.

Example readable_queries_pass :
  map _is_meaningless_query
      ["calculate 25 * 4"; "weather in London"; "what is AI"; "2+2"]
  = [false; false; false; false].
Proof. vm_compute. reflexivity. Qed.

(** C5.  For every query whose trimmed lower-cased form contains a
    substring of length 1 to 3, free of line feeds, five times in a row
    (the unit followed by four further copies; anything may precede and
    follow, so at least five occurrences), [_is_meaningless_query] returns
    [true]. *)
Theorem five_repetitions_flagged :
  forall (query pre unit post : string),
    lower (strip query) = pre ++ tile unit 5 ++ post ->
    (1 <= len unit <= 3)%nat ->
    no_newline unit = true ->
    _is_meaningless_query query = true.
Proof.
  intros query pre unit post Hshape Hlen Hunit.
  rewrite meaningless_cases. cbv zeta. rewrite Hshape.
  rewrite (repetition_detected pre unit post Hlen Hunit).
  now rewrite !orb_true_r.
Qed.

(** ** The tool router *)

Lemma think_valid (query : string) :
  _is_meaningless_query query = false ->
  fst (think query) =
    let query_lower := lower query in
    if any_in calculator_keywords query_lower then calculator
    else if any_in weather_keywords query_lower then weather
    else if any_in news_keywords query_lower then news
    else search.
Proof.
  intros Hvalid. unfold think. rewrite Hvalid. cbv zeta.
  destruct (any_in calculator_keywords (lower query)); [reflexivity|].
  destruct (any_in weather_keywords (lower query)); [reflexivity|].
  destruct (any_in news_keywords (lower query)); [reflexivity|].
  destruct (any_in search_keywords (lower query)); reflexivity.
Qed.

Lemma think_invalid (query : string) :
  _is_meaningless_query query = true -> fst (think query) = invalid.
Proof. intros Hbad. unfold think. rewrite Hbad. reflexivity. Qed.

Lemma first_match_table (query_lower : string) :
  RouterSpec.first_match RouterSpec.routing_table query_lower =
    if any_in calculator_keywords query_lower then calculator
    else if any_in weather_keywords query_lower then weather
    else if any_in news_keywords query_lower then news
    else search.
Proof.
  unfold RouterSpec.routing_table. cbn [RouterSpec.first_match].
  destruct (any_in calculator_keywords query_lower); [reflexivity|].
  destruct (any_in weather_keywords query_lower); [reflexivity|].
  destruct (any_in news_keywords query_lower); [reflexivity|].
  destruct (any_in search_keywords query_lower); reflexivity.
Qed.

(** C8.  On every query the validator lets through, [think] selects the
    label of the first row of the ordered table (arithmetic, weather, news,
    informational) whose keyword set meets the lower-cased query, and
    search when none does; an arithmetic keyword wins whatever else
    matches; the four sample queries go to calculator, weather, news and
    search, and a query with both an arithmetic keyword and informational
    phrasing goes to calculator. *)
Theorem router_first_match_cascade :
  (forall query, _is_meaningless_query query = false ->
     fst (think query) = RouterSpec.select_tool query)
  /\ (forall query, _is_meaningless_query query = false ->
        any_in calculator_keywords (lower query) = true ->
        fst (think query) = calculator)
  /\ fst (think "Calculate 12 + 7") = calculator
  /\ fst (think "Weather in Tokyo?") = weather
  /\ fst (think "Latest news about AI") = news
  /\ fst (think "What is quantum computing?") = search
  /\ (any_in calculator_keywords (lower "what is the sum of 2 and 3") = true
      /\ any_in search_keywords (lower "what is the sum of 2 and 3") = true
      /\ fst (think "what is the sum of 2 and 3") = calculator).
Proof.
  split; [|split].
  - intros query Hvalid. rewrite (think_valid query Hvalid).
    unfold RouterSpec.select_tool. now rewrite first_match_table.
  - intros query Hvalid Hcalc. rewrite (think_valid query Hvalid).
    cbv zeta. now rewrite Hcalc.
  - vm_compute. repeat split.
Qed.

(** ** The parameter extractor *)

Lemma topic_of_stop_words (stop_words : list string) (n : nat) (query : string) :
  forallb (fun w => mem w stop_words) (split (lower query)) = true ->
  topic stop_words n query = EmptyString.
Proof.
  unfold topic. intros Hall.
  assert (Hnil : filter (fun w => negb (mem w stop_words)) (split (lower query)) = []).
  { induction (split (lower query)) as [|w ws IH]; [reflexivity|].
    cbn in Hall |- *. apply andb_prop in Hall as [Hw Hws].
    rewrite Hw. cbn. now apply IH. }
  rewrite Hnil. now destruct n.
Qed.

Section ExtractorFacts.
Local Open Scope nat_scope.

Lemma len_zero (s : string) : len s = 0 -> s = EmptyString.
Proof. now destruct s. Qed.

Lemma len_map_chars (f : ascii -> ascii) (s : string) :
  len (map_chars f s) = len s.
Proof. unfold len. induction s as [|a s IH]; cbn; [reflexivity|now rewrite IH]. Qed.

Lemma len_title_go (b : bool) (s : string) : len (title_go b s) = len s.
Proof.
  unfold len. revert b. induction s as [|a s IH]; intros b; cbn; [reflexivity|].
  now rewrite IH.
Qed.

Lemma title_nonempty (s : string) : s <> EmptyString -> title s <> EmptyString.
Proof.
  intros Hs Ht. apply Hs, len_zero.
  rewrite <- (len_title_go false s). unfold title in Ht. now rewrite Ht.
Qed.

Lemma app_nonempty_r (a b : string) : b <> EmptyString -> a ++ b <> EmptyString.
Proof. destruct a; cbn; [auto|discriminate]. Qed.

Lemma first_some_in {A B : Type} (f : A -> option B) (l : list A) (y : B) :
  first_some f l = Some y -> exists x, In x l /\ f x = Some y.
Proof.
  induction l as [|x l IH]; cbn; [discriminate|].
  destruct (f x) as [y'|] eqn:Hx.
  - intros [= <-]. eauto.
  - intros Hl. destruct (IH Hl) as (x' & Hin & Hx'). eauto.
Qed.

Lemma split_go_nonempty (s cur w : string) :
  In w (split_go cur s) -> w <> EmptyString.
Proof.
  revert cur. induction s as [|a s IH]; intros cur; cbn.
  - destruct cur; cbn; [tauto|]. intros [<-|[]]. discriminate.
  - destruct (is_space a).
    + intros Hin. apply in_app_or in Hin as [Hin|Hin]; [|now apply IH in Hin].
      destruct cur; cbn in Hin; [tauto|]. destruct Hin as [<-|[]]. discriminate.
    + apply IH.
Qed.

Lemma join_nonempty (sep w : string) (l : list string) :
  w <> EmptyString -> join sep (w :: l) <> EmptyString.
Proof. destruct w; [contradiction|]. destruct l; cbn; discriminate. Qed.

(** The search and news branches: empty exactly when no token survives. *)
Lemma topic_empty_iff (stop_words : list string) (n : nat) (query : string) :
  0 < n ->
  (topic stop_words n query = EmptyString
   <-> forallb (fun w => mem w stop_words) (split (lower query)) = true).
Proof.
  intros Hn. split; [|apply topic_of_stop_words].
  unfold topic, split.
  pose proof (split_go_nonempty (lower query) EmptyString) as Hne.
  induction (split_go EmptyString (lower query)) as [|w ws IH]; [reflexivity|].
  cbn [filter forallb]. destruct (mem w stop_words); cbn [negb andb].
  - intros Ht. apply IH; [|exact Ht]. intros w' Hin. apply Hne. now right.
  - destruct n as [|n]; [lia|]. cbn [firstn]. intros Ht. exfalso.
    revert Ht. apply join_nonempty. apply Hne. now left.
Qed.

Lemma known_location_nonempty (query_lower l : string) :
  first_some (known_location query_lower) locations = Some l -> l <> EmptyString.
Proof.
  intros Hl. apply first_some_in in Hl as (x & Hin & Hx).
  unfold known_location in Hx. destruct (contains x query_lower); [|discriminate].
  injection Hx as <-. match goal with |- (if ?b then _ else _) <> _ => destruct b end; [easy|].
  apply title_nonempty. intros ->.
  revert Hin. unfold locations. cbn. intuition discriminate.
Qed.

Lemma location_by_pattern_nonempty (query_lower l : string) :
  first_some (location_by_pattern query_lower) weather_patterns = Some l ->
  l <> EmptyString.
Proof.
  intros Hl. apply first_some_in in Hl as (p & _ & Hp).
  unfold location_by_pattern in Hp.
  destruct (PyRe.search p query_lower) as [m|]; [|discriminate].
  destruct (1 <? len _) eqn:Hlen; cbn [andb] in Hp; [|discriminate].
  destruct (negb _); [|discriminate]. injection Hp as <-.
  match goal with |- (if ?b then _ else _) <> _ => destruct b end; [easy|].
  apply title_nonempty. intros Hz. rewrite Hz in Hlen. discriminate.
Qed.

Lemma proper_noun_nonempty (query w : string) :
  first_some proper_noun (split query) = Some w -> w <> EmptyString.
Proof.
  intros Hw. apply first_some_in in Hw as (x & _ & Hx).
  unfold proper_noun in Hx.
  destruct (head_is_upper x); cbn [andb] in Hx; [|discriminate].
  destruct (2 <? len x) eqn:Hlen; cbn [andb] in Hx; [|discriminate].
  destruct (negb _); [|discriminate]. injection Hx as <-.
  match goal with |- (if ?b then _ else _) <> _ => destruct b end; [easy|]. intros ->. discriminate.
Qed.

Lemma extract_weather_nonempty (query : string) :
  extract_weather query <> EmptyString.
Proof.
  unfold extract_weather.
  destruct (first_some (known_location _) locations) as [l|] eqn:H1;
    [now apply known_location_nonempty in H1|].
  destruct (first_some (location_by_pattern _) weather_patterns) as [l|] eqn:H2;
    [now apply location_by_pattern_nonempty in H2|].
  destruct (first_some proper_noun (split query)) as [w|] eqn:H3;
    [now apply proper_noun_nonempty in H3|easy].
Qed.

Lemma extract_calculator_nonempty (query : string) :
  query <> EmptyString -> extract_calculator query <> EmptyString.
Proof.
  intros Hq. unfold extract_calculator.
  destruct (longest (findall math_pattern query)) as [m|].
  - destruct (any_in _ (strip m)) eqn:Hop.
    + intros Hz. rewrite Hz in Hop. discriminate.
    + destruct (_ && _); [easy|].
      destruct (findall number_pattern query) as [|n0 [|n1 ?]]; try exact Hq.
      destruct (_ || _); [apply app_nonempty_r; discriminate|].
      destruct (_ || _); [apply app_nonempty_r; discriminate|exact Hq].
  - destruct (_ && _); [easy|].
    destruct (findall number_pattern query) as [|n0 [|n1 ?]]; try exact Hq.
    destruct (_ || _); [apply app_nonempty_r; discriminate|].
    destruct (_ || _); [apply app_nonempty_r; discriminate|exact Hq].
Qed.

(** When [extract_parameters] returns the empty string. *)
Lemma extract_parameters_empty_cases (query : string) (tool : ToolId) :
  extract_parameters query tool = EmptyString ->
  match tool with
  | search =>
      forallb (fun w => mem w search_stop_words) (split (lower query)) = true
  | news =>
      forallb (fun w => mem w news_stop_words) (split (lower query)) = true
  | weather => False
  | calculator | invalid => query = EmptyString
  end.
Proof.
  destruct tool; cbn [extract_parameters]; intros Hempty.
  - destruct query; [reflexivity|].
    exfalso. revert Hempty. now apply extract_calculator_nonempty.
  - revert Hempty. apply extract_weather_nonempty.
  - apply (topic_empty_iff search_stop_words 3 query); [lia|exact Hempty].
  - apply (topic_empty_iff news_stop_words 4 query); [lia|exact Hempty].
  - exact Hempty.
Qed.

End ExtractorFacts.

(** C6.  The query "what is the" passes the validator, is routed to
    search, and [extract_parameters] returns the empty string for it: every
    token is a search stopword and the search branch has no fallback, where
    the calculator branch falls back to the query and the weather branch
    to a default city. *)
Theorem search_parameters_can_be_empty :
  let query := "what is the" in
  _is_meaningless_query query = false
  /\ fst (think query) = search
  /\ extract_parameters query search = EmptyString.
Proof. vm_compute. repeat split. Qed.

(** ** The reflector *)

Section ReflectorFacts.

Variable F : Type.
Variable py_eval : string -> Outcome F.
Variable py_float : string -> F.
Variable float_close : PyVal F -> PyVal F -> option bool.
Variable py_equal : PyVal F -> PyVal F -> bool.
Variable show : option (PyVal F) -> string.
Variable now : string.

Local Abbreviation analyze :=
  (_analyze_answer_content F py_eval py_float float_close py_equal show).
Local Abbreviation recheck :=
  (_validate_mathematical_answer F py_eval py_float float_close py_equal).
Local Abbreviation decide := (_make_validation_decision F show).
Local Abbreviation validate :=
  (validate_response F py_eval py_float float_close py_equal show now).
Local Abbreviation printed := (format F show).

Local Open Scope Z_scope.

(** *** Printing a result *)

Lemma format_cases (v : option (PyVal F)) :
  printed v = Return (show v) \/ printed v = Raise ValueError.
Proof.
  unfold format. destruct v as [[z|f|o]|]; auto.
  destruct (unprintable z); auto.
Qed.

Lemma format_returns (v : option (PyVal F)) (text : string) :
  printed v = Return text -> text = show v.
Proof.
  destruct (format_cases v) as [-> | ->]; [now intros [= <-]|discriminate].
Qed.

Lemma format_raises (v : option (PyVal F)) (e : Raised) :
  printed v = Raise e ->
  e = ValueError /\ exists z, v = Some (VInt z) /\ unprintable z = true.
Proof.
  unfold format. destruct v as [[z|f|o]|]; try discriminate.
  destruct (unprintable z) eqn:Hz; [|discriminate].
  intros [= <-]. eauto.
Qed.

(** *** The answer analysis, branch by branch *)

Lemma analysis_of_informational (query response : string)
  (aa : AnswerAnalysis F) :
  analyze query response = Return aa ->
  answer_type aa = "informational" ->
  contains_factual_info aa = (30 <? Z.of_nat (len response))
  /\ math_validation aa = None
  /\ response_length aa = Z.of_nat (len response).
Proof.
  unfold _analyze_answer_content.
  destruct (any_in _ (lower query)).
  { destruct (existsb_str is_digit response).
    - match goal with
      | |- bind ?m _ = _ -> _ => destruct m as [found|e]
      end; cbn [bind]; [|discriminate].
      intros [= <-]. cbn. discriminate.
    - intros [= <-]. cbn. discriminate. }
  destruct (any_in _ (lower query)); [intros [= <-]; cbn; discriminate|].
  destruct (any_in _ (lower query)); intros [= <-]; cbn; [auto|discriminate].
Qed.

(** A query without arithmetic keyword is always analysed. *)
Lemma analysis_without_math (query response : string) :
  any_in ["calculate"; "math"; "+"; "-"; "*"; "/"; "="] (lower query) = false ->
  exists aa, analyze query response = Return aa
             /\ math_validation aa = None
             /\ (answer_type aa = "informational"
                 <-> any_in ["weather"; "temperature"; "climate"] (lower query)
                     = false
                     /\ any_in ["what"; "who"; "where"; "when"; "why"; "how"]
                               (lower query) = true).
Proof.
  intros Hq. unfold _analyze_answer_content. cbv zeta. rewrite Hq. clear Hq.
  cbv iota.
  destruct (any_in ["weather"; "temperature"; "climate"] (lower query)).
  { eexists. split; [reflexivity|]. cbn. split; [reflexivity|].
    split; [discriminate|intros [H _]; discriminate]. }
  destruct (any_in _ (lower query)); eexists; (split; [reflexivity|]); cbn;
    (split; [reflexivity|]); split; auto; try discriminate.
  intros [_ H]. discriminate.
Qed.

(** An arithmetic query answered without a digit. *)
Lemma analysis_without_digit (query response : string) :
  any_in ["calculate"; "math"; "+"; "-"; "*"; "/"; "="] (lower query) = true ->
  existsb_str is_digit response = false ->
  exists aa, analyze query response = Return aa
             /\ answer_type aa = "mathematical"
             /\ contains_calculation aa = false
             /\ math_validation aa = None.
Proof.
  intros Hq Hr. unfold _analyze_answer_content. rewrite Hq, Hr.
  eexists. split; [reflexivity|]. cbn. auto.
Qed.

(** An arithmetic query answered with a digit: the analysis returns when
    the results it prints can be printed. *)
Lemma analysis_of_mathematical (query response : string) :
  any_in ["calculate"; "math"; "+"; "-"; "*"; "/"; "="] (lower query) = true ->
  existsb_str is_digit response = true ->
  printed (expected_result (recheck query response))
  = Return (show (expected_result (recheck query response))) ->
  printed (provided_result (recheck query response))
  = Return (show (provided_result (recheck query response))) ->
  exists aa, analyze query response = Return aa
             /\ answer_type aa = "mathematical"
             /\ contains_calculation aa = true
             /\ math_validation aa = Some (recheck query response).
Proof.
  intros Hq Hr He Hp. unfold _analyze_answer_content. rewrite Hq, Hr.
  destruct (is_correct (recheck query response)).
  - rewrite He. cbn [bind]. eexists. split; [reflexivity|]. cbn. auto.
  - destruct (expected_result (recheck query response)) eqn:Hexp.
    + rewrite He, Hp. cbn [bind]. eexists. split; [reflexivity|]. cbn. auto.
    + cbn [bind]. eexists. split; [reflexivity|]. cbn. auto.
Qed.

(** What a returned analysis of an arithmetic query carries. *)
Lemma analysis_returned (query response : string) (aa : AnswerAnalysis F) :
  analyze query response = Return aa ->
  match math_validation aa with
  | Some mv =>
      mv = recheck query response
      /\ answer_type aa = "mathematical"
      /\ contains_calculation aa = true
      /\ (is_correct mv = false ->
          printed (expected_result mv) = Return (show (expected_result mv))
          /\ printed (provided_result mv) = Return (show (provided_result mv)))
  | None => True
  end.
Proof.
  unfold _analyze_answer_content.
  destruct (any_in _ (lower query)).
  { destruct (existsb_str is_digit response); [|now intros [= <-]].
    destruct (is_correct (recheck query response)) eqn:Hright.
    - destruct (printed (expected_result (recheck query response)));
        cbn [bind]; [|discriminate].
      intros [= <-]. cbn [math_validation answer_type contains_calculation].
      split; [reflexivity|]. split; [reflexivity|]. split; [reflexivity|].
      rewrite Hright. discriminate.
    - destruct (expected_result (recheck query response)) as [expected|] eqn:Hexp.
      + destruct (format_cases (Some expected)) as [He | He]; rewrite He;
          cbn [bind]; [|discriminate].
        destruct (format_cases (provided_result (recheck query response)))
          as [Hp | Hp]; rewrite Hp; cbn [bind]; [|discriminate].
        intros [= <-]. cbn [math_validation answer_type contains_calculation].
        split; [reflexivity|]. split; [reflexivity|]. split; [reflexivity|].
        intros _. rewrite Hexp. auto.
      + cbn [bind]. intros [= <-].
        cbn [math_validation answer_type contains_calculation].
        split; [reflexivity|]. split; [reflexivity|]. split; [reflexivity|].
        intros _. rewrite Hexp.
        assert (Hnone : provided_result (recheck query response) = None).
        { revert Hexp. unfold _validate_mathematical_answer.
          destruct (_extract_math_expression query) as [expr|]; [|reflexivity].
          destruct (forallb_str _ _); [|reflexivity].
          destruct (py_eval _); [discriminate|reflexivity]. }
        rewrite Hnone. split; reflexivity. }
  destruct (any_in _ (lower query)); [now intros [= <-]|].
  destruct (any_in _ (lower query)); now intros [= <-].
Qed.

(** The analysis raises only while printing a result of the re-check. *)
Lemma analysis_raises (query response : string) (e : Raised) :
  analyze query response = Raise e ->
  e = ValueError
  /\ any_in ["calculate"; "math"; "+"; "-"; "*"; "/"; "="] (lower query) = true
  /\ existsb_str is_digit response = true
  /\ exists z, unprintable z = true
               /\ (expected_result (recheck query response) = Some (VInt z)
                   \/ provided_result (recheck query response) = Some (VInt z)).
Proof.
  unfold _analyze_answer_content.
  destruct (any_in _ (lower query)).
  { destruct (existsb_str is_digit response); [|discriminate].
    destruct (is_correct (recheck query response)).
    - destruct (printed (expected_result (recheck query response))) as [t|e']
        eqn:He; cbn [bind]; [discriminate|].
      intros [= <-]. apply format_raises in He as (-> & z & Hz & Hbig).
      repeat split. eauto.
    - destruct (expected_result (recheck query response)) as [expected|] eqn:Hexp;
        [|discriminate].
      destruct (printed (Some expected)) as [t|e'] eqn:He; cbn [bind].
      + destruct (printed (provided_result (recheck query response))) as [t'|e']
          eqn:Hp; cbn [bind]; [discriminate|].
        intros [= <-]. apply format_raises in Hp as (-> & z & Hz & Hbig).
        repeat split. eauto.
      + intros [= <-]. apply format_raises in He as (-> & z & Hz & Hbig).
        repeat split. eauto. }
  destruct (any_in _ (lower query)); [discriminate|].
  destruct (any_in _ (lower query)); discriminate.
Qed.

(** *** The final decision *)

Lemma math_priority_cases (aa : AnswerAnalysis F)
  (parts0 major0 : list string) (c0 : Z) :
  math_priority F show aa = Return (parts0, major0, c0) ->
  (c0 = 85 /\ major0 = [] /\ math_validation aa = None)
  \/ (c0 = 90 /\ major0 = []
      /\ exists mv, math_validation aa = Some mv /\ is_correct mv = true)
  \/ (c0 = 30
      /\ exists mv, math_validation aa = Some mv /\ is_correct mv = false
           /\ major0 = [cross_mark ++ " Mathematical error: Expected "
                          ++ show (expected_result mv) ++ ", got "
                          ++ show (provided_result mv)]).
Proof.
  unfold math_priority. destruct (math_validation aa) as [mv|].
  - destruct (is_correct mv) eqn:Hright.
    + intros [= <- <- <-]. right. left. eauto.
    + destruct (format_cases (expected_result mv)) as [He | He]; rewrite He;
        cbn [bind]; [|discriminate].
      destruct (format_cases (provided_result mv)) as [Hp | Hp]; rewrite Hp;
        cbn [bind]; [|discriminate].
      intros [= <- <- <-]. right. right. eauto.
  - intros [= <- <- <-]. auto.
Qed.

Lemma ai_nudge_cases (ai : AIValidation) (c : Z) :
  let c' := snd (ai_nudge ai c) in
  c' = Z.min (c + 5) 95 \/ c' = Z.max (c - 15) 40 \/ c' = c.
Proof.
  unfold ai_nudge. destruct (validation_successful ai); cbn; [|auto].
  destruct (String.eqb (ai_decision ai) "correct"); cbn; [auto|].
  destruct (String.eqb (ai_decision ai) "incorrect"); cbn; auto.
Qed.

(** What a decision is made of: the re-check's part, the content check's
    part, the nudge, and the major issues that alone decide. *)
Lemma decision_shape (aa : AnswerAnalysis F) (rv : ReasoningValidation)
  (ai : AIValidation) (d : Decision) :
  decide aa rv ai = Return d ->
  exists parts0 major0 c0 parts major,
    math_priority F show aa = Return (parts0, major0, c0)
    /\ content_check aa = Return (parts, major)
    /\ let c := snd (ai_nudge ai c0) in
       let major_issues := app major0 major in
       (major_issues = [] -> d_is_correct d = true /\ d_confidence d = c)
       /\ (major_issues <> [] ->
           d_is_correct d = false /\ d_confidence d = Z.max (c - 30) 20
           /\ d_suggestions d = major_issues).
Proof.
  unfold _make_validation_decision.
  destruct (math_priority F show aa) as [[[parts0 major0] c0]|e];
    cbn [bind]; [|discriminate].
  destruct (content_check aa) as [[parts1 major1]|e]; cbn [bind]; [|discriminate].
  destruct (ai_nudge ai c0) as [parts2 c1] eqn:Hn.
  intros Hd. exists parts0, major0, c0, parts1, major1.
  split; [reflexivity|]. split; [reflexivity|]. rewrite Hn. cbn [fst snd].
  destruct (app major0 major1) as [|issue rest];
    injection Hd as <-; cbn; split; intros Hm; try congruence; auto.
Qed.

Lemma decision_confidence_range (aa : AnswerAnalysis F)
  (rv : ReasoningValidation) (ai : AIValidation) (d : Decision) :
  decide aa rv ai = Return d -> 20 <= d_confidence d <= 95.
Proof.
  intros Hd.
  destruct (decision_shape aa rv ai d Hd)
    as (parts0 & major0 & c0 & parts & major & Hprior & _ & Hno & Hsome).
  cbv zeta in Hno, Hsome.
  pose proof (ai_nudge_cases ai c0) as Hc1. cbv zeta in Hc1.
  assert (Hc0 : c0 = 85 \/ c0 = 90 \/ c0 = 30).
  { destruct (math_priority_cases aa _ _ _ Hprior)
      as [(-> & _)|[(-> & _)|(-> & _)]]; auto. }
  destruct (app major0 major) as [|issue rest].
  - destruct (Hno eq_refl) as [_ ->]. lia.
  - destruct Hsome as (_ & -> & _); [discriminate|]. lia.
Qed.

(** A failed arithmetic re-check decides: incorrect, confidence 20. *)
Lemma failed_math_is_decisive (aa : AnswerAnalysis F) (rv : ReasoningValidation)
  (ai : AIValidation) (mv : MathValidation F) :
  math_validation aa = Some mv -> is_correct mv = false ->
  answer_type aa = "mathematical" ->
  printed (expected_result mv) = Return (show (expected_result mv)) ->
  printed (provided_result mv) = Return (show (provided_result mv)) ->
  exists d, decide aa rv ai = Return d
            /\ d_is_correct d = false /\ d_confidence d = 20
            /\ In (cross_mark ++ " Mathematical error: Expected "
                     ++ show (expected_result mv) ++ ", got "
                     ++ show (provided_result mv))
                  (d_suggestions d).
Proof.
  intros Hmv Hwrong Htype He Hp.
  unfold _make_validation_decision, math_priority, content_check.
  rewrite Hmv, Hwrong, He, Hp, Htype. cbn [bind String.eqb Ascii.eqb Bool.eqb].
  pose proof (ai_nudge_cases ai 30) as Hc. cbv zeta in Hc.
  destruct (ai_nudge ai 30) as [parts2 c1]. cbn [snd] in Hc.
  destruct (contains_calculation aa); cbn [bind app];
    (eexists; split; [reflexivity|]; cbn [d_is_correct d_confidence d_suggestions];
     split; [reflexivity|]; split; [lia|now left]).
Qed.

(** *** [validate_response]: what a returned report is *)

Lemma validate_returns (history : list (ValidationReport F))
  (query response : string) (steps : list ReasoningStep)
  (report : ValidationReport F) (history' : list (ValidationReport F)) :
  validate history query response steps = (Return report, history') ->
  exists aa d,
    analyze query response = Return aa
    /\ decide aa (_validate_reasoning_chain steps query)
              (_ai_powered_validation query response steps) = Return d
    /\ report
       = {| timestamp := now;
            original_query := query;
            mrkl_response := response;
            validation_decision := d_is_correct d;
            confidence_level := d_confidence d;
            validation_reasoning := d_reasoning d;
            answer_analysis_of := aa;
            reasoning_validation_of := _validate_reasoning_chain steps query;
            ai_validation_of := _ai_powered_validation query response steps;
            improvement_suggestions := d_suggestions d;
            validation_status :=
              if d_is_correct d then "CORRECT" else "INCORRECT" |}
    /\ history' = app history [report].
Proof.
  unfold validate_response.
  destruct (analyze query response) as [aa|e]; [|discriminate].
  destruct (decide _ _ _) as [d|e] eqn:Hd; [|discriminate].
  intros [= <- <-]. exists aa, d. repeat split. exact Hd.
Qed.

Lemma validate_raises (history : list (ValidationReport F))
  (query response : string) (steps : list ReasoningStep) (e : Raised)
  (history' : list (ValidationReport F)) :
  validate history query response steps = (Raise e, history') ->
  history' = history.
Proof.
  unfold validate_response.
  destruct (analyze query response) as [aa|e']; [|now intros [= _ <-]].
  destruct (decide _ _ _) as [d|e']; [discriminate|].
  now intros [= _ <-].
Qed.

(** The two ways out by exception: the informational branch on a response
    of at most 30 characters, and the printing of a result of the
    re-check. *)
Lemma validate_raises_only (history : list (ValidationReport F))
  (query response : string) (steps : list ReasoningStep) (e : Raised)
  (history' : list (ValidationReport F)) :
  validate history query response steps = (Raise e, history') ->
  (e = TypeError
   /\ (exists aa, analyze query response = Return aa
                  /\ answer_type aa = "informational")
   /\ (len response <= 30)%nat)
  \/ (e = ValueError
      /\ any_in ["calculate"; "math"; "+"; "-"; "*"; "/"; "="] (lower query)
         = true
      /\ existsb_str is_digit response = true
      /\ exists z, unprintable z = true
                   /\ (expected_result (recheck query response) = Some (VInt z)
                       \/ provided_result (recheck query response)
                          = Some (VInt z))).
Proof.
  unfold validate_response.
  destruct (analyze query response) as [aa|e'] eqn:Haa.
  - unfold _make_validation_decision.
    destruct (math_priority F show aa) as [[[parts0 major0] c0]|e'] eqn:Hprior;
      cbn [bind].
    + destruct (content_check aa) as [[parts1 major1]|e'] eqn:Hcheck; cbn [bind].
      * destruct (ai_nudge _ c0) as [parts2 c1].
        destruct (app major0 major1); discriminate.
      * intros [= <- _]. left. revert Hcheck. unfold content_check.
        destruct (String.eqb (answer_type aa) "mathematical");
          [destruct (contains_calculation aa); discriminate|].
        destruct (String.eqb (answer_type aa) "weather");
          [destruct (contains_factual_info aa); discriminate|].
        destruct (String.eqb (answer_type aa) "informational") eqn:Htype;
          [|discriminate].
        apply String.eqb_eq in Htype.
        destruct (analysis_of_informational query response aa Haa Htype)
          as (Hinfo & _ & _).
        rewrite Hinfo. destruct (30 <? Z.of_nat (len response)) eqn:Hlen;
          [discriminate|].
        apply Z.ltb_ge in Hlen. cbn [py_len bind]. intros [= <-].
        repeat split; [eauto|lia].
    + exfalso. pose proof (analysis_returned query response aa Haa) as Hmv.
      revert Hprior. unfold math_priority.
      destruct (math_validation aa) as [mv|]; [|discriminate].
      destruct Hmv as (_ & _ & _ & Hprint).
      destruct (is_correct mv); [discriminate|].
      destruct (Hprint eq_refl) as [-> ->]. discriminate.
  - intros [= <- _]. right. now apply analysis_raises.
Qed.

(** An informational query with a response of at most 30 characters reaches
    [len(...)] of an integer. *)
Lemma brief_informational_raises (history : list (ValidationReport F))
  (query response : string) (steps : list ReasoningStep)
  (aa : AnswerAnalysis F) :
  analyze query response = Return aa ->
  answer_type aa = "informational" ->
  (len response <= 30)%nat ->
  validate history query response steps = (Raise TypeError, history).
Proof.
  intros Haa Htype Hlen.
  destruct (analysis_of_informational query response aa Haa Htype)
    as (Hinfo & Hmv & _).
  unfold validate_response, _make_validation_decision, math_priority,
    content_check.
  rewrite Haa, Hmv, Htype, Hinfo. cbn [bind].
  replace (30 <? Z.of_nat (len response)) with false
    by (symmetry; apply Z.ltb_ge; lia).
  reflexivity.
Qed.

Lemma ai_verdict (query response : string) (steps : list ReasoningStep) :
  let ai := _ai_powered_validation query response steps in
  validation_successful ai = true
  /\ (ai_decision ai = "correct" \/ ai_decision ai = "incorrect").
Proof.
  unfold _ai_powered_validation.
  repeat match goal with
         | |- context [if ?b then _ else _] => destruct b
         end; cbn; auto.
Qed.

Lemma ai_nudge_of_scorer (query response : string) (steps : list ReasoningStep)
  (c : Z) :
  let c' := snd (ai_nudge (_ai_powered_validation query response steps) c) in
  c' = Z.min (c + 5) 95 \/ c' = Z.max (c - 15) 40.
Proof.
  destruct (ai_verdict query response steps) as [Hok Hdec]. cbv zeta in *.
  unfold ai_nudge. rewrite Hok. destruct Hdec as [-> | ->]; cbn; auto.
Qed.

(** C1.  For the informational query "what is AI" answered by the
    two-character response "AI", [validate_response] raises [TypeError]
    instead of returning a report, whatever the history and the reasoning
    steps: the final decision applies [len] to the integer
    [response_length]. *)
Theorem brief_informational_answer_raises :
  forall (history : list (ValidationReport F)) (steps : list ReasoningStep),
    validate history "what is AI" "AI" steps = (Raise TypeError, history).
Proof.
  intros history steps.
  destruct (analysis_without_math "what is AI" "AI") as (aa & Haa & _ & Htype);
    [vm_compute; reflexivity|].
  apply (brief_informational_raises history "what is AI" "AI" steps aa Haa).
  - apply Htype. split; vm_compute; reflexivity.
  - cbn. lia.
Qed.

(** C2.  For E = 2-5, which evaluates to -3, the response
    "Calculation: 2-5 = -3" and the query "calculate 2-5", the re-check
    expects -3, extracts 3 from the response (no result pattern accepts a
    sign) and answers [is_correct = false]. *)
Theorem negative_result_fails_recheck :
  py_eval "2-5" = Returns (VInt (-3)) ->
  recheck "calculate 2-5" "Calculation: 2-5 = -3"
  = {| is_correct := false;
       expected_result := Some (VInt (-3));
       provided_result := Some (VInt 3);
       expression := Some "2-5" |}.
Proof.
  intros Heval. vm_compute. rewrite Heval. reflexivity.
Qed.

Lemma recheck_wrong_sum :
  py_eval "2+2" = Returns (VInt 4) ->
  recheck "calculate 2+2" "Calculation: 2+2 = 5"
  = {| is_correct := false;
       expected_result := Some (VInt 4);
       provided_result := Some (VInt 5);
       expression := Some "2+2" |}.
Proof.
  intros Heval. vm_compute. rewrite Heval. reflexivity.
Qed.

(** C7.  For the query "calculate 2+2" and the response
    "Calculation: 2+2 = 5" the re-check answers [is_correct = false] with
    expected result 4 and provided result 5, and [validate_response]
    returns, for every history and every reasoning trace, a report whose
    decision is incorrect and whose confidence is 20, hence at most 30. *)
Theorem wrong_sum_is_flagged :
  py_eval "2+2" = Returns (VInt 4) ->
  forall (history : list (ValidationReport F)) (steps : list ReasoningStep),
    let query := "calculate 2+2" in
    let response := "Calculation: 2+2 = 5" in
    recheck query response
    = {| is_correct := false;
         expected_result := Some (VInt 4);
         provided_result := Some (VInt 5);
         expression := Some "2+2" |}
    /\ exists report,
         validate history query response steps
         = (Return report, app history [report])
         /\ validation_decision report = false
         /\ validation_status report = "INCORRECT"
         /\ confidence_level report = 20
         /\ confidence_level report <= 30.
Proof.
  intros Heval history steps query response.
  pose proof (recheck_wrong_sum Heval) as Hre. fold query response in Hre.
  split; [exact Hre|].
  destruct (analysis_of_mathematical query response)
    as (aa & Haa & Htype & _ & Hmv);
    [vm_compute; reflexivity | vm_compute; reflexivity
     | rewrite Hre; reflexivity | rewrite Hre; reflexivity |].
  destruct (failed_math_is_decisive aa
              (_validate_reasoning_chain steps query)
              (_ai_powered_validation query response steps)
              (recheck query response) Hmv)
    as (d & Hd & Hwrong & Hconf & _);
    [now rewrite Hre | exact Htype | rewrite Hre; reflexivity
     | rewrite Hre; reflexivity |].
  unfold validate_response. rewrite Haa, Hd. eexists. split; [reflexivity|].
  cbn. rewrite Hwrong, Hconf. repeat split; lia.
Qed.

(** C9.  Every report returned by [validate_response] has a confidence
    level between 20 and 95.  The decision is made by the major issues
    alone.  When none is found the report is correct and carries the
    default 85 (90 when the analysis holds a verified calculation) moved
    by the scorer's nudge, +5 capped at 95 or -15: that is 90 or 70, and
    95 or 75 after a verified calculation.  When one is found the report is incorrect, its
    suggestions are the major issues, and its confidence is the nudged
    value (from 85, 90, or 30 after a failed re-check) less 30, not below
    20. *)
Theorem confidence_within_20_95 :
  forall (history : list (ValidationReport F)) (query response : string)
         (steps : list ReasoningStep) (report : ValidationReport F)
         (history' : list (ValidationReport F)),
    validate history query response steps = (Return report, history') ->
    20 <= confidence_level report <= 95
    /\ (validation_decision report = true ->
        match math_validation (answer_analysis_of report) with
        | None => confidence_level report = 90 \/ confidence_level report = 70
        | Some _ => confidence_level report = 95 \/ confidence_level report = 75
        end)
    /\ exists parts0 major0 base parts1 major1,
         math_priority F show (answer_analysis_of report)
         = Return (parts0, major0, base)
         /\ content_check (answer_analysis_of report) = Return (parts1, major1)
         /\ (base = 85 \/ base = 90 \/ base = 30)
         /\ base = match math_validation (answer_analysis_of report) with
                   | None => 85
                   | Some mv => if is_correct mv then 90 else 30
                   end
         /\ (base = 30 <-> major0 <> [])
         /\ let nudged := snd (ai_nudge (ai_validation_of report) base) in
            (nudged = Z.min (base + 5) 95 \/ nudged = Z.max (base - 15) 40)
            /\ (app major0 major1 = [] ->
                validation_decision report = true
                /\ validation_status report = "CORRECT"
                /\ (base = 85 \/ base = 90)
                /\ confidence_level report = nudged)
            /\ (app major0 major1 <> [] ->
                validation_decision report = false
                /\ validation_status report = "INCORRECT"
                /\ improvement_suggestions report = app major0 major1
                /\ confidence_level report = Z.max (nudged - 30) 20).
Proof.
  intros history query response steps report history' Hrun.
  destruct (validate_returns _ _ _ _ _ _ Hrun) as (aa & d & Haa & Hd & -> & _).
  cbn [confidence_level validation_decision answer_analysis_of ai_validation_of
       improvement_suggestions validation_status].
  destruct (decision_shape _ _ _ _ Hd)
    as (parts0 & major0 & base & parts1 & major1 & Hprior & Hcheck & Hno & Hsome).
  cbv zeta in Hno, Hsome.
  pose proof (ai_nudge_of_scorer query response steps base) as Hn.
  cbv zeta in Hn.
  assert (Hbase : (base = 85 /\ major0 = [] /\ math_validation aa = None)
                  \/ (base = 90 /\ major0 = [] /\ math_validation aa <> None)
                  \/ (base = 30 /\ major0 <> [] /\ math_validation aa <> None)).
  { destruct (math_priority_cases aa _ _ _ Hprior)
      as [(-> & -> & Hmv)|[(-> & -> & mv & Hmv & _)|(-> & mv & Hmv & _ & ->)]].
    - auto.
    - right. left. repeat split. now rewrite Hmv.
    - right. right. repeat split; [discriminate|now rewrite Hmv]. }
  assert (Hmatch : base = match math_validation aa with
                          | None => 85
                          | Some mv => if is_correct mv then 90 else 30
                          end).
  { destruct (math_priority_cases aa _ _ _ Hprior)
      as [(-> & _ & ->)|[(-> & _ & mv & -> & ->)|(-> & mv & -> & -> & _)]];
      reflexivity. }
  split; [exact (decision_confidence_range _ _ _ _ Hd)|]. split.
  - intros Htrue.
    destruct (app major0 major1) as [|issue rest] eqn:Hmajor.
    + destruct (Hno eq_refl) as [_ ->].
      destruct Hbase as [(-> & _ & ->)|[(-> & _ & Hmv)|(_ & Hm & _)]].
      * lia.
      * destruct (math_validation aa); [lia|congruence].
      * destruct major0; [congruence|discriminate].
    + destruct Hsome as (Hfalse & _); [discriminate|congruence].
  - exists parts0, major0, base, parts1, major1.
    split; [exact Hprior|]. split; [exact Hcheck|].
    split; [destruct Hbase as [(-> & _)|[(-> & _)|(-> & _)]]; auto|].
    split; [exact Hmatch|].
    split.
    { destruct Hbase as [(-> & -> & _)|[(-> & -> & _)|(-> & Hm & _)]];
        split; intros; try lia; try congruence; auto. }
    cbv zeta. split; [exact Hn|]. split.
    + intros Hnone. destruct (Hno Hnone) as [-> ->].
      repeat split.
      destruct Hbase as [(-> & _)|[(-> & _)|(_ & Hm & _)]]; auto.
      destruct major0; [congruence|discriminate].
    + intros Hsomething. destruct (Hsome Hsomething) as (-> & -> & ->).
      repeat split.
Qed.

(** On a call that returns: the status mirrors the decision and the
    history grows by exactly the returned report. *)
Lemma report_status_and_history :
  forall (history : list (ValidationReport F)) (query response : string)
         (steps : list ReasoningStep) (report : ValidationReport F)
         (history' : list (ValidationReport F)),
    validate history query response steps = (Return report, history') ->
    (validation_status report = "CORRECT" <-> validation_decision report = true)
    /\ (validation_status report = "INCORRECT"
        <-> validation_decision report = false)
    /\ history' = app history [report]
    /\ List.length history' = S (List.length history)
    /\ (forall i, (i < List.length history)%nat ->
          nth_error history' i = nth_error history i).
Proof.
  intros history query response steps report history' Hrun.
  destruct (validate_returns _ _ _ _ _ _ Hrun) as (aa & d & _ & _ & Hreport & ->).
  assert (Hstatus : validation_status report
                    = if validation_decision report then "CORRECT"
                      else "INCORRECT") by now rewrite Hreport.
  rewrite Hstatus.
  repeat split; try (destruct (validation_decision report); intros; congruence).
  - rewrite length_app. cbn. lia.
  - intros i Hi. now apply nth_error_app1.
Qed.

(** C10.  The call of [validate_response] on the informational query
    "what is AI" with the response "AI" constructs no report and appends
    nothing: it leaves with the exception before the report is built, and
    the history after it is the history before it, of the same length. *)
Theorem brief_informational_call_appends_nothing :
  forall (history : list (ValidationReport F)) (steps : list ReasoningStep),
    let outcome := validate history "what is AI" "AI" steps in
    (forall report, fst outcome <> Return report)
    /\ snd outcome = history
    /\ List.length (snd outcome) = List.length history.
Proof.
  intros history steps outcome. subst outcome.
  destruct (analysis_without_math "what is AI" "AI") as (aa & Haa & _ & Htype);
    [vm_compute; reflexivity|].
  rewrite (brief_informational_raises history "what is AI" "AI" steps aa Haa);
    [|apply Htype; split; vm_compute; reflexivity|cbn; lia].
  cbn. repeat split. discriminate.
Qed.

End ReflectorFacts.

(** ** The pipeline *)

Section PipelineFacts.

Variable F : Type.
Variable py_eval : string -> Outcome F.
Variable py_float : string -> F.
Variable float_close : PyVal F -> PyVal F -> option bool.
Variable py_equal : PyVal F -> PyVal F -> bool.
Variable show : option (PyVal F) -> string.
Variable now : string.
Variable tool_execute : ToolId -> string -> option string.
Variable llm_generate : string -> string -> option string.

Local Abbreviation process :=
  (process_query F py_eval py_float float_close py_equal show now tool_execute
                 llm_generate).
Local Abbreviation analyze :=
  (_analyze_answer_content F py_eval py_float float_close py_equal show).

(** The canned response holds no digit and is long enough for every
    answer type, so the reflector returns on it. *)
Lemma knowledge_response_checks (query : string) :
  exists aa checked,
    analyze query knowledge_response = Return aa
    /\ math_validation aa = None
    /\ content_check aa = Return checked.
Proof.
  unfold _analyze_answer_content.
  replace (existsb_str is_digit knowledge_response) with false
    by (vm_compute; reflexivity).
  replace (Z.of_nat (len knowledge_response)) with 182%Z
    by (vm_compute; reflexivity).
  repeat match goal with
         | |- context [any_in ?keywords ?text] =>
             destruct (any_in keywords text)
         end;
    (eexists; eexists; split; [reflexivity|]; split; [reflexivity|];
     cbn; reflexivity).
Qed.

(** A query that meets the keyword conjunction is answered by the canned
    branch, whatever the validator would say about it. *)
Lemma special_case_answers (st : AgentState F) (query : string) :
  is_special_case query = true ->
  exists report,
    process st query
    = (Return {| response := knowledge_response;
                 reasoning_steps := special_case_steps;
                 tool_used := "University Knowledge Base";
                 parameters := "Heriot-Watt University Current Events";
                 validation := FromReflector report |},
       {| self_reasoning_steps := special_case_steps;
          validation_history := app (validation_history st) [report] |}).
Proof.
  intros Hspecial. unfold process_query. rewrite Hspecial.
  unfold reflect, validate_response, _make_validation_decision.
  destruct (knowledge_response_checks query)
    as (aa & [parts major] & -> & Hmv & Hcheck).
  unfold math_priority. rewrite Hmv, Hcheck. cbn [bind].
  destruct (ai_nudge _ 85) as [parts2 c1].
  destruct (app [] major); eexists; reflexivity.
Qed.

(** C3.  A query that does not meet the special-case keyword conjunction
    and that the validator judges meaningless is rejected before any
    routing: the call returns the guidance message with [tool_used =
    'input_validator'], records only the three validation steps, runs no
    tool and leaves the validation history as it was. *)
Theorem meaningless_query_rejected :
  forall (st : AgentState F) (query : string),
    is_special_case query = false ->
    _is_meaningless_query query = true ->
    let steps :=
      [{| step := "Query Analysis";
          content := "Analyzing user query: '" ++ query ++ "'" |};
       {| step := "Input Validation";
          content := "Detected meaningless or random input - cannot process" |};
       {| step := "Input Validation Failed";
          content := "Query appears to be random characters or meaningless input" |}] in
    process st query
    = (Return {| response := error_response;
                 reasoning_steps := steps;
                 tool_used := "input_validator";
                 parameters := "invalid_input_detected";
                 validation := ForInvalidInput invalid_input_verdict |},
       {| self_reasoning_steps := steps;
          validation_history := validation_history st |}).
Proof.
  intros st query Hplain Hbad. unfold process_query, think.
  rewrite Hplain, Hbad. reflexivity.
Qed.

(** C4.  On "yuhyhyugyuguygu" the pipeline answers with [tool_used =
    'input_validator'] and the guidance template; the validation record is
    the dictionary literal of the rejection branch, with [overall_decision
    = 'correct'] and confidence 95, and it has no [validation_decision]
    key. *)
Theorem keyboard_mash_end_to_end :
  forall st : AgentState F,
  exists envelope st',
    process st "yuhyhyugyuguygu" = (Return envelope, st')
    /\ tool_used envelope = "input_validator"
    /\ response envelope = error_response
    /\ validation envelope = ForInvalidInput invalid_input_verdict
    /\ overall_decision invalid_input_verdict = "correct"
    /\ mem "validation_decision" (validation_keys (validation envelope)) = false
    /\ get_validation_decision (validation envelope) = None.
Proof.
  intros st. unfold process_query, think.
  replace (is_special_case "yuhyhyugyuguygu") with false
    by (vm_compute; reflexivity).
  replace (_is_meaningless_query "yuhyhyugyuguygu") with true
    by (vm_compute; reflexivity).
  eexists. eexists. split; [reflexivity|].
  cbn. repeat split.
Qed.

End PipelineFacts.

(** ** The closed instance *)

(** On a meaningless query that also meets the special-case keywords the
    canned branch answers: the validator is never asked. *)
Lemma special_case_precedes_validator :
  let query := "heriot watt event aaaaa" in
  _is_meaningless_query query = true
  /\ exists envelope st',
       Closed.process Closed.fresh query = (Return envelope, st')
       /\ tool_used envelope = "University Knowledge Base"
       /\ response envelope = knowledge_response
       /\ tool_used envelope <> "input_validator".
Proof.
  split; [vm_compute; reflexivity|].
  eexists. eexists. split; [vm_compute; reflexivity|].
  cbn. repeat split. discriminate.
Qed.

Lemma meaningless_query_rejected_witness :
  let query := "aaaaaaaaaaaaa" in
  is_special_case query = false
  /\ _is_meaningless_query query = true
  /\ exists steps,
       Closed.process Closed.fresh query
       = (Return {| response := error_response;
                    reasoning_steps := steps;
                    tool_used := "input_validator";
                    parameters := "invalid_input_detected";
                    validation := ForInvalidInput invalid_input_verdict |},
          {| self_reasoning_steps := steps; validation_history := [] |}).
Proof.
  cbv zeta. split; [vm_compute; reflexivity|].
  split; [vm_compute; reflexivity|].
  eexists. unfold Closed.process.
  apply (meaningless_query_rejected Closed.F Closed.py_eval Closed.py_float
           Closed.float_close Closed.py_equal Closed.show Closed.now Closed.tool_execute
           Closed.llm_generate Closed.fresh "aaaaaaaaaaaaa");
    vm_compute; reflexivity.
Defined.

Lemma router_first_match_cascade_witness :
  _is_meaningless_query "hello world" = false
  /\ fst (think "hello world") = RouterSpec.select_tool "hello world"
  /\ fst (think "hello world") = search.
Proof.
  split; [vm_compute; reflexivity|]. split.
  - apply (proj1 router_first_match_cascade "hello world").
    vm_compute. reflexivity.
  - vm_compute. reflexivity.
Defined.

Lemma negative_result_fails_recheck_witness :
  Closed.py_eval "2-5" = Returns (VInt (-3))
  /\ is_correct (Closed.recheck "calculate 2-5" "Calculation: 2-5 = -3") = false
  /\ provided_result (Closed.recheck "calculate 2-5" "Calculation: 2-5 = -3")
     = Some (VInt 3).
Proof.
  split; [reflexivity|]. unfold Closed.recheck.
  rewrite (negative_result_fails_recheck Closed.F Closed.py_eval Closed.py_float
             Closed.float_close Closed.py_equal eq_refl).
  split; reflexivity.
Defined.

Lemma wrong_sum_is_flagged_witness :
  Closed.py_eval "2+2" = Returns (VInt 4)
  /\ exists report,
       Closed.validate [] "calculate 2+2" "Calculation: 2+2 = 5" []
       = (Return report, [report])
       /\ validation_decision report = false
       /\ confidence_level report = 20%Z.
Proof.
  split; [reflexivity|].
  destruct (wrong_sum_is_flagged Closed.F Closed.py_eval Closed.py_float
              Closed.float_close Closed.py_equal Closed.show Closed.now eq_refl [] [])
    as (_ & report & Hrun & Hdec & _ & Hconf & _).
  exists report. unfold Closed.validate. auto.
Defined.

Lemma confidence_within_20_95_witness :
  exists report history',
    Closed.validate [] "weather in London" "Sunny, 21 degrees" []
    = (Return report, history')
    /\ (20 <= confidence_level report <= 95)%Z.
Proof.
  eexists. eexists. split; [vm_compute; reflexivity|].
  eapply (confidence_within_20_95 Closed.F Closed.py_eval Closed.py_float
            Closed.float_close Closed.py_equal Closed.show Closed.now []
            "weather in London" "Sunny, 21 degrees" []).
  vm_compute. reflexivity.
Defined.

Example report_status_and_history_example :
  exists report history',
    Closed.validate [] "calculate 2+2" "Calculation: 2+2 = 4" []
    = (Return report, history')
    /\ validation_decision report = true
    /\ (validation_status report = "CORRECT" <-> validation_decision report = true)
    /\ history' = [report].
Proof.
  eexists. eexists. split; [vm_compute; reflexivity|].
  split; [reflexivity|].
  destruct (report_status_and_history Closed.F Closed.py_eval Closed.py_float
              Closed.float_close Closed.py_equal Closed.show Closed.now []
              "calculate 2+2" "Calculation: 2+2 = 4" [] _ _ eq_refl)
    as (Hc & _ & Hh & _).
  split; [exact Hc | exact Hh].
Qed.

Lemma five_repetitions_flagged_witness :
  let query := "  Abcabcabcabcabc hello world " in
  lower (strip query) = EmptyString ++ tile "abc" 5 ++ " hello world"
  /\ (1 <= len "abc" <= 3)%nat
  /\ no_newline "abc" = true
  /\ _is_meaningless_query query = true.
Proof.
  cbv zeta. split; [reflexivity|]. split; [cbn; lia|]. split; [reflexivity|].
  apply (five_repetitions_flagged "  Abcabcabcabcabc hello world "
           EmptyString "abc" " hello world");
    [reflexivity | cbn; lia | reflexivity].
Defined.

(** * Further properties *)

Import Tools Reports PyReSpec Notions.

(** ** The validator and the router: case and repetition *)

Section CaseFacts.
Local Open Scope nat_scope.

Lemma is_space_lower_c (a : ascii) : is_space (lower_c a) = is_space a.
Proof. destruct a as [[] [] [] [] [] [] [] []]; reflexivity. Qed.

Lemma lstrip_map_chars (f : ascii -> ascii) (s : string) :
  (forall a, is_space (f a) = is_space a) ->
  lstrip (map_chars f s) = map_chars f (lstrip s).
Proof.
  intros Hf. induction s as [|a s IH]; cbn; [reflexivity|].
  rewrite Hf. destruct (is_space a); [exact IH|reflexivity].
Qed.

Lemma rstrip_map_chars (f : ascii -> ascii) (s : string) :
  (forall a, is_space (f a) = is_space a) ->
  rstrip (map_chars f s) = map_chars f (rstrip s).
Proof.
  intros Hf. induction s as [|a s IH]; cbn; [reflexivity|].
  rewrite IH, Hf. destruct (rstrip s); cbn; [|reflexivity].
  destruct (is_space a); reflexivity.
Qed.

Lemma strip_lower (s : string) : strip (lower s) = lower (strip s).
Proof.
  unfold strip, lower.
  rewrite lstrip_map_chars, rstrip_map_chars by apply is_space_lower_c.
  reflexivity.
Qed.

End CaseFacts.

(** X1.  Two queries that differ only in the case of their letters get
    the same verdict from the validator and the same tool from the
    router. *)
Theorem verdict_and_route_ignore_case :
  forall query1 query2 : string,
    lower query1 = lower query2 ->
    _is_meaningless_query query1 = _is_meaningless_query query2
    /\ fst (think query1) = fst (think query2).
Proof.
  intros query1 query2 Hsame.
  assert (Hverdict : _is_meaningless_query query1 = _is_meaningless_query query2).
  { unfold _is_meaningless_query. cbv zeta.
    now rewrite <- !strip_lower, Hsame. }
  split; [exact Hverdict|].
  unfold think. rewrite <- Hverdict, Hsame.
  destruct (_is_meaningless_query query1); [reflexivity|].
  repeat match goal with
         | |- context [any_in ?k ?t] => destruct (any_in k t)
         end; reflexivity.
Qed.

Lemma verdict_and_route_ignore_case_witness :
  lower "WEATHER in Tokyo?" = lower "weather IN tokyo?"
  /\ _is_meaningless_query "WEATHER in Tokyo?" = false
  /\ fst (think "WEATHER in Tokyo?") = fst (think "weather IN tokyo?").
Proof.
  split; [reflexivity|]. split; [vm_compute; reflexivity|].
  apply (verdict_and_route_ignore_case "WEATHER in Tokyo?" "weather IN tokyo?").
  reflexivity.
Defined.

Section RepeatedCharacter.
Local Open Scope nat_scope.

Lemma stutter_S (a : ascii) (n : nat) : stutter a (S n) = String a (stutter a n).
Proof. reflexivity. Qed.

Lemma len_stutter (a : ascii) (n : nat) : len (stutter a n) = n.
Proof. unfold len. induction n as [|n IH]; [reflexivity|]. rewrite stutter_S. cbn. now rewrite IH. Qed.

Lemma lstrip_stutter_space (a : ascii) (n : nat) :
  is_space a = true -> lstrip (stutter a n) = EmptyString.
Proof. intros Ha. induction n as [|n IH]; [reflexivity|]. rewrite stutter_S. cbn. now rewrite Ha. Qed.

Lemma rstrip_stutter (a : ascii) (n : nat) :
  is_space a = false -> rstrip (stutter a n) = stutter a n.
Proof.
  intros Ha. induction n as [|n IH]; [reflexivity|]. rewrite stutter_S. cbn.
  rewrite IH. destruct n; cbn; [now rewrite Ha|reflexivity].
Qed.

Lemma lower_stutter (a : ascii) (n : nat) :
  lower (stutter a n) = stutter (lower_c a) n.
Proof. induction n as [|n IH]; [reflexivity|]. rewrite !stutter_S. cbn. now rewrite <- IH. Qed.

Lemma chars_stutter (a : ascii) (n : nat) : chars (stutter a n) = repeat a n.
Proof. induction n as [|n IH]; [reflexivity|]. rewrite stutter_S. cbn. now rewrite <- IH. Qed.

Lemma nodup_repeat (a : ascii) (n : nat) :
  nodup ascii_dec (repeat a (S n)) = [a].
Proof.
  induction n as [|n IH]; [reflexivity|].
  change (repeat a (S (S n))) with (a :: repeat a (S n)).
  cbn [nodup]. destruct (in_dec ascii_dec a (repeat a (S n))) as [_|Hout].
  - exact IH.
  - exfalso. apply Hout. now left.
Qed.

End RepeatedCharacter.

(** X2.  A query that is one character repeated six times or more is
    judged meaningless, whatever the character. *)
Theorem repeated_character_rejected :
  forall (a : ascii) (n : nat),
    (6 <= n)%nat -> _is_meaningless_query (stutter a n) = true.
Proof.
  intros a n Hn. rewrite meaningless_cases. cbv zeta.
  destruct (is_space a) eqn:Ha.
  - unfold strip. rewrite lstrip_stutter_space by exact Ha. reflexivity.
  - assert (Hstrip : strip (stutter a n) = stutter a n).
    { unfold strip. destruct n as [|n]; [lia|]. rewrite stutter_S at 1.
      cbn [lstrip]. rewrite Ha. rewrite <- stutter_S. now apply rstrip_stutter. }
    rewrite Hstrip, lower_stutter.
    assert (Hfew : few_distinct (stutter (lower_c a) n) = true).
    { unfold few_distinct, distinct_count. rewrite chars_stutter, len_stutter.
      destruct n as [|n]; [lia|]. rewrite nodup_repeat. cbn [List.length].
      apply andb_true_intro. split; [reflexivity|]. apply Nat.ltb_lt. lia. }
    rewrite Hfew. now rewrite orb_true_r.
Qed.

Lemma repeated_character_rejected_witness :
  (6 <= 7)%nat /\ _is_meaningless_query "zzzzzzz" = true.
Proof.
  split; [lia|]. apply (repeated_character_rejected "z"%char 7). lia.
Defined.

(** ** The topic of a search or news query *)

Section WordFacts.
Local Open Scope nat_scope.

Lemma app_empty_r_str (s : string) : s ++ EmptyString = s.
Proof. induction s as [|a s IH]; cbn; [reflexivity|now rewrite IH]. Qed.

Lemma spaceless_app (a b : string) :
  spaceless (a ++ b) = spaceless a && spaceless b.
Proof.
  unfold spaceless. induction a as [|x a IH]; cbn; [reflexivity|].
  now rewrite IH, andb_assoc.
Qed.

(** The words [split] returns hold no blank. *)
Lemma split_go_spaceless (s cur w : string) :
  spaceless cur = true -> In w (split_go cur s) -> spaceless w = true.
Proof.
  revert cur. induction s as [|a s IH]; intros cur Hcur; cbn.
  - destruct cur; cbn; [tauto|]. now intros [<-|[]].
  - destruct (is_space a) eqn:Ha.
    + intros Hin. apply in_app_or in Hin as [Hin|Hin].
      * destruct cur; cbn in Hin; [tauto|]. now destruct Hin as [<-|[]].
      * now apply (IH EmptyString).
    + apply IH. rewrite spaceless_app, Hcur. cbn. now rewrite Ha.
Qed.

Lemma split_go_word (w cur rest : string) :
  spaceless w = true ->
  split_go cur (w ++ rest) = split_go (cur ++ w) rest.
Proof.
  revert cur. induction w as [|a w IH]; intros cur Hw; cbn [append].
  - now rewrite app_empty_r_str.
  - cbn in Hw. apply andb_prop in Hw as [Ha Hw]. apply negb_true_iff in Ha.
    cbn [split_go]. rewrite Ha, IH by exact Hw.
    now rewrite app_assoc_str.
Qed.

Lemma split_join (ws : list string) :
  Forall word ws -> split (join " " ws) = ws.
Proof.
  unfold split. induction ws as [|w ws IH]; intros Hws; [reflexivity|].
  inversion Hws as [|w' ws' [Hne Hw] Hrest]; subst.
  destruct ws as [|w2 ws].
  - cbn [join]. rewrite <- (app_empty_r_str w) at 1.
    rewrite split_go_word by exact Hw. cbn. now destruct w.
  - change (join " " (w :: w2 :: ws)) with (w ++ " " ++ join " " (w2 :: ws)).
    rewrite split_go_word by exact Hw. cbn [append split_go].
    change (is_space " ") with true. cbn iota.
    rewrite (IH Hrest). now destruct w.
Qed.

Lemma split_words (s : string) : Forall word (split s).
Proof.
  apply Forall_forall. intros w Hin. split.
  - now apply (split_go_nonempty s EmptyString).
  - now apply (split_go_spaceless s EmptyString).
Qed.

Lemma Forall_filter_word (p : string -> bool) (ws : list string) :
  Forall word ws -> Forall word (filter p ws).
Proof.
  intros Hws. apply Forall_forall. intros w Hin.
  apply filter_In in Hin as [Hin _]. revert w Hin. now apply Forall_forall.
Qed.

Lemma in_firstn {A : Type} (n : nat) (l : list A) (x : A) :
  In x (firstn n l) -> In x l.
Proof.
  intros Hin. rewrite <- (firstn_skipn n l). apply in_or_app. now left.
Qed.

Lemma Forall_firstn_word (n : nat) (ws : list string) :
  Forall word ws -> Forall word (firstn n ws).
Proof.
  intros Hws. apply Forall_forall. intros w Hin.
  apply (proj1 (Forall_forall word ws) Hws). revert Hin. apply in_firstn.
Qed.

End WordFacts.

(** X3.  The words of the topic that the search and news branches of
    [extract_parameters] return are the first [n] words of the lower-cased
    query that are not stop words: at most [n] of them, none a stop
    word. *)
Theorem topic_words :
  forall (stop_words : list string) (n : nat) (query : string),
    let kept :=
      filter (fun w => negb (mem w stop_words)) (split (lower query)) in
    split (topic stop_words n query) = firstn n kept
    /\ (List.length (split (topic stop_words n query)) <= n)%nat
    /\ (forall w, In w (split (topic stop_words n query)) ->
                  mem w stop_words = false).
Proof.
  intros stop_words n query kept.
  assert (Hsplit : split (topic stop_words n query) = firstn n kept).
  { unfold topic. fold kept. apply split_join.
    apply Forall_firstn_word, Forall_filter_word, split_words. }
  split; [exact Hsplit|]. rewrite Hsplit. split.
  - rewrite length_firstn. lia.
  - intros w Hin. apply in_firstn in Hin. apply filter_In in Hin as [_ Hw].
    now apply negb_true_iff in Hw.
Qed.

(** ** The search adapter's cleaning *)

Section LowerFacts.
Local Open Scope nat_scope.

Lemma lower_c_not_upper (a : ascii) : is_upper_c (lower_c a) = false.
Proof. destruct a as [[] [] [] [] [] [] [] []]; reflexivity. Qed.

Lemma no_upper_lower (s : string) : no_upper (lower s) = true.
Proof.
  unfold no_upper. induction s as [|a s IH]; cbn; [reflexivity|].
  now rewrite lower_c_not_upper, IH.
Qed.

Lemma lower_fixed (s : string) : no_upper s = true -> lower s = s.
Proof.
  unfold no_upper. induction s as [|a s IH]; cbn; [reflexivity|].
  intros H. apply andb_prop in H as [Ha Hs]. apply negb_true_iff in Ha.
  unfold lower_c. rewrite Ha. now rewrite (IH Hs).
Qed.

Lemma no_upper_app (a b : string) : no_upper (a ++ b) = no_upper a && no_upper b.
Proof.
  unfold no_upper. induction a as [|x a IH]; cbn; [reflexivity|].
  now rewrite IH, andb_assoc.
Qed.

Lemma split_go_no_upper (s cur w : string) :
  no_upper cur = true -> no_upper s = true ->
  In w (split_go cur s) -> no_upper w = true.
Proof.
  revert cur. induction s as [|a s IH]; intros cur Hcur Hs; cbn.
  - destruct cur; cbn; [tauto|]. now intros [<-|[]].
  - cbn in Hs. apply andb_prop in Hs as [Ha Hs].
    destruct (is_space a).
    + intros Hin. apply in_app_or in Hin as [Hin|Hin].
      * destruct cur; cbn in Hin; [tauto|]. now destruct Hin as [<-|[]].
      * now apply (IH EmptyString).
    + apply IH; [|exact Hs]. rewrite no_upper_app, Hcur. cbn. now rewrite Ha.
Qed.

Lemma no_upper_join (ws : list string) :
  Forall (fun w => no_upper w = true) ws -> no_upper (join " " ws) = true.
Proof.
  induction ws as [|w ws IH]; intros Hws; [reflexivity|].
  inversion Hws as [|w' ws' Hw Hrest]; subst.
  destruct ws as [|w2 ws]; [exact Hw|].
  change (join " " (w :: w2 :: ws)) with (w ++ " " ++ join " " (w2 :: ws)).
  rewrite !no_upper_app, Hw, (IH Hrest). reflexivity.
Qed.

Lemma filter_all {A : Type} (p : A -> bool) (l : list A) :
  (forall x, In x l -> p x = true) -> filter p l = l.
Proof.
  induction l as [|x l IH]; intros H; [reflexivity|]. cbn.
  rewrite (H x (or_introl eq_refl)). f_equal. apply IH.
  intros y Hy. apply H. now right.
Qed.

(** Cleaning leaves a non-empty line of lower-case words outside the
    adapter's stop list as it is. *)
Lemma clean_fixed (ws : list string) :
  ws <> [] -> Forall word ws ->
  (forall w, In w ws -> no_upper w = true /\ mem w clean_stop_words = false) ->
  _clean_search_query (join " " ws) = join " " ws.
Proof.
  intros Hne Hwords Hws. unfold _clean_search_query.
  rewrite lower_fixed.
  - rewrite (split_join ws Hwords).
    rewrite filter_all.
    + destruct ws; [contradiction|reflexivity].
    + intros w Hin. apply negb_true_iff. now apply Hws.
  - apply no_upper_join. apply Forall_forall. intros w Hin. now apply Hws.
Qed.

End LowerFacts.

(** X4.  Cleaning a search query returns the empty string only for the
    empty query, and cleaning twice is cleaning once. *)
Theorem clean_search_query_stable :
  forall query : string,
    (_clean_search_query query = EmptyString <-> query = EmptyString)
    /\ _clean_search_query (_clean_search_query query)
       = _clean_search_query query.
Proof.
  intros query.
  pose proof (split_words (lower query)) as Hwords.
  assert (Hlow : forall w, In w (split (lower query)) -> no_upper w = true).
  { intros w. apply (split_go_no_upper (lower query) EmptyString);
      [reflexivity|apply no_upper_lower]. }
  unfold _clean_search_query at 1 3 4.
  destruct (filter _ (split (lower query))) as [|w ws] eqn:Hkept.
  - split; [tauto|]. unfold _clean_search_query. now rewrite Hkept.
  - assert (Hall : forall x, In x (w :: ws) ->
                     In x (split (lower query))
                     /\ mem x clean_stop_words = false).
    { intros x Hx. rewrite <- Hkept in Hx. apply filter_In in Hx as [Hin Hx].
      split; [exact Hin|now apply negb_true_iff in Hx]. }
    split.
    + split.
      * intros Hempty. exfalso. revert Hempty. apply join_nonempty.
        destruct (Hall w (or_introl eq_refl)) as [Hin _].
        now apply (proj1 (Forall_forall _ _) Hwords) in Hin as [Hne _].
      * intros ->. discriminate.
    + apply clean_fixed; [discriminate| |].
      * apply Forall_forall. intros x Hx.
        apply (proj1 (Forall_forall _ _) Hwords). now apply Hall.
      * intros x Hx. destruct (Hall x Hx) as [Hin Hstop]. split; [now apply Hlow|exact Hstop].
Qed.

(** X5.  The search adapter's cleaning leaves the parameter that
    [extract_parameters] hands it for a search unchanged. *)
Theorem clean_keeps_search_parameters :
  forall query : string,
    _clean_search_query (extract_parameters query search)
    = extract_parameters query search.
Proof.
  intros query. cbn [extract_parameters]. unfold topic.
  set (kept := filter _ (split (lower query))).
  destruct (firstn 3 kept) as [|w ws] eqn:Hfirst; [reflexivity|].
  assert (Hall : forall x, In x (w :: ws) ->
                   In x (split (lower query))
                   /\ mem x search_stop_words = false).
  { intros x Hx. rewrite <- Hfirst in Hx. apply in_firstn in Hx.
    apply filter_In in Hx as [Hin Hx].
    split; [exact Hin|now apply negb_true_iff in Hx]. }
  apply clean_fixed; [discriminate| |].
  - apply Forall_forall. intros x Hx.
    apply (proj1 (Forall_forall _ _) (split_words (lower query))). now apply Hall.
  - intros x Hx. destruct (Hall x Hx) as [Hin Hstop]. split.
    + revert Hin. apply (split_go_no_upper (lower query) EmptyString);
        [reflexivity|apply no_upper_lower].
    + destruct (mem x clean_stop_words) eqn:Hclean; [|reflexivity].
      exfalso. revert Hstop Hclean. unfold mem, clean_stop_words, search_stop_words.
      cbn. repeat match goal with
                  | |- context [String.eqb x ?k] => destruct (String.eqb x k)
                  end; cbn; congruence.
Qed.

(** X6.  [extract_parameters] returns the empty string exactly in these
    cases: for search and news when every word of the query is a stop
    word of the branch, for the calculator (and an unknown tool) when the
    query is empty, and never for weather. *)
Theorem extract_parameters_empty_iff :
  forall (query : string) (tool : ToolId),
    extract_parameters query tool = EmptyString
    <-> match tool with
        | search =>
            forallb (fun w => mem w search_stop_words) (split (lower query)) = true
        | news =>
            forallb (fun w => mem w news_stop_words) (split (lower query)) = true
        | weather => False
        | calculator | invalid => query = EmptyString
        end.
Proof.
  intros query tool. split.
  - apply extract_parameters_empty_cases.
  - destruct tool; cbn [extract_parameters].
    + intros ->. vm_compute. reflexivity.
    + intros [].
    + apply topic_of_stop_words.
    + apply topic_of_stop_words.
    + auto.
Qed.

(** ** The calculator adapter *)

Section ReplaceFacts.
Local Open Scope nat_scope.

Lemma has_char_app (c : ascii) (a b : string) :
  has_char c (a ++ b) = has_char c a || has_char c b.
Proof.
  unfold has_char. induction a as [|x a IH]; cbn; [reflexivity|].
  now rewrite IH, orb_assoc.
Qed.

Lemma replace_go_skip (old new : string) (k : nat) (s : string) :
  replace_go old new k s = replace_go old new 0 (drop k s).
Proof.
  revert k. induction s as [|a s IH]; intros [|k]; cbn [replace_go drop];
    try reflexivity. apply IH.
Qed.

Lemma prefix_split (u s : string) :
  prefix u s = true -> s = u ++ drop (len u) s.
Proof.
  unfold len. revert s. induction u as [|x u IH]; intros s Hp; [reflexivity|].
  destruct s as [|a s]; cbn in Hp; [discriminate|].
  destruct (ascii_dec x a) as [->|]; [|discriminate].
  cbn. now rewrite <- IH.
Qed.

(** A character that is not part of [old] survives [replace old new]. *)
Lemma replace_keeps_char (c : ascii) (old new : string) :
  old <> EmptyString -> has_char c old = false ->
  forall s, has_char c s = true -> has_char c (replace old new s) = true.
Proof.
  intros Hne Hold s. unfold replace.
  remember (len s) as n eqn:Hn. revert s Hn.
  induction n as [n IH] using lt_wf_ind. intros s Hn Hs.
  destruct s as [|a t]; [discriminate|]. cbn [replace_go].
  destruct (prefix old (String a t)) eqn:Hp.
  - rewrite has_char_app. apply orb_true_iff. right.
    rewrite replace_go_skip.
    pose proof (prefix_split _ _ Hp) as Hsplit.
    destruct old as [|o old']; [contradiction|].
    unfold len in *. cbn [String.length drop append] in Hsplit |- *.
    replace (S (String.length old') - 1) with (String.length old') by lia.
    injection Hsplit as Ha Ht.
    assert (Hrest : has_char c (drop (String.length old') t) = true).
    { unfold has_char in Hs, Hold. cbn [existsb_str] in Hs, Hold.
      apply orb_false_iff in Hold as [Hc Hold']. rewrite Ha, Hc in Hs.
      cbn [orb] in Hs. fold (has_char c t) in Hs. fold (has_char c old') in Hold'.
      rewrite Ht, has_char_app, Hold' in Hs. exact Hs. }
    apply (IH (String.length (drop (String.length old') t))); [|reflexivity|exact Hrest].
    subst n. cbn. rewrite Ht at 2. rewrite (len_app old'). unfold len. lia.
  - cbn in Hs |- *. unfold has_char in *. cbn.
    destruct (Ascii.eqb c a); [reflexivity|]. cbn in Hs |- *.
    apply (IH (len t)); [subst n; unfold len; cbn; lia|reflexivity|exact Hs].
Qed.

Lemma forallb_str_has_char (p : ascii -> bool) (c : ascii) (s : string) :
  has_char c s = true -> p c = false -> forallb_str p s = false.
Proof.
  unfold has_char. induction s as [|a s IH]; cbn; [discriminate|].
  destruct (Ascii.eqb c a) eqn:Hc.
  - apply Ascii.eqb_eq in Hc as <-. intros _ ->. reflexivity.
  - cbn. intros Hs Hp. rewrite (IH Hs Hp). apply andb_false_r.
Qed.

End ReplaceFacts.

(** X7.  An expression that holds an ASCII character which is neither
    alphanumeric, nor one of [0123456789+-*/.() ], nor the caret is never
    evaluated: the character survives the three replacements, and the
    calculator answers with the invalid-characters error whatever [eval]
    would have done. *)
Theorem calculator_rejects_characters :
  forall (py_eval : string -> Evaluated) (expression : string) (c : ascii),
    has_char c expression = true ->
    (code c < 128)%nat ->
    has_char c "0123456789+-*/.() ^" = false ->
    is_alnum c = false ->
    Calculator.execute py_eval expression
    = Some "Error: Invalid characters in expression".
Proof.
  intros py_eval expression c Hin Hascii Hallowed Halnum.
  unfold Calculator.execute.
  assert (Hset : PyRe.one_of allowed_chars c = false).
  { change (has_char c (allowed_chars ++ "^") = false) in Hallowed.
    rewrite has_char_app in Hallowed.
    now apply orb_false_iff in Hallowed as [H1 _]. }
  assert (Hcaret : has_char c "^" = false).
  { change (has_char c (allowed_chars ++ "^") = false) in Hallowed.
    rewrite has_char_app in Hallowed.
    now apply orb_false_iff in Hallowed as [_ H2]. }
  assert (Hpi : has_char c "pi" = false).
  { assert (H1 : Ascii.eqb c "p" = false)
      by (apply Ascii.eqb_neq; intros ->; discriminate).
    assert (H2 : Ascii.eqb c "i" = false)
      by (apply Ascii.eqb_neq; intros ->; discriminate).
    unfold has_char. cbn [existsb_str]. now rewrite H1, H2. }
  assert (Hsign : has_char c pi_sign = false).
  { assert (H1 : Ascii.eqb c (ascii_of_nat 207) = false)
      by (apply Ascii.eqb_neq; intros ->; cbn in Hascii; lia).
    assert (H2 : Ascii.eqb c (ascii_of_nat 128) = false)
      by (apply Ascii.eqb_neq; intros ->; cbn in Hascii; lia).
    unfold has_char, pi_sign. cbn [existsb_str]. now rewrite H1, H2. }
  assert (Hsafe : has_char c
            (replace "pi" pi_text
               (replace pi_sign pi_text (replace "^" "**" expression))) = true).
  { apply replace_keeps_char; [discriminate|exact Hpi|].
    apply replace_keeps_char; [discriminate|exact Hsign|].
    apply replace_keeps_char; [discriminate|exact Hcaret|exact Hin]. }
  rewrite (forallb_str_has_char _ c _ Hsafe); [reflexivity|].
  now rewrite Hset, Halnum.
Qed.

Lemma calculator_rejects_characters_witness :
  has_char "_" "__import__('os')" = true
  /\ Calculator.execute (fun _ => Uncaught) "__import__('os')"
     = Some "Error: Invalid characters in expression".
Proof.
  split; [reflexivity|].
  apply (calculator_rejects_characters (fun _ => Uncaught) "__import__('os')" "_");
    [reflexivity | cbn; lia | reflexivity | reflexivity].
Defined.

(** ** The matcher: what it calls its continuation on *)

Section MatcherSoundness.
Local Open Scope nat_scope.

Variable s0 : string.

Lemma len_drop (n : nat) (s : string) : len (drop n s) <= len s.
Proof.
  unfold len. revert s. induction n as [|n IH]; intros [|a s]; cbn; try lia.
  specialize (IH s). lia.
Qed.

Lemma rep_loop_calls (body : string -> caps -> cont -> option (string * caps))
  (greedy : bool) (lo : nat) (hi : option nat) (k : cont) :
  calls_shorter body ->
  forall fuel n rest c x,
    rep_loop body greedy lo hi k fuel n rest c = Some x ->
    exists rest' c', len rest' <= len rest
                     /\ (n < lo -> len rest' < len rest)
                     /\ k rest' c' = Some x.
Proof.
  intros Hbody. induction fuel as [|fuel IH]; intros n rest c x; cbn [rep_loop];
    [discriminate|].
  assert (Hmore : forall y,
            (if under hi n
             then body rest c
                    (fun rest' c' =>
                       if len rest' <? len rest
                       then rep_loop body greedy lo hi k fuel (S n) rest' c'
                       else None)
             else None) = Some y ->
            exists rest' c', len rest' <= len rest
                             /\ (n < lo -> len rest' < len rest)
                             /\ k rest' c' = Some y).
  { intros y Hy. destruct (under hi n); [|discriminate].
    apply Hbody in Hy as (r1 & c1 & Hle & Hk).
    destruct (len r1 <? len rest) eqn:Hlt; [|discriminate].
    apply Nat.ltb_lt in Hlt.
    apply IH in Hk as (r2 & c2 & Hle2 & _ & Hk2).
    exists r2, c2. repeat split; [lia|lia|exact Hk2]. }
  assert (Hstop : forall y,
            (if lo <=? n then k rest c else None) = Some y ->
            exists rest' c', len rest' <= len rest
                             /\ (n < lo -> len rest' < len rest)
                             /\ k rest' c' = Some y).
  { intros y Hy. destruct (lo <=? n) eqn:Hlo; [|discriminate].
    apply Nat.leb_le in Hlo. exists rest, c. repeat split; [lia|lia|exact Hy]. }
  destruct greedy.
  - destruct (if under hi n then _ else None) as [y|] eqn:Hy.
    + intros [= <-]. now apply Hmore.
    + apply Hstop.
  - destruct (if lo <=? n then k rest c else None) as [y|] eqn:Hy.
    + intros [= <-]. now apply Hstop.
    + apply Hmore.
Qed.

Lemma run_calls (r : regex) : calls_shorter (run s0 r).
Proof.
  induction r as [|p|r1 IH1 r2 IH2|r1 IH1 r2 IH2|greedy lo hi r1 IH1|i r1 IH1|i| |];
    intros rest c k x; cbn [run].
  - intros Hk. exists rest, c. split; [lia|exact Hk].
  - destruct rest as [|a t]; [discriminate|]. destruct (p a); [|discriminate].
    intros Hk. exists t, c. split; [unfold len; cbn; lia|exact Hk].
  - intros H. apply IH1 in H as (r' & c' & Hle & H).
    apply IH2 in H as (r'' & c'' & Hle' & H).
    exists r'', c''. split; [lia|exact H].
  - destruct (run s0 r1 rest c k) as [y|] eqn:H1.
    + intros [= <-]. now apply IH1 in H1.
    + apply IH2.
  - intros H. apply (rep_loop_calls _ _ _ _ _ IH1) in H as (r' & c' & Hle & _ & H).
    exists r', c'. split; [exact Hle|exact H].
  - intros H. apply IH1 in H as (r' & c' & Hle & H). eauto.
  - destruct (group i c) as [t|]; [|discriminate].
    destruct (prefix t rest); [|discriminate].
    intros Hk. exists (drop (len t) rest), c. split; [apply len_drop|exact Hk].
  - destruct (len rest =? len s0); [|discriminate].
    intros Hk. exists rest, c. split; [lia|exact Hk].
  - destruct rest as [|a [|b t]]; try discriminate.
    + intros Hk. exists EmptyString, c. split; [lia|exact Hk].
    + destruct (code a =? 10); [|discriminate].
      intros Hk. exists (String a EmptyString), c. split; [lia|exact Hk].
Qed.

(** A text property kept by every suffix. *)
Variable P : string -> Prop.
Hypothesis P_tail : forall a t, P (String a t) -> P t.

Lemma P_drop (n : nat) (s : string) : P s -> P (drop n s).
Proof.
  revert s. induction n as [|n IH]; intros [|a s] Hs; cbn; try exact Hs.
  apply IH. now apply P_tail in Hs.
Qed.

Lemma rep_loop_none (body : string -> caps -> cont -> option (string * caps))
  (greedy : bool) (lo : nat) (hi : option nat) (k : cont) :
  (forall k', fails_on P k' -> fails_on P (fun rest c => body rest c k')) ->
  fails_on P k ->
  forall fuel n, fails_on P (rep_loop body greedy lo hi k fuel n).
Proof.
  intros Hbody Hk. induction fuel as [|fuel IH]; intros n rest c Hrest;
    cbn [rep_loop]; [reflexivity|].
  assert (Hmore : (if under hi n
                   then body rest c
                          (fun rest' c' =>
                             if len rest' <? len rest
                             then rep_loop body greedy lo hi k fuel (S n) rest' c'
                             else None)
                   else None) = None).
  { destruct (under hi n); [|reflexivity].
    apply (Hbody (fun rest' c' =>
                    if len rest' <? len rest
                    then rep_loop body greedy lo hi k fuel (S n) rest' c'
                    else None)); [|exact Hrest].
    intros r' c' Hr'. destruct (len r' <? len rest); [|reflexivity].
    now apply IH. }
  rewrite Hmore, (Hk rest c Hrest). now destruct greedy, (lo <=? n).
Qed.

Lemma run_none (r : regex) (k : cont) :
  fails_on P k -> fails_on P (fun rest c => run s0 r rest c k).
Proof.
  revert k.
  induction r as [|p|r1 IH1 r2 IH2|r1 IH1 r2 IH2|greedy lo hi r1 IH1|i r1 IH1|i| |];
    intros k Hk rest c Hrest; cbn [run].
  - now apply Hk.
  - destruct rest as [|a t]; [reflexivity|]. destruct (p a); [|reflexivity].
    apply Hk. now apply P_tail in Hrest.
  - apply (IH1 (fun rest' c' => run s0 r2 rest' c' k)); [|exact Hrest].
    now apply IH2.
  - rewrite (IH1 k Hk rest c Hrest). now apply IH2.
  - apply rep_loop_none; [exact IH1|exact Hk|exact Hrest].
  - apply (IH1 (fun rest' c' => k rest' ((i, take (len rest - len rest') rest) :: c')));
      [|exact Hrest].
    intros r' c' Hr'. now apply Hk.
  - destruct (group i c) as [t|]; [|reflexivity].
    destruct (prefix t rest); [|reflexivity]. apply Hk. now apply P_drop.
  - destruct (len rest =? len s0); [|reflexivity]. now apply Hk.
  - destruct rest as [|a [|b t]]; try reflexivity; [now apply Hk|].
    destruct (code a =? 10); [|reflexivity]. now apply Hk.
Qed.

End MatcherSoundness.

(** ** The matcher finds matches of the pattern *)

Section MatcherMeaning.
Local Open Scope nat_scope.

Variable s0 : string.

Lemma rep_loop_sound (body : string -> caps -> cont -> option (string * caps))
  (step : string -> caps -> string -> caps -> Prop)
  (greedy : bool) (lo : nat) (hi : option nat) (k : cont) :
  sound body step ->
  forall fuel n rest c x,
    within hi n ->
    rep_loop body greedy lo hi k fuel n rest c = Some x ->
    exists m rest' c',
      iterates step m rest c rest' c'
      /\ lo <= n + m /\ within hi (n + m) /\ k rest' c' = Some x.
Proof.
  intros Hbody. induction fuel as [|fuel IH]; intros n rest c x Hn;
    cbn [rep_loop]; [discriminate|].
  assert (Hmore : forall y,
            (if under hi n
             then body rest c
                    (fun rest' c' =>
                       if len rest' <? len rest
                       then rep_loop body greedy lo hi k fuel (S n) rest' c'
                       else None)
             else None) = Some y ->
            exists m rest' c',
              iterates step m rest c rest' c'
              /\ lo <= n + m /\ within hi (n + m) /\ k rest' c' = Some y).
  { intros y Hy. destruct (under hi n) eqn:Hu; [|discriminate].
    apply Hbody in Hy as (r1 & c1 & Hstep & Hk).
    destruct (len r1 <? len rest) eqn:Hlt; [|discriminate].
    apply Nat.ltb_lt in Hlt.
    apply IH in Hk as (m & r2 & c2 & Hit & Hlo & Hhi & Hk2).
    - exists (S m), r2, c2. rewrite Nat.add_succ_r.
      repeat split; try assumption. econstructor; eassumption.
    - destruct hi as [h|]; cbn in Hu |- *; [|exact I].
      apply Nat.ltb_lt in Hu. lia. }
  assert (Hstop : forall y,
            (if lo <=? n then k rest c else None) = Some y ->
            exists m rest' c',
              iterates step m rest c rest' c'
              /\ lo <= n + m /\ within hi (n + m) /\ k rest' c' = Some y).
  { intros y Hy. destruct (lo <=? n) eqn:Hlo; [|discriminate].
    apply Nat.leb_le in Hlo. exists 0, rest, c. rewrite Nat.add_0_r.
    repeat split; try assumption. constructor. }
  destruct greedy.
  - destruct (if under hi n then _ else None) as [y|] eqn:Hy.
    + intros [= <-]. now apply Hmore.
    + apply Hstop.
  - destruct (if lo <=? n then k rest c else None) as [y|] eqn:Hy.
    + intros [= <-]. now apply Hstop.
    + apply Hmore.
Qed.

(** Whatever the matcher finds is a match of the pattern. *)
Lemma run_sound (r : regex) : sound (run s0 r) (matches s0 r).
Proof.
  induction r as [|p|r1 IH1 r2 IH2|r1 IH1 r2 IH2|greedy lo hi r1 IH1|i r1 IH1|i| |];
    intros rest c k x; cbn [run matches].
  - intros Hk. exists rest, c. auto.
  - destruct rest as [|a t]; [discriminate|]. destruct (p a) eqn:Hp; [|discriminate].
    intros Hk. exists t, c. split; [exists a; auto|exact Hk].
  - intros H. apply IH1 in H as (r' & c' & H1 & H).
    apply IH2 in H as (r'' & c'' & H2 & H).
    exists r'', c''. split; [exists r', c'; auto|exact H].
  - destruct (run s0 r1 rest c k) as [y|] eqn:H1.
    + intros [= <-]. apply IH1 in H1 as (r' & c' & H1 & H). eauto.
    + intros H. apply IH2 in H as (r' & c' & H2 & H). eauto.
  - intros H.
    apply (rep_loop_sound _ _ _ _ _ _ IH1) in H as (m & r' & c' & Hit & Hlo & Hhi & H).
    + exists r', c'. split; [exists m; auto|exact H].
    + destruct hi; cbn; [lia|exact I].
  - intros H. apply IH1 in H as (r' & c' & H1 & H).
    eexists. eexists. split; [|exact H]. exists c'. auto.
  - destruct (group i c) as [t|]; [|discriminate].
    destruct (prefix t rest) eqn:Hp; [|discriminate].
    intros Hk. exists (drop (len t) rest), c. split; [exists t; auto|exact Hk].
  - destruct (len rest =? len s0) eqn:Hl; [|discriminate].
    apply Nat.eqb_eq in Hl. intros Hk. exists rest, c. auto.
  - destruct rest as [|a [|b t]]; try discriminate.
    + intros Hk. exists EmptyString, c. auto.
    + destruct (code a =? 10) eqn:Ha; [|discriminate].
      apply Nat.eqb_eq in Ha. intros Hk. exists (String a EmptyString), c.
      split; [|exact Hk]. split; [|auto]. right.
      unfold code in Ha. rewrite <- Ha, ascii_nat_embedding. reflexivity.
Qed.

Lemma match_at_sound (r : regex) (rest : string) (m : rmatch) :
  match_at s0 r rest = Some m ->
  m_from m = rest /\ matches s0 r rest [] (m_rest m) (m_caps m).
Proof.
  unfold match_at.
  destruct (run s0 r rest [] _) as [[e c]|] eqn:Hrun; [|discriminate].
  intros [= <-]. cbn. split; [reflexivity|].
  apply run_sound in Hrun as (r' & c' & Hm & [= <- <-]). exact Hm.
Qed.

Lemma search_from_sound (r : regex) (rest : string) (m : rmatch) :
  search_from s0 r rest = Some m ->
  matches s0 r (m_from m) [] (m_rest m) (m_caps m).
Proof.
  induction rest as [|a t IH]; cbn [search_from];
    destruct (match_at s0 r _) as [m'|] eqn:Hat; try discriminate.
  - intros [= <-]. apply match_at_sound in Hat as [-> Hm]. exact Hm.
  - intros [= <-]. apply match_at_sound in Hat as [-> Hm]. exact Hm.
  - exact IH.
Qed.

(** *** What a pattern consumes and what its groups hold *)

Variable P : ascii -> bool.

Lemma forallb_str_app (u v : string) :
  forallb_str P (u ++ v) = forallb_str P u && forallb_str P v.
Proof. induction u as [|a u IH]; cbn; [reflexivity|]. now rewrite IH, andb_assoc. Qed.

Lemma spans_refl (rest : string) : spans P rest rest.
Proof. now exists EmptyString. Qed.

Lemma spans_trans (a b c : string) : spans P a b -> spans P b c -> spans P a c.
Proof.
  intros (t & -> & Ht) (u & -> & Hu). exists (t ++ u). split.
  - symmetry. apply app_assoc_str.
  - now rewrite forallb_str_app, Ht, Hu.
Qed.

Lemma iterates_spans (step : string -> caps -> string -> caps -> Prop) :
  (forall rest c rest' c', step rest c rest' c' -> spans P rest rest') ->
  forall n rest c rest' c', iterates step n rest c rest' c' -> spans P rest rest'.
Proof.
  intros Hstep n rest c rest' c' Hit.
  induction Hit as [|n rest c rest1 c1 rest2 c2 H1 _ _ IH]; [apply spans_refl|].
  eapply spans_trans; [eapply Hstep; eassumption|exact IH].
Qed.

Lemma made_of_spans (r : regex) :
  made_of P r ->
  forall rest c rest' c', matches s0 r rest c rest' c' -> spans P rest rest'.
Proof.
  induction r as [|p|r1 IH1 r2 IH2|r1 IH1 r2 IH2|greedy lo hi r1 IH1|i r1 IH1|i| |];
    cbn [made_of matches]; intros Hr rest c rest' c'.
  - intros [-> _]. apply spans_refl.
  - intros (a & Hp & -> & _). exists (String a EmptyString). split; [reflexivity|].
    cbn. now rewrite (Hr a Hp).
  - intros (mid & cm & H1 & H2). destruct Hr as [Hr1 Hr2].
    eapply spans_trans; [eapply IH1|eapply IH2]; eassumption.
  - destruct Hr as [Hr1 Hr2]. intros [H|H]; [eapply IH1|eapply IH2]; eassumption.
  - intros (n & _ & _ & Hit). eapply iterates_spans; [|exact Hit]. now apply IH1.
  - intros (cm & H & _). eapply IH1; eassumption.
  - destruct Hr.
  - intros (_ & -> & _). apply spans_refl.
  - intros (_ & -> & _). apply spans_refl.
Qed.

Lemma take_spanned (t rest' : string) : take (len (t ++ rest') - len rest') (t ++ rest') = t.
Proof.
  rewrite len_app. replace (len t + len rest' - len rest') with (len t) by lia.
  unfold len. induction t as [|a t IH]; cbn.
  - now destruct rest'.
  - now rewrite IH.
Qed.

Lemma iterates_group_ok (i : nat) (step : string -> caps -> string -> caps -> Prop) :
  (forall rest c rest' c', step rest c rest' c' -> group_ok P i c -> group_ok P i c') ->
  forall n rest c rest' c',
    iterates step n rest c rest' c' -> group_ok P i c -> group_ok P i c'.
Proof.
  intros Hstep n rest c rest' c' Hit.
  induction Hit as [|n rest c rest1 c1 rest2 c2 H1 _ _ IH]; [auto|].
  intros Hc. apply IH. eapply Hstep; eassumption.
Qed.

Lemma groups_stay_made_of (i : nat) (r : regex) :
  groups_made_of P i r ->
  forall rest c rest' c',
    matches s0 r rest c rest' c' -> group_ok P i c -> group_ok P i c'.
Proof.
  induction r as [|p|r1 IH1 r2 IH2|r1 IH1 r2 IH2|greedy lo hi r1 IH1|j r1 IH1|j| |];
    cbn [groups_made_of matches]; intros Hr rest c rest' c'.
  - now intros [_ ->].
  - now intros (a & _ & _ & ->).
  - intros (mid & cm & H1 & H2) Hc. destruct Hr as [Hr1 Hr2].
    eapply IH2; [exact Hr2|exact H2|]. eapply IH1; eassumption.
  - destruct Hr as [Hr1 Hr2]. intros [H|H]; [eapply IH1|eapply IH2]; eassumption.
  - intros (n & _ & _ & Hit). eapply iterates_group_ok; [|exact Hit]. now apply IH1.
  - intros (cm & H & ->) Hc t. destruct Hr as [Hr1 Hmade]. cbn [group].
    destruct (i =? j) eqn:Hij.
    + intros [= <-]. destruct (made_of_spans r1 (Hmade eq_refl) _ _ _ _ H)
        as (u & -> & Hu).
      now rewrite take_spanned.
    + apply (IH1 Hr1 _ _ _ _ H Hc).
  - now intros (t & _ & _ & _ & ->).
  - now intros (_ & _ & ->).
  - now intros (_ & _ & ->).
Qed.

Lemma search_group_made_of (i : nat) (r : regex) (m : rmatch) :
  groups_made_of P i r -> PyRe.search r s0 = Some m ->
  forallb_str P (m_group i m) = true.
Proof.
  intros Hr Hm. apply search_from_sound in Hm.
  unfold m_group. destruct (group i (m_caps m)) as [t|] eqn:Ht; [|reflexivity].
  apply (groups_stay_made_of i r Hr _ _ _ _ Hm); [|exact Ht].
  intros t' Hnone. discriminate.
Qed.




End MatcherMeaning.

Lemma in_first_some {A B : Type} (f : A -> option B) (l : list A) (y : B) :
  first_some f l = Some y -> exists x, In x l /\ f x = Some y.
Proof.
  induction l as [|x l IH]; cbn; [discriminate|].
  destruct (f x) as [y'|] eqn:Hx.
  - intros [= <-]. eauto.
  - intros H. destruct (IH H) as (x' & Hin & Hf). eauto.
Qed.

(** ** The number read from a response *)

Section ResultExtraction.
Local Open Scope nat_scope.

Variable F : Type.
Variable py_float : string -> F.

Lemma digitless_tail (a : ascii) (t : string) : digitless (String a t) -> digitless t.
Proof. unfold digitless. cbn. intros H. now apply orb_false_iff in H. Qed.

Lemma number_fails (s0 rest : string) (c : caps) (k : cont) :
  digitless rest -> run s0 number rest c k = None.
Proof.
  intros Hrest. unfold number, plus. cbn.
  destruct rest as [|a t]; [reflexivity|].
  unfold digitless in Hrest. cbn in Hrest. apply orb_false_iff in Hrest as [Ha _].
  unfold digit. cbn. now rewrite Ha.
Qed.

Lemma result_pattern_fails (s0 : string) (p : regex) (rest : string) :
  In p result_patterns -> digitless rest -> match_at s0 p rest = None.
Proof.
  intros Hp Hrest. unfold match_at.
  assert (Hrun : run s0 p rest [] (fun rest' c' => Some (rest', c')) = None).
  { unfold result_patterns in Hp. cbn [In] in Hp.
    destruct Hp as [<-|[<-|[<-|[<-|[<-|[]]]]]]; cbn [seq run].
    - apply (run_none s0 digitless digitless_tail (ch "=")); [|exact Hrest].
      apply (run_none s0 digitless digitless_tail (star space)).
      intros r' c' Hr'. now apply number_fails.
    - apply (run_none s0 digitless digitless_tail (liti "result")); [|exact Hrest].
      apply (run_none s0 digitless digitless_tail (plus _)).
      intros r' c' Hr'. now apply number_fails.
    - apply (run_none s0 digitless digitless_tail (liti "answer")); [|exact Hrest].
      apply (run_none s0 digitless digitless_tail (plus _)).
      intros r' c' Hr'. now apply number_fails.
    - now apply number_fails.
    - apply (run_none s0 digitless digitless_tail (ch ":")); [|exact Hrest].
      apply (run_none s0 digitless digitless_tail (star space)).
      intros r' c' Hr'. now apply number_fails. }
  now rewrite Hrun.
Qed.

Lemma search_from_none (s0 : string) (p : regex) (rest : string) :
  (forall rest', digitless rest' -> match_at s0 p rest' = None) ->
  digitless rest -> search_from s0 p rest = None.
Proof.
  intros Hp. induction rest as [|a t IH]; intros Hrest; cbn [search_from];
    rewrite (Hp _ Hrest); [reflexivity|].
  apply IH. now apply digitless_tail in Hrest.
Qed.

Lemma number_fails_bare (s0 : string) (rest : string) :
  digitless rest -> match_at s0 number rest = None.
Proof. intros Hrest. unfold match_at. now rewrite number_fails. Qed.

(** At a digit, [\d+(?:\.\d+)?] matches and takes at least that digit. *)
Lemma number_matches (s0 : string) (a : ascii) (t : string) :
  is_digit a = true -> found (match_at s0 number (String a t)) = true.
Proof.
  intros Ha. unfold match_at.
  assert (Hrun : run s0 number (String a t) []
                   (fun rest' c' => Some (rest', c')) <> None).
  { unfold number, plus, opt. cbn [seq run].
    apply rep_loop_more with (rest' := t) (c' := []).
    - intros k Hk. unfold digit. cbn. now rewrite Ha.
    - reflexivity.
    - unfold len. cbn. lia.
    - apply rep_loop_stop; [lia|].
      apply rep_loop_stop; [lia|discriminate]. }
  destruct (run _ _ _ _ _) as [[e c]|]; [reflexivity|contradiction].
Qed.

Lemma search_from_digit (s0 : string) (rest : string) :
  existsb_str is_digit rest = true ->
  found (search_from s0 number rest) = true.
Proof.
  induction rest as [|a t IH]; [discriminate|]. cbn [existsb_str].
  destruct (is_digit a) eqn:Ha.
  - intros _. cbn [search_from].
    pose proof (number_matches s0 a t Ha) as Hm.
    destruct (match_at s0 number (String a t)); [reflexivity|discriminate].
  - cbn [orb]. intros Ht. cbn [search_from].
    destruct (match_at s0 number (String a t)); [reflexivity|now apply IH].
Qed.

Lemma search_from_at (s0 : string) (p : regex) (rest : string) (m : rmatch) :
  search_from s0 p rest = Some m -> exists rest', match_at s0 p rest' = Some m.
Proof.
  induction rest as [|a t IH]; cbn [search_from];
    destruct (match_at s0 p _) as [m'|] eqn:Hm.
  - intros [= <-]. eauto.
  - discriminate.
  - intros [= <-]. eauto.
  - exact IH.
Qed.

Lemma number_consumes (s0 rest : string) (m : rmatch) :
  match_at s0 number rest = Some m -> len (m_rest m) < len (m_from m).
Proof.
  unfold match_at.
  destruct (run s0 number rest [] (fun rest' c' => Some (rest', c')))
    as [[e c]|] eqn:Hrun; [|discriminate].
  intros [= <-]. cbn [m_rest m_from].
  unfold number, plus, opt in Hrun. cbn [seq run] in Hrun.
  apply (rep_loop_calls _ _ _ _ _ (run_calls s0 digit)) in Hrun
    as (r1 & c1 & _ & Hlt & Hk).
  apply (rep_loop_calls (run s0 (Seq (ch ".") (plus digit))) _ _ _ _
           (run_calls s0 _)) in Hk
    as (r2 & c2 & Hle & _ & Hk).
  injection Hk as <- _. specialize (Hlt ltac:(lia)). lia.
Qed.

Lemma findall_number_digit (response : string) :
  existsb_str is_digit response = true -> findall number response <> [].
Proof.
  intros Hd. unfold findall. cbn [findall_go].
  pose proof (search_from_digit response response Hd) as Hfound.
  destruct (search_from response number response) as [m|] eqn:Hs; [|discriminate].
  apply search_from_at in Hs as (rest' & Hm).
  apply number_consumes in Hm. apply Nat.ltb_lt in Hm. rewrite Hm. discriminate.
Qed.

Lemma first_some_none {A B : Type} (f : A -> option B) (l : list A) :
  (forall x, In x l -> f x = None) -> first_some f l = None.
Proof.
  induction l as [|x l IH]; intros H; [reflexivity|]. cbn.
  rewrite (H x (or_introl eq_refl)). apply IH. intros y Hy. apply H. now right.
Qed.

(** *** The texts [findall] returns *)

Lemma len_take (n : nat) (s : string) : len (take n s) <= len s.
Proof.
  unfold len. revert s. induction n as [|n IH]; intros [|a s]; cbn; try lia.
  specialize (IH s). lia.
Qed.

Lemma search_from_within (s0 : string) (r : regex) (rest : string) (m : rmatch) :
  search_from s0 r rest = Some m -> len (m_from m) <= len rest.
Proof.
  induction rest as [|a t IH]; cbn [search_from];
    destruct (match_at s0 r _) as [m'|] eqn:Hat; try discriminate.
  - intros [= <-]. apply match_at_sound in Hat as [-> _]. lia.
  - intros [= <-]. apply match_at_sound in Hat as [-> _]. lia.
  - intros Hm. specialize (IH Hm). unfold len in *. cbn. lia.
Qed.

Lemma findall_go_texts (s0 : string) (r : regex) (fuel : nat) (rest t : string) :
  In t (findall_go fuel s0 r rest) ->
  exists m, matches s0 r (m_from m) [] (m_rest m) (m_caps m)
            /\ len (m_from m) <= len rest
            /\ t = m_text m.
Proof.
  revert rest. induction fuel as [|fuel IH]; intros rest; cbn [findall_go];
    [intros []|].
  destruct (search_from s0 r rest) as [m|] eqn:Hm; [|intros []].
  destruct (len (m_rest m) <? len (m_from m)) eqn:Hlt; [|intros []].
  apply Nat.ltb_lt in Hlt. pose proof (search_from_within _ _ _ _ Hm) as Hin.
  intros [<-|Hrest].
  - exists m. split; [now apply (search_from_sound s0 r rest)|]. auto.
  - apply IH in Hrest as (m' & Hmatch & Hlen & ->).
    exists m'. split; [exact Hmatch|]. split; [lia|reflexivity].
Qed.

Lemma findall_texts (r : regex) (s t : string) :
  In t (findall r s) ->
  len t <= len s
  /\ forall P : ascii -> bool, made_of P r -> forallb_str P t = true.
Proof.
  intros Hin. apply findall_go_texts in Hin as (m & Hmatch & Hlen & ->).
  split.
  - unfold m_text. pose proof (len_take (len (m_from m) - len (m_rest m)) (m_from m)).
    lia.
  - intros P Hr.
    destruct (made_of_spans s P r Hr _ _ _ _ Hmatch) as (u & Hu & HP).
    unfold m_text. rewrite Hu, take_spanned. exact HP.
Qed.

(** *** What [int] and the f-string do with a run of digits *)

Lemma fits_spec (digits : nat) (z : Z) :
  (0 <= z)%Z -> fits digits z = true <-> (z < 10 ^ Z.of_nat digits)%Z.
Proof.
  revert z. induction digits as [|d IH]; intros z Hz.
  - cbn [fits]. rewrite Z.ltb_lt. reflexivity.
  - cbn [fits]. rewrite Nat2Z.inj_succ, Z.pow_succ_r by lia.
    assert (Hpos : (0 < 10 ^ Z.of_nat d)%Z) by (apply Z.pow_pos_nonneg; lia).
    destruct (z <? 10)%Z eqn:Hsmall.
    + apply Z.ltb_lt in Hsmall. split; [intros _; nia|reflexivity].
    + apply Z.ltb_ge in Hsmall.
      rewrite (IH (z / 10)%Z) by (apply Z.div_pos; lia).
      pose proof (Z.div_mod z 10 ltac:(lia)) as Hdiv.
      pose proof (Z.mod_pos_bound z 10 ltac:(lia)) as Hmod.
      split; intros H; nia.
Qed.

Lemma int_of_digits_go_bound (t : string) (acc : Z) :
  forallb_str is_digit t = true -> (0 <= acc)%Z ->
  (0 <= int_of_digits_go acc t < (acc + 1) * 10 ^ Z.of_nat (len t))%Z.
Proof.
  revert acc. induction t as [|a t IH]; intros acc Ht Hacc.
  - cbn. lia.
  - cbn [forallb_str] in Ht. apply andb_prop in Ht as [Ha Ht].
    cbn [int_of_digits_go]. unfold len. cbn [String.length].
    rewrite Nat2Z.inj_succ, Z.pow_succ_r by lia.
    assert (Hdigit : (0 <= digit_val a <= 9)%Z).
    { unfold digit_val. unfold is_digit, between in Ha.
      apply andb_prop in Ha as [Hlo Hhi].
      apply Nat.leb_le in Hlo. apply Nat.leb_le in Hhi. lia. }
    specialize (IH (10 * acc + digit_val a)%Z Ht ltac:(lia)).
    unfold len in IH.
    assert (Hpos : (0 < 10 ^ Z.of_nat (String.length t))%Z)
      by (apply Z.pow_pos_nonneg; lia).
    nia.
Qed.

(** [int] of at most [int_max_str_digits] digits can be printed again. *)
Lemma py_int_printable (t : string) (z : Z) :
  forallb_str is_digit t = true -> py_int t = Some z ->
  (0 <= z)%Z /\ unprintable z = false.
Proof.
  intros Ht. unfold py_int.
  destruct (int_max_str_digits <? len t) eqn:Hlen; [discriminate|].
  apply Nat.ltb_ge in Hlen. intros [= <-].
  destruct (int_of_digits_go_bound t 0 Ht ltac:(lia)) as [Hlo Hhi].
  fold (int_of_digits t) in Hlo, Hhi. split; [exact Hlo|].
  unfold unprintable. rewrite Z.abs_eq by exact Hlo.
  apply negb_false_iff. apply fits_spec; [exact Hlo|].
  eapply Z.lt_le_trans; [exact Hhi|]. rewrite Z.mul_1_l.
  apply Z.pow_le_mono_r; lia.
Qed.

Lemma number_text_digits (t : string) :
  forallb_str number_char t = true -> contains "." t = false ->
  forallb_str is_digit t = true.
Proof.
  induction t as [|a t IH]; [reflexivity|]. cbn [forallb_str contains].
  intros Ha Hdot. apply andb_prop in Ha as [Ha Ht].
  apply orb_false_iff in Hdot as [Hhead Hdot].
  assert (Hne : Ascii.eqb "." a = false).
  { destruct (Ascii.eqb "." a) eqn:E; [|reflexivity].
    apply Ascii.eqb_eq in E. subst a. cbn in Hhead. now destruct t. }
  unfold number_char in Ha. rewrite Hne, orb_false_r in Ha.
  now rewrite Ha, IH.
Qed.

Lemma to_number_int (t : string) (z : Z) :
  forallb_str number_char t = true ->
  to_number F py_float t = Some (VInt z) ->
  (0 <= z)%Z /\ unprintable z = false.
Proof.
  intros Ht. unfold to_number.
  destruct (contains "." t) eqn:Hdot; [discriminate|].
  destruct (py_int t) as [z'|] eqn:Hint; [|discriminate].
  intros [= <-]. apply (py_int_printable t); [|exact Hint].
  now apply number_text_digits.
Qed.

Lemma to_number_short (t : string) :
  len t <= int_max_str_digits -> to_number F py_float t <> None.
Proof.
  intros Hlen. unfold to_number, py_int.
  destruct (contains "." t); [discriminate|].
  replace (int_max_str_digits <? len t) with false
    by (symmetry; apply Nat.ltb_ge; exact Hlen).
  discriminate.
Qed.

Lemma number_made_of : made_of number_char number.
Proof.
  assert (Hd : forall a, is_digit a = true -> number_char a = true).
  { intros a Ha. unfold number_char. now rewrite Ha. }
  assert (Hdot : forall a, Ascii.eqb "." a = true -> number_char a = true).
  { intros a Ha. unfold number_char. rewrite Ha. apply orb_true_r. }
  cbn. auto.
Qed.

Lemma result_patterns_made_of :
  Forall (groups_made_of number_char 1) result_patterns.
Proof.
  pose proof number_made_of as Hn. cbn in Hn.
  unfold result_patterns. repeat constructor; cbn; tauto.
Qed.

(** Whatever the function returns as an int was read from digits. *)
Lemma extracted_int (response : string) (z : Z) :
  _extract_result_from_response F py_float response = Some (VInt z) ->
  (0 <= z)%Z /\ unprintable z = false.
Proof.
  unfold _extract_result_from_response.
  destruct (first_some _ result_patterns) as [v|] eqn:Hfirst.
  - intros [= ->]. apply in_first_some in Hfirst as (p & Hp & Hv).
    unfold result_by_pattern in Hv.
    destruct (PyRe.search p response) as [m|] eqn:Hm; [|discriminate].
    apply (to_number_int (m_group 1 m)); [|exact Hv].
    apply (search_group_made_of response number_char 1 p m); [|exact Hm].
    pose proof result_patterns_made_of as Hall.
    rewrite Forall_forall in Hall. now apply Hall.
  - destruct (rev (findall number response)) as [|last l] eqn:Hrev; [discriminate|].
    intros Hv. apply (to_number_int last); [|exact Hv].
    assert (Hin : In last (findall number response)).
    { apply in_rev. rewrite Hrev. now left. }
    apply findall_texts in Hin as [_ Hmade]. apply Hmade, number_made_of.
Qed.

End ResultExtraction.

(** X8.  On ASCII text: [_extract_result_from_response] finds no number
    in a response without a digit; and in a response of at most
    [int_max_str_digits] characters, where no [int] can fail, it finds no
    number exactly when the response holds no digit. *)
Theorem result_extracted_iff_digit :
  forall (F : Type) (py_float : string -> F) (response : string),
    is_ascii response = true ->
    (existsb_str is_digit response = false ->
     _extract_result_from_response F py_float response = None)
    /\ ((len response <= int_max_str_digits)%nat ->
        (_extract_result_from_response F py_float response = None
         <-> existsb_str is_digit response = false)).
Proof.
  intros F py_float response _.
  assert (Hnone : existsb_str is_digit response = false ->
                  _extract_result_from_response F py_float response = None).
  { intros Hd. unfold _extract_result_from_response. rewrite first_some_none.
    - unfold findall. cbn [findall_go].
      rewrite search_from_none; [reflexivity| |exact Hd].
      intros rest'. apply number_fails_bare.
    - intros p Hp. unfold result_by_pattern, PyRe.search.
      rewrite search_from_none; [reflexivity| |exact Hd].
      intros rest'. now apply result_pattern_fails. }
  split; [exact Hnone|]. intros Hshort. split; [|exact Hnone].
  unfold _extract_result_from_response.
  destruct (first_some _ result_patterns); [discriminate|].
  destruct (existsb_str is_digit response) eqn:Hd; [|reflexivity].
  apply findall_number_digit in Hd.
  destruct (rev (findall number response)) as [|last l] eqn:Hrev.
  - exfalso. apply Hd. apply (f_equal (@rev string)) in Hrev.
    now rewrite rev_involutive in Hrev.
  - intros Hlast. exfalso.
    assert (Hin : In last (findall number response)).
    { apply in_rev. rewrite Hrev. now left. }
    apply findall_texts in Hin as [Hlen _].
    revert Hlast. apply to_number_short. lia.
Qed.

(** X9.  The integer that [_extract_result_from_response] reads from a
    response is never negative: no pattern takes a sign. *)
Theorem extracted_integer_not_negative :
  forall (F : Type) (py_float : string -> F) (response : string) (z : Z),
    _extract_result_from_response F py_float response = Some (VInt z) ->
    (0 <= z)%Z.
Proof.
  intros F py_float response z Hz.
  destruct (extracted_int F py_float response z Hz) as [Hpos Hprint].
  unfold unprintable in Hprint. apply negb_false_iff in Hprint.
  exact Hpos.
Qed.

(** ** The expression read from a query *)





(** ** The reflector, case by case *)

Section MoreReflectorFacts.

Variable F : Type.
Variable py_eval : string -> Outcome F.
Variable py_float : string -> F.
Variable float_close : PyVal F -> PyVal F -> option bool.
Variable py_equal : PyVal F -> PyVal F -> bool.
Variable show : option (PyVal F) -> string.
Variable now : string.

Local Abbreviation analyze :=
  (_analyze_answer_content F py_eval py_float float_close py_equal show).
Local Abbreviation recheck :=
  (_validate_mathematical_answer F py_eval py_float float_close py_equal).
Local Abbreviation decide := (_make_validation_decision F show).
Local Abbreviation validate :=
  (validate_response F py_eval py_float float_close py_equal show now).
Local Abbreviation printed := (format F show).

Local Open Scope Z_scope.

Lemma format_by_result (v : option (PyVal F)) :
  printed v = if unprintable_result v then Raise ValueError else Return (show v).
Proof. unfold format, unprintable_result. now destruct v as [[z|f|o]|]. Qed.

(** What the re-check read from the response can be printed. *)
Lemma provided_result_printable (query response : string) :
  unprintable_result (provided_result (recheck query response)) = false.
Proof.
  unfold _validate_mathematical_answer.
  destruct (_extract_math_expression query) as [expr|]; [|reflexivity].
  destruct (forallb_str _ _); [|reflexivity].
  destruct (py_eval _) as [expected|e]; [|reflexivity].
  cbn [provided_result].
  destruct (_extract_result_from_response F py_float response) as [[z|f|o]|]
    eqn:Hz; try reflexivity.
  cbn. now apply (extracted_int F py_float response z).
Qed.

Lemma answer_type_informational (query response : string)
  (aa : AnswerAnalysis F) :
  analyze query response = Return aa ->
  answer_type aa = "informational"
  <-> any_in math_words (lower query) = false
      /\ any_in weather_words (lower query) = false
      /\ any_in question_words (lower query) = true.
Proof.
  destruct (any_in math_words (lower query)) eqn:Hq.
  - intros Haa. split; [|intros (H & _); discriminate].
    intros Htype. exfalso.
    pose proof (analysis_returned F py_eval py_float float_close py_equal show
                  query response aa Haa) as Hmv.
    destruct (analysis_of_informational F py_eval py_float float_close py_equal
                show query response aa Haa Htype) as (_ & Hnone & _).
    revert Haa. unfold _analyze_answer_content. fold math_words. rewrite Hq.
    destruct (existsb_str is_digit response).
    + match goal with
      | |- bind ?m _ = _ -> _ => destruct m as [found|e]
      end; cbn [bind]; [|discriminate].
      intros [= <-]. discriminate.
    + intros [= <-]. discriminate.
  - destruct (analysis_without_math F py_eval py_float float_close py_equal show
                query response Hq) as (aa' & Haa' & _ & Htype).
    intros Haa. rewrite Haa in Haa'. injection Haa' as <-.
    rewrite Htype. unfold weather_words, question_words. tauto.
Qed.

(** The analysis cannot print an expected result that cannot be
    printed. *)
Lemma analysis_unprintable (query response : string) :
  any_in math_words (lower query) = true ->
  existsb_str is_digit response = true ->
  unprintable_result (expected_result (recheck query response)) = true ->
  analyze query response = Raise ValueError.
Proof.
  intros Hq Hr Hbig. unfold _analyze_answer_content. fold math_words.
  rewrite Hq, Hr.
  destruct (is_correct (recheck query response)).
  - now rewrite format_by_result, Hbig.
  - destruct (expected_result (recheck query response)) as [expected|];
      [|discriminate].
    now rewrite format_by_result, Hbig.
Qed.

(** X11.  On ASCII text, [validate_response] leaves by an exception in
    exactly two cases: with [TypeError] when the query holds no arithmetic
    and no weather keyword, holds a question word, and the response has at
    most 30 characters; with [ValueError] when the query holds an
    arithmetic keyword, the response a digit, and the expected result of
    the re-check is an int of more than [int_max_str_digits] digits, which
    the f-string cannot print.  The history is then untouched. *)
Theorem validate_raises_iff :
  forall (history : list (ValidationReport F)) (query response : string)
         (steps : list ReasoningStep),
    is_ascii query = true -> is_ascii response = true ->
    (forall e : Raised,
       fst (validate history query response steps) = Raise e
       <-> (e = TypeError
            /\ any_in math_words (lower query) = false
            /\ any_in weather_words (lower query) = false
            /\ any_in question_words (lower query) = true
            /\ (len response <= 30)%nat)
           \/ (e = ValueError
               /\ any_in math_words (lower query) = true
               /\ existsb_str is_digit response = true
               /\ unprintable_result (expected_result (recheck query response))
                  = true))
    /\ (forall e : Raised,
          fst (validate history query response steps) = Raise e ->
          snd (validate history query response steps) = history).
Proof.
  intros history query response steps _ _. split.
  - intros e. split.
    + intros He.
      destruct (validate history query response steps) as [outcome history']
        eqn:Hrun.
      cbn [fst] in He. subst outcome.
      destruct (validate_raises_only F py_eval py_float float_close py_equal show
                  now _ _ _ _ _ _ Hrun)
        as [(-> & (aa & Haa & Htype) & Hlen)
           |(-> & Hq & Hr & z & Hbig & [Hz|Hz])].
      * left. apply (answer_type_informational query response aa Haa) in Htype.
        tauto.
      * right. repeat split; auto. now rewrite Hz.
      * exfalso. pose proof (provided_result_printable query response) as Hp.
        rewrite Hz in Hp. cbn in Hp. congruence.
    + intros [(-> & H1 & H2 & H3 & Hlen)|(-> & Hq & Hr & Hbig)].
      * destruct (analysis_without_math F py_eval py_float float_close py_equal
                    show query response H1) as (aa & Haa & _ & Htype).
        rewrite (brief_informational_raises F py_eval py_float float_close
                   py_equal show now history query response steps aa Haa);
          [reflexivity| |exact Hlen].
        apply Htype. auto.
      * unfold validate_response.
        now rewrite (analysis_unprintable query response Hq Hr Hbig).
  - intros e He.
    destruct (validate history query response steps) as [outcome history']
      eqn:Hrun.
    cbn [fst] in He. subst outcome. cbn [snd].
    exact (validate_raises F py_eval py_float float_close py_equal show now
             _ _ _ _ _ _ Hrun).
Qed.

(** X12.  The rule-based scorer always reports success, decides correct
    or incorrect, and keeps its confidence between 20 and 90. *)
Theorem scorer_confidence_range :
  forall (query response : string) (steps : list ReasoningStep),
    let ai := _ai_powered_validation query response steps in
    validation_successful ai = true
    /\ (ai_decision ai = "correct" \/ ai_decision ai = "incorrect")
    /\ 20 <= ai_confidence ai <= 90.
Proof.
  intros query response steps. unfold _ai_powered_validation.
  repeat match goal with
         | |- context [if ?b then _ else _] => destruct b
         end; cbn; repeat split; auto; lia.
Qed.

(** X13.  The completeness score of a reasoning trace lies between 0 and
    100; a trace of three steps or more scores at least 80 and is never
    judged inconsistent, whatever its steps are called; a trace that
    misses no critical step scores 100. *)
Theorem reasoning_chain_scores :
  forall (steps : list ReasoningStep) (query : string),
    let v := _validate_reasoning_chain steps query in
    0 <= completeness_score v <= 100
    /\ ((3 <= List.length steps)%nat ->
        80 <= completeness_score v /\ logical_consistency v = true)
    /\ (missing_steps v = [] -> completeness_score v = 100).
Proof.
  intros steps query. unfold _validate_reasoning_chain. cbv zeta.
  set (missing := filter _ critical_steps).
  set (issues := minimal_steps 0 steps).
  assert (Hm : (List.length missing <= 3)%nat).
  { unfold missing. etransitivity; [apply filter_length_le|]. cbn. lia. }
  rewrite length_map.
  assert (Hscore : forall n, score_of (List.length missing) n
                             = score_of (List.length missing) n) by reflexivity.
  unfold score_of.
  destruct (3 <=? List.length steps)%nat eqn:Hlen.
  - destruct missing as [|? [|? [|? [|? ?]]]]; cbn in Hm; try lia;
      cbn [List.length Nat.sub]; 
      destruct (List.length issues =? 0)%nat; cbn;
      repeat split; intros; try lia; try discriminate; auto.
  - apply Nat.leb_gt in Hlen.
    destruct missing as [|? [|? [|? [|? ?]]]]; cbn in Hm; try lia;
      cbn [List.length Nat.sub]; 
      destruct (List.length issues =? 0)%nat; cbn;
      repeat split; intros; try lia; try discriminate; auto.
Qed.

Lemma verified_math_is_decisive (aa : AnswerAnalysis F) (rv : ReasoningValidation)
  (query response : string) (steps : list ReasoningStep) (mv : MathValidation F) :
  math_validation aa = Some mv -> is_correct mv = true ->
  answer_type aa = "mathematical" -> contains_calculation aa = true ->
  exists d, decide aa rv (_ai_powered_validation query response steps) = Return d
            /\ d_is_correct d = true
            /\ (d_confidence d = 95 \/ d_confidence d = 75).
Proof.
  intros Hmv Hright Htype Hcalc.
  unfold _make_validation_decision, math_priority, content_check.
  rewrite Hmv, Hright, Htype, Hcalc. cbn [String.eqb Ascii.eqb Bool.eqb bind].
  pose proof (ai_nudge_of_scorer query response steps 90) as Hc. cbv zeta in Hc.
  destruct (ai_nudge _ 90) as [parts2 c1]. cbn [snd] in Hc.
  cbn. eexists. split; [reflexivity|]. cbn. split; [reflexivity|lia].
Qed.

(** What [validate_response] returns once the analysis and the decision
    are known. *)
Lemma validate_of_decision (history : list (ValidationReport F))
  (query response : string) (steps : list ReasoningStep)
  (aa : AnswerAnalysis F) (d : Decision) :
  analyze query response = Return aa ->
  decide aa (_validate_reasoning_chain steps query)
         (_ai_powered_validation query response steps) = Return d ->
  exists report,
    validate history query response steps = (Return report, app history [report])
    /\ validation_decision report = d_is_correct d
    /\ confidence_level report = d_confidence d
    /\ improvement_suggestions report = d_suggestions d
    /\ answer_analysis_of report = aa
    /\ validation_status report
       = (if d_is_correct d then "CORRECT" else "INCORRECT").
Proof.
  intros Haa Hd. unfold validate_response. rewrite Haa, Hd.
  eexists. split; [reflexivity|]. cbn. repeat split.
Qed.

(** X14.  On ASCII text, for a query with an arithmetic keyword answered
    with a digit: when the expected result of the re-check is an int of
    more than [int_max_str_digits] digits, [validate_response] raises
    [ValueError] and leaves the history as it was; otherwise the
    arithmetic re-check alone decides the report: the decision is the
    re-check's verdict, with confidence 95 or 75 when it passes and 20
    when it fails. *)
Theorem recheck_decides :
  forall (history : list (ValidationReport F)) (query response : string)
         (steps : list ReasoningStep),
    is_ascii query = true -> is_ascii response = true ->
    any_in ["calculate"; "math"; "+"; "-"; "*"; "/"; "="] (lower query) = true ->
    existsb_str is_digit response = true ->
    if unprintable_result (expected_result (recheck query response))
    then validate history query response steps = (Raise ValueError, history)
    else
      exists report,
        validate history query response steps
        = (Return report, app history [report])
        /\ validation_decision report = is_correct (recheck query response)
        /\ (validation_decision report = true ->
            confidence_level report = 95 \/ confidence_level report = 75)
        /\ (validation_decision report = false -> confidence_level report = 20).
Proof.
  intros history query response steps _ _ Hq Hr.
  destruct (unprintable_result (expected_result (recheck query response)))
    eqn:Hbig.
  - unfold validate_response.
    now rewrite (analysis_unprintable query response Hq Hr Hbig).
  - assert (He : printed (expected_result (recheck query response))
                 = Return (show (expected_result (recheck query response))))
      by now rewrite format_by_result, Hbig.
    assert (Hp : printed (provided_result (recheck query response))
                 = Return (show (provided_result (recheck query response))))
      by now rewrite format_by_result, provided_result_printable.
    destruct (analysis_of_mathematical F py_eval py_float float_close py_equal
                show query response Hq Hr He Hp)
      as (aa & Haa & Htype & Hcalc & Hmv).
    destruct (is_correct (recheck query response)) eqn:Hre.
    + destruct (verified_math_is_decisive aa
                  (_validate_reasoning_chain steps query) query response steps
                  (recheck query response) Hmv Hre Htype Hcalc)
        as (d & Hd & Hright & Hconf).
      destruct (validate_of_decision history query response steps aa d Haa Hd)
        as (report & Hrun & Hdec & Hc & _).
      exists report. rewrite Hdec, Hc, Hright.
      repeat split; auto. discriminate.
    + destruct (failed_math_is_decisive F show aa
                  (_validate_reasoning_chain steps query)
                  (_ai_powered_validation query response steps)
                  (recheck query response) Hmv Hre Htype He Hp)
        as (d & Hd & Hwrong & Hconf & _).
      destruct (validate_of_decision history query response steps aa d Haa Hd)
        as (report & Hrun & Hdec & Hc & _).
      exists report. rewrite Hdec, Hc, Hwrong.
      repeat split; auto. discriminate.
Qed.

(** X15.  When [eval] raises on the expression read from the query, the
    calculation is certified as correct whatever number the response
    gives: the report is CORRECT with confidence 95 or 75 and records no
    expected result. *)
Theorem unverifiable_calculation_certified :
  forall (history : list (ValidationReport F)) (query response expr : string)
         (steps : list ReasoningStep) (e : Exc),
    any_in ["calculate"; "math"; "+"; "-"; "*"; "/"; "="] (lower query) = true ->
    existsb_str is_digit response = true ->
    _extract_math_expression query = Some expr ->
    forallb_str (one_of "0123456789+-*/(). ")
      (replace "X" "*" (replace "x" "*" (replace "^" "**" expr))) = true ->
    py_eval (replace "X" "*" (replace "x" "*" (replace "^" "**" expr)))
    = Raises e ->
    exists report,
      validate history query response steps = (Return report, app history [report])
      /\ validation_decision report = true
      /\ validation_status report = "CORRECT"
      /\ (confidence_level report = 95 \/ confidence_level report = 75)
      /\ math_validation (answer_analysis_of report)
         = Some {| is_correct := true; expected_result := None;
                   provided_result := None; expression := Some expr |}.
Proof.
  intros history query response expr steps e Hq Hr Hexpr Hsafe Heval.
  assert (Hre : recheck query response
                = {| is_correct := true; expected_result := None;
                     provided_result := None; expression := Some expr |}).
  { unfold _validate_mathematical_answer. now rewrite Hexpr, Hsafe, Heval. }
  destruct (analysis_of_mathematical F py_eval py_float float_close py_equal show
              query response Hq Hr) as (aa & Haa & Htype & Hcalc & Hmv);
    [rewrite Hre; reflexivity..|].
  destruct (verified_math_is_decisive aa
              (_validate_reasoning_chain steps query) query response steps
              (recheck query response) Hmv) as (d & Hd & Hright & Hconf);
    [now rewrite Hre|exact Htype|exact Hcalc|].
  destruct (validate_of_decision history query response steps aa d Haa Hd)
    as (report & Hrun & Hdec & Hc & _ & Hanalysis & Hstatus).
  exists report. rewrite Hdec, Hc, Hstatus, Hanalysis, Hright, Hmv, Hre. auto.
Qed.

(** X16.  A query with an arithmetic keyword from which no expression
    can be read, answered with a digit, is flagged as a mathematical
    error with confidence 20: expected [None], got [None]. *)
Theorem no_expression_flagged :
  forall (history : list (ValidationReport F)) (query response : string)
         (steps : list ReasoningStep),
    any_in ["calculate"; "math"; "+"; "-"; "*"; "/"; "="] (lower query) = true ->
    existsb_str is_digit response = true ->
    _extract_math_expression query = None ->
    exists report,
      validate history query response steps = (Return report, app history [report])
      /\ validation_status report = "INCORRECT"
      /\ confidence_level report = 20
      /\ In (cross_mark ++ " Mathematical error: Expected " ++ show None
               ++ ", got " ++ show None)
            (improvement_suggestions report).
Proof.
  intros history query response steps Hq Hr Hexpr.
  assert (Hre : recheck query response
                = {| is_correct := false; expected_result := None;
                     provided_result := None; expression := None |}).
  { unfold _validate_mathematical_answer. now rewrite Hexpr. }
  destruct (analysis_of_mathematical F py_eval py_float float_close py_equal show
              query response Hq Hr) as (aa & Haa & Htype & Hcalc & Hmv);
    [rewrite Hre; reflexivity..|].
  destruct (failed_math_is_decisive F show aa
              (_validate_reasoning_chain steps query)
              (_ai_powered_validation query response steps)
              (recheck query response) Hmv)
    as (d & Hd & Hwrong & Hconf & Hissue);
    [now rewrite Hre|exact Htype|rewrite Hre; reflexivity..|].
  destruct (validate_of_decision history query response steps aa d Haa Hd)
    as (report & Hrun & Hdec & Hc & Hsug & _ & Hstatus).
  exists report. rewrite Hstatus, Hc, Hsug, Hwrong.
  rewrite Hre in Hissue. auto.
Qed.

(** X17.  A returned report is correct exactly when its confidence is at
    least 70, and incorrect exactly when it is at most 65. *)
Theorem decision_iff_confident :
  forall (history : list (ValidationReport F)) (query response : string)
         (steps : list ReasoningStep) (report : ValidationReport F)
         (history' : list (ValidationReport F)),
    validate history query response steps = (Return report, history') ->
    (validation_decision report = true <-> 70 <= confidence_level report)
    /\ (validation_decision report = false <-> confidence_level report <= 65).
Proof.
  intros history query response steps report history' Hrun.
  destruct (validate_returns F py_eval py_float float_close py_equal show now
              _ _ _ _ _ _ Hrun) as (aa & d & _ & Hd & -> & _).
  cbn [validation_decision confidence_level].
  destruct (decision_shape F show _ _ _ _ Hd)
    as (parts0 & major0 & c0 & parts & major & Hprior & _ & Hno & Hsome).
  cbv zeta in Hno, Hsome.
  pose proof (ai_nudge_of_scorer query response steps c0) as Hn.
  cbv zeta in Hn.
  assert (Hc0 : (c0 = 85 \/ c0 = 90) \/ (c0 = 30 /\ major0 <> [])).
  { destruct (math_priority_cases F show aa _ _ _ Hprior)
      as [(-> & _)|[(-> & _)|(-> & mv & _ & _ & ->)]]; auto.
    right. split; [reflexivity|discriminate]. }
  destruct (app major0 major) as [|issue rest] eqn:Hmajor.
  - destruct (Hno eq_refl) as [-> ->].
    destruct Hc0 as [Hc0|[_ Hm]].
    + split; split; intros; try discriminate; try reflexivity; lia.
    + destruct major0; [congruence|discriminate].
  - destruct Hsome as (-> & -> & _); [discriminate|].
    split; split; intros; try discriminate; try reflexivity; lia.
Qed.

End MoreReflectorFacts.

(** ** The summary and the compatibility wrapper *)

Section ReportFacts.

Variable F : Type.
Variable py_eval : string -> Outcome F.
Variable py_float : string -> F.
Variable float_close : PyVal F -> PyVal F -> option bool.
Variable py_equal : PyVal F -> PyVal F -> bool.
Variable show : option (PyVal F) -> string.
Variable now : string.
Variable percent_rounded : Z -> Z -> F.
Variable mean_rounded : Z -> Z -> F.

Local Abbreviation validate :=
  (validate_response F py_eval py_float float_close py_equal show now).
Local Abbreviation summary :=
  (get_validation_summary F percent_rounded mean_rounded).
Local Abbreviation decide := (_make_validation_decision F show).
Local Abbreviation reflect_on :=
  (reflect_on_response F py_eval py_float float_close py_equal show now).

Local Open Scope Z_scope.

Lemma count_correct_bounds (l : list (ValidationReport F)) :
  0 <= count_correct l <= Z.of_nat (List.length l).
Proof.
  unfold count_correct. pose proof (filter_length_le (fun v => validation_decision v) l).
  lia.
Qed.

Lemma count_correct_app (l1 l2 : list (ValidationReport F)) :
  count_correct (app l1 l2) = count_correct l1 + count_correct l2.
Proof. unfold count_correct. rewrite filter_app, length_app. lia. Qed.

Lemma last_n_split {A : Type} (n : nat) (l : list A) :
  l = app (firstn (List.length l - n) l) (last_n n l).
Proof. unfold last_n. symmetry. apply firstn_skipn. Qed.

Lemma last_n_length {A : Type} (n : nat) (l : list A) :
  List.length (last_n n l) = Nat.min n (List.length l).
Proof. unfold last_n. rewrite length_skipn. lia. Qed.

Lemma last_app_single {A : Type} (l : list A) (x d : A) : last (app l [x]) d = x.
Proof. apply last_last. Qed.

(** X18.  The summary of a non-empty history counts every report, looks
    at the last five at most, and never counts more correct ones than
    there are; a history of correct reports only is "Improving", one with
    none is "Needs attention". *)
Theorem summary_counts :
  forall history : list (ValidationReport F),
    history <> [] ->
    exists s,
      summary history = Summarised s
      /\ total_validations s = Z.of_nat (List.length history)
      /\ recent_total s = Z.min 5 (total_validations s)
      /\ 0 <= recent_correct s <= recent_total s
      /\ recent_correct s <= count_correct history <= total_validations s
      /\ (count_correct history = total_validations s ->
          validation_trend s = "Improving"
          /\ recent_correct s = recent_total s)
      /\ (count_correct history = 0 ->
          validation_trend s = "Needs attention" /\ recent_correct s = 0).
Proof.
  intros history Hne. destruct history as [|first rest] eqn:Hh; [congruence|].
  unfold get_validation_summary. cbv beta iota zeta. rewrite <- Hh. clear Hne.
  eexists. split; [reflexivity|].
  cbn [total_validations recent_total recent_correct validation_trend].
  assert (Hlen : (0 < List.length history)%nat) by (rewrite Hh; cbn; lia).
  pose proof (count_correct_bounds history) as Hall.
  pose proof (count_correct_bounds (last_n 5 history)) as Hrecent.
  pose proof (count_correct_bounds (firstn (List.length history - 5) history)) as Hold.
  pose proof (last_n_length 5 history) as Hl.
  pose proof (f_equal count_correct (last_n_split 5 history)) as Hsplit.
  rewrite count_correct_app in Hsplit.
  pose proof (f_equal (@List.length _) (last_n_split 5 history)) as Hsl.
  rewrite length_app in Hsl.
  split; [lia|]. split; [lia|]. split; [lia|]. split; [lia|]. split.
  - intros Hfull. split; [|lia].
    replace (80 * _ <? 100 * _) with true; [reflexivity|].
    symmetry. apply Z.ltb_lt. lia.
  - intros Hnone. split; [|lia].
    replace (80 * _ <? 100 * _) with false
      by (symmetry; apply Z.ltb_ge; lia).
    replace (100 * _ <? 60 * _) with true; [reflexivity|].
    symmetry. apply Z.ltb_lt. lia.
Qed.

(** X19.  After a call of [validate_response] that returns, the summary
    counts one validation more, names the call as the latest, and counts
    one more correct report exactly when the report is correct. *)
Theorem summary_after_validation :
  forall (history : list (ValidationReport F)) (query response : string)
         (steps : list ReasoningStep) (report : ValidationReport F)
         (history' : list (ValidationReport F)),
    validate history query response steps = (Return report, history') ->
    exists s,
      summary history' = Summarised s
      /\ total_validations s = Z.of_nat (List.length history) + 1
      /\ latest_validation s = now
      /\ count_correct history'
         = count_correct history + (if validation_decision report then 1 else 0).
Proof.
  intros history query response steps report history' Hrun.
  assert (Hreport : timestamp report = now /\ history' = app history [report]).
  { destruct (validate_returns F py_eval py_float float_close py_equal show now
                _ _ _ _ _ _ Hrun) as (aa & d & _ & _ & Hreport & Hh).
    split; [|exact Hh]. rewrite Hreport. reflexivity. }
  destruct Hreport as [Hnow ->].
  unfold get_validation_summary.
  destruct (app history [report]) as [|first rest] eqn:Hh.
  { destruct history; discriminate. }
  rewrite <- Hh. eexists. split; [reflexivity|]. cbn.
  rewrite length_app, last_app_single, count_correct_app. cbn.
  repeat split; [lia|exact Hnow|].
  unfold count_correct. cbn. now destruct (validation_decision report).
Qed.

(** *** [reflect_on_response] *)

Lemma text_len_app (u v : string) : text_len (u ++ v) = text_len u + text_len v.
Proof. induction u as [|a u IH]; cbn [append text_len]; lia. Qed.

Lemma text_len_nonneg (s : string) : 0 <= text_len s.
Proof. induction s as [|a s IH]; cbn [text_len]; [lia|]. destruct (is_continuation a); lia. Qed.

Lemma text_len_join (sep x : string) (l : list string) :
  In x l -> text_len x <= text_len (join sep l).
Proof.
  induction l as [|y l IH]; [intros []|].
  destruct l as [|z l].
  - intros [->|[]]. cbn [join]. lia.
  - change (join sep (y :: z :: l)) with (y ++ sep ++ join sep (z :: l)).
    rewrite !text_len_app.
    pose proof (text_len_nonneg sep). pose proof (text_len_nonneg y).
    pose proof (text_len_nonneg (join sep (z :: l))).
    intros [->|Hin]; [lia|]. specialize (IH Hin). lia.
Qed.

Lemma reasoning_note_long (score : Z) : 1 <= text_len (reasoning_note score).
Proof.
  unfold reasoning_note.
  destruct (80 <=? score); [|destruct (60 <=? score)];
    rewrite text_len_app;
    match goal with
    | |- context [text_len (?a ++ ?b)] => pose proof (text_len_nonneg (a ++ b))
    end;
    match goal with
    | |- context [text_len ?t + _] =>
        let n := eval vm_compute in (text_len t) in
        change (text_len t) with n
    end; lia.
Qed.

Lemma decision_reasoning_long (aa : AnswerAnalysis F) (rv : ReasoningValidation)
  (ai : AIValidation) (d : Decision) :
  decide aa rv ai = Return d -> 20 < text_len (d_reasoning d).
Proof.
  unfold _make_validation_decision, math_priority.
  assert (Hcheck : forall parts major,
            content_check aa = Return (parts, major) ->
            forall issue, In issue major -> 3 <= text_len issue).
  { intros parts major. unfold content_check.
    repeat match goal with
           | |- context [if ?b then _ else _] => destruct b
           end; cbn [bind py_len];
      try discriminate;
      intros [= <- <-] issue Hin; cbn in Hin; try contradiction;
      destruct Hin as [<-|[]]; vm_compute; discriminate. }
  assert (Hmath : forall expected provided : string,
            3 <= text_len (cross_mark ++ " Mathematical error: Expected "
                             ++ expected ++ ", got " ++ provided)).
  { intros expected provided. rewrite !text_len_app.
    pose proof (text_len_nonneg expected).
    pose proof (text_len_nonneg provided).
    change (text_len cross_mark) with 1.
    change (text_len " Mathematical error: Expected ") with 30.
    change (text_len ", got ") with 6. lia. }
  assert (Hflag : forall (major : list string) (issue : string) (rest : list string),
            major = issue :: rest -> 3 <= text_len issue ->
            20 < text_len (cross_mark ++ " ANSWER FLAGGED: " ++ join " | " major)).
  { intros major issue rest -> Hissue. rewrite !text_len_app.
    pose proof (text_len_join " | " issue (issue :: rest) (or_introl eq_refl)).
    change (text_len cross_mark) with 1.
    change (text_len " ANSWER FLAGGED: ") with 17. lia. }
  assert (Hpass : forall (parts : list string) (score : Z),
            In (reasoning_note score) parts ->
            20 < text_len (check_mark ++ " ANSWER VALIDATED: " ++ join " | " parts)).
  { intros parts score Hin. rewrite !text_len_app.
    pose proof (text_len_join " | " _ _ Hin).
    pose proof (reasoning_note_long score).
    change (text_len check_mark) with 1.
    change (text_len " ANSWER VALIDATED: ") with 19. lia. }
  assert (Hinj : forall x : Decision, Return x = Return d -> d = x)
    by (intros x Hx; congruence).
  destruct (math_validation aa) as [mv|]; [destruct (is_correct mv)|].
  - cbn [bind].
    destruct (content_check aa) as [[parts1 major1]|e] eqn:Hc; cbn [bind];
      [|discriminate].
    destruct (ai_nudge ai 90) as [parts2 c1]. cbn [app].
    destruct major1 as [|issue rest] eqn:Hm; intros Hd; apply Hinj in Hd;
      rewrite Hd; cbn [d_reasoning].
    + apply (Hpass _ (completeness_score rv)).
      right. apply in_or_app. right. now left.
    + eapply Hflag; [reflexivity|]. eapply Hcheck; [reflexivity|now left].
  - destruct (format F show (expected_result mv)) as [expected|e]; cbn [bind];
      [|discriminate].
    destruct (format F show (provided_result mv)) as [provided|e]; cbn [bind];
      [|discriminate].
    destruct (content_check aa) as [[parts1 major1]|e] eqn:Hc; cbn [bind];
      [|discriminate].
    destruct (ai_nudge ai 30) as [parts2 c1]. cbn [app].
    intros Hd; apply Hinj in Hd; rewrite Hd; cbn [d_reasoning].
    eapply Hflag; [reflexivity|apply Hmath].
  - cbn [bind].
    destruct (content_check aa) as [[parts1 major1]|e] eqn:Hc; cbn [bind];
      [|discriminate].
    destruct (ai_nudge ai 85) as [parts2 c1]. cbn [app].
    destruct major1 as [|issue rest] eqn:Hm; intros Hd; apply Hinj in Hd;
      rewrite Hd; cbn [d_reasoning].
    + apply (Hpass _ (completeness_score rv)).
      apply in_or_app. right. now left.
    + eapply Hflag; [reflexivity|]. eapply Hcheck; [reflexivity|now left].
Qed.

(** X20.  The compatibility wrapper [reflect_on_response] returns exactly
    when [validate_response] does, with the same history; its three
    confidence figures are the report's confidence, its relevance is 85
    for a correct report and 45 otherwise, and its clarity is always 80:
    the validation reasoning is never 20 characters or shorter. *)
Theorem reflection_of_report :
  forall (history : list (ValidationReport F)) (query response : string)
         (steps : list ReasoningStep),
    snd (reflect_on history query response steps)
    = snd (validate history query response steps)
    /\ match fst (validate history query response steps) with
       | Raise e => fst (reflect_on history query response steps) = Raise e
       | Return report =>
           exists reflection,
             fst (reflect_on history query response steps) = Return reflection
             /\ confidence_score reflection = confidence_level report
             /\ completeness (response_quality reflection) = confidence_level report
             /\ accuracy_likelihood (response_quality reflection)
                = confidence_level report
             /\ 20 <= confidence_score reflection <= 95
             /\ relevance (response_quality reflection)
                = (if String.eqb (r_validation_status reflection) "CORRECT"
                   then 85 else 45)
             /\ clarity (response_quality reflection) = 80
       end.
Proof.
  intros history query response steps. unfold reflect_on_response.
  destruct (validate history query response steps) as [[report|e] history'] eqn:Hrun;
    cbn [fst snd bind]; split; try reflexivity.
  eexists. split; [reflexivity|]. cbn.
  destruct (validate_returns F py_eval py_float float_close py_equal show now
              _ _ _ _ _ _ Hrun) as (aa & d & _ & Hd & Hreport & _).
  pose proof (decision_confidence_range F show _ _ _ _ Hd) as Hrange.
  pose proof (decision_reasoning_long _ _ _ _ Hd) as Hlong.
  rewrite Hreport.
  cbn [validation_reasoning validation_status validation_decision
       confidence_level].
  replace (20 <? text_len (d_reasoning d)) with true
    by (symmetry; apply Z.ltb_lt; exact Hlong).
  repeat split; try lia. now destruct (d_is_correct d).
Qed.

End ReportFacts.

(** ** The pipeline, outcome by outcome *)

Section MorePipelineFacts.

Variable F : Type.
Variable py_eval : string -> Outcome F.
Variable py_float : string -> F.
Variable float_close : PyVal F -> PyVal F -> option bool.
Variable py_equal : PyVal F -> PyVal F -> bool.
Variable show : option (PyVal F) -> string.
Variable now : string.
Variable tool_execute : ToolId -> string -> option string.
Variable llm_generate : string -> string -> option string.

Local Abbreviation process :=
  (process_query F py_eval py_float float_close py_equal show now tool_execute
                 llm_generate).
Local Abbreviation validate :=
  (validate_response F py_eval py_float float_close py_equal show now).
Local Abbreviation recheck :=
  (_validate_mathematical_answer F py_eval py_float float_close py_equal).
Local Abbreviation tool_steps := (Traces.tool_steps llm_generate).
Local Abbreviation tool_response := (Traces.tool_response llm_generate).
Local Abbreviation tool_answer :=
  (fun query : string =>
     tool_execute (fst (think query))
                  (extract_parameters query (fst (think query)))).

Local Open Scope Z_scope.

Lemma process_through_tool (st : AgentState F) (query tool_result : string) :
  is_special_case query = false ->
  _is_meaningless_query query = false ->
  tool_answer query = Some tool_result ->
  process st query
  = (validation <- fst (validate (Pipeline.validation_history st) query
                                 (tool_response query tool_result)
                                 (tool_steps query tool_result)) ;;
     Return {| response := tool_response query tool_result;
               reasoning_steps := tool_steps query tool_result;
               tool_used := tool_name (fst (think query));
               parameters := extract_parameters query (fst (think query));
               validation := FromReflector validation |},
     {| self_reasoning_steps := tool_steps query tool_result;
        Pipeline.validation_history :=
          snd (validate (Pipeline.validation_history st) query
                        (tool_response query tool_result)
                        (tool_steps query tool_result)) |}).
Proof.
  intros Hplain Hvalid.
  unfold process_query, Traces.tool_steps, Traces.steps_before_tool,
    Traces.tool_started, Traces.tool_response.
  rewrite Hplain. unfold think. rewrite Hvalid. cbv zeta.
  repeat match goal with
         | |- context [any_in ?k (lower query)] => destruct (any_in k (lower query))
         end;
    cbn [fst snd execute_tool]; intros Hexec; rewrite Hexec;
    unfold reflect; cbn [app];
    match goal with
    | |- context [validate_response F py_eval py_float float_close py_equal show now ?h ?q ?r ?s] =>
        destruct (validate_response F py_eval py_float float_close py_equal show now h q r s)
          as [outcome history']
    end; cbn [fst snd app]; reflexivity.
Qed.

Lemma process_tool_exits (st : AgentState F) (query : string) :
  is_special_case query = false ->
  _is_meaningless_query query = false ->
  tool_answer query = None ->
  process st query
  = (Raise SystemExit,
     {| self_reasoning_steps := Traces.steps_before_tool query;
        Pipeline.validation_history := Pipeline.validation_history st |}).
Proof.
  intros Hplain Hvalid.
  unfold process_query, Traces.steps_before_tool, Traces.tool_started.
  rewrite Hplain. unfold think. rewrite Hvalid. cbv zeta.
  repeat match goal with
         | |- context [any_in ?k (lower query)] => destruct (any_in k (lower query))
         end;
    cbn [fst snd execute_tool]; intros Hexec; rewrite Hexec;
    cbn [app]; reflexivity.
Qed.

(** X21.  On ASCII text (the query, and the response made of the
    adapter's answer), every call of [process_query] ends in one of four
    ways: the rejection envelope, with the history untouched, for a
    meaningless query outside the special case; an envelope carrying the
    reflector's report on this query and this response, appended to the
    history; an exception of the reflector, with the history untouched,
    on a query that went through a tool: [TypeError] on a response of at
    most 30 characters, or [ValueError] when the expected result of the
    re-check is an int too long to print; or [SystemExit], with the
    history untouched, when the adapter does not return. *)
Theorem process_query_outcomes :
  forall (st : AgentState F) (query : string),
    is_ascii query = true ->
    match tool_answer query with
    | Some tool_result => is_ascii (tool_response query tool_result)
    | None => true
    end = true ->
    let history := Pipeline.validation_history st in
    let history' := Pipeline.validation_history (snd (process st query)) in
    match fst (process st query) with
    | Return envelope =>
        self_reasoning_steps (snd (process st query)) = reasoning_steps envelope
        /\ match validation envelope with
           | ForInvalidInput verdict =>
               is_special_case query = false
               /\ _is_meaningless_query query = true
               /\ tool_used envelope = "input_validator"
               /\ history' = history
           | FromReflector report =>
               (is_special_case query = true \/ _is_meaningless_query query = false)
               /\ tool_used envelope <> "input_validator"
               /\ original_query report = query
               /\ mrkl_response report = response envelope
               /\ history' = app history [report]
           end
    | Raise e =>
        is_special_case query = false
        /\ _is_meaningless_query query = false
        /\ history' = history
        /\ match tool_answer query with
           | None => e = SystemExit
           | Some tool_result =>
               (e = TypeError
                /\ (len (tool_response query tool_result) <= 30)%nat)
               \/ (e = ValueError
                   /\ unprintable_result
                        (expected_result
                           (recheck query (tool_response query tool_result)))
                      = true)
           end
    end.
Proof.
  intros st query Hquery Hanswer history history'. subst history history'.
  assert (Hreport : forall h q r s report h',
            validate h q r s = (Return report, h') ->
            original_query report = q /\ mrkl_response report = r
            /\ h' = app h [report]).
  { intros h q r s report h' Hv.
    destruct (validate_returns F py_eval py_float float_close py_equal show now
                _ _ _ _ _ _ Hv) as (aa & d & _ & _ & Hreport & Hh).
    rewrite Hreport at 1 2. cbn [original_query mrkl_response]. auto. }
  destruct (is_special_case query) eqn:Hspecial.
  - destruct (special_case_answers F py_eval py_float float_close py_equal show now
                tool_execute llm_generate st query Hspecial) as [report Hrun].
    rewrite Hrun. cbn [fst snd validation reasoning_steps tool_used response
                       self_reasoning_steps Pipeline.validation_history].
    split; [reflexivity|].
    revert Hrun. unfold process_query. rewrite Hspecial. unfold reflect.
    destruct (validate _ query knowledge_response special_case_steps)
      as [[report'|e] h'] eqn:Hv; cbn [bind]; [|discriminate].
    intros [= <- Hh]. destruct (Hreport _ _ _ _ _ _ Hv) as (Hq & Hr & _).
    repeat split; auto. discriminate.
  - destruct (_is_meaningless_query query) eqn:Hbad.
    + unfold process_query, think. rewrite Hspecial, Hbad.
      cbn. repeat split.
    + destruct (tool_execute (fst (think query))
                  (extract_parameters query (fst (think query))))
        as [tool_result|] eqn:Hexec.
      * rewrite (process_through_tool st query tool_result Hspecial Hbad Hexec).
        cbn [fst snd self_reasoning_steps Pipeline.validation_history].
        destruct (validate _ query (tool_response query tool_result)
                           (tool_steps query tool_result))
          as [[report|e] h'] eqn:Hv; cbn [fst snd bind validation reasoning_steps
                                           tool_used response].
        -- destruct (Hreport _ _ _ _ _ _ Hv) as (Hq & Hr & Hh).
           repeat split; auto.
           destruct (fst (think query)); discriminate.
        -- pose proof (validate_raises F py_eval py_float float_close py_equal
                         show now _ _ _ _ _ _ Hv) as ->.
           repeat split.
           destruct (validate_raises_iff F py_eval py_float float_close py_equal
                       show now (Pipeline.validation_history st) query
                       (tool_response query tool_result)
                       (tool_steps query tool_result) Hquery Hanswer)
             as [Hiff _].
           specialize (Hiff e). rewrite Hv in Hiff. cbn [fst] in Hiff.
           destruct (proj1 Hiff eq_refl)
             as [(-> & _ & _ & _ & Hlen)|(-> & _ & _ & Hbig)]; auto.
      * rewrite (process_tool_exits st query Hspecial Hbad Hexec).
        cbn [fst snd Pipeline.validation_history]. auto.
Qed.

Lemma tool_step_names (query tool_result : string) :
  _is_meaningless_query query = false ->
  map step (tool_steps query tool_result)
  = ["Query Analysis"; "Tool Selection"; "Parameter Extraction";
     "Tool Execution"; "Result"; "Final Response"].
Proof.
  intros Hvalid.
  unfold Traces.tool_steps, Traces.steps_before_tool, Traces.tool_started, think.
  rewrite Hvalid. cbv zeta.
  repeat match goal with
         | |- context [any_in ?k (lower query)] => destruct (any_in k (lower query))
         end; reflexivity.
Qed.

Lemma chain_by_names (steps : list ReasoningStep) (query : string) :
  let missing :=
    filter (fun critical_step =>
              negb (existsb (fun actual_step =>
                               contains (lower critical_step) (lower actual_step))
                            (map step steps)))
           critical_steps in
  let v := _validate_reasoning_chain steps query in
  missing_steps v = missing
  /\ completeness_score v
     = score_of (List.length missing) (List.length (map step steps))
  /\ step_count v = Z.of_nat (List.length steps)
  /\ (60 <= completeness_score v -> logical_consistency v = true)
  /\ (80 <= completeness_score v -> step_issues v = [] ->
      reasoning_quality v = "Excellent").
Proof.
  cbv zeta. unfold _validate_reasoning_chain.
  set (missing := filter _ critical_steps).
  set (score := score_of _ _).
  destruct (80 <=? score) eqn:H80; cbn [andb].
  - destruct (List.length (minimal_steps 0 steps) =? 0)%nat eqn:Hissues;
      [cbn; repeat split; auto|].
    destruct (60 <=? score) eqn:H60; [cbn; repeat split; auto|].
    + intros _ Hnil. rewrite Hnil in Hissues. discriminate.
    + apply Z.leb_le in H80. apply Z.leb_gt in H60. lia.
  - apply Z.leb_gt in H80.
    destruct (60 <=? score) eqn:H60; [cbn; repeat split; auto; lia|].
    apply Z.leb_gt in H60.
    destruct (40 <=? score); cbn; repeat split; auto; lia.
Qed.

(** X22.  What the reflector makes of the pipeline's own trace: the six
    steps of a query that went through a tool miss no critical step and
    score 100; the three steps of the special case miss two and score 80
    by the three-step floor. *)
Theorem pipeline_trace_scores :
  forall (st st' : AgentState F) (query : string) (envelope : Envelope F)
         (report : ValidationReport F),
    process st query = (Return envelope, st') ->
    validation envelope = FromReflector report ->
    let v := reasoning_validation_of report in
    if is_special_case query
    then step_count v = 3 /\ completeness_score v = 80
         /\ missing_steps v = ["Tool Selection"; "Tool Execution"]
         /\ reasoning_quality v = "Excellent"
    else step_count v = 6 /\ completeness_score v = 100
         /\ missing_steps v = [] /\ logical_consistency v = true.
Proof.
  intros st st' query envelope report Hrun Hvalidation.
  assert (Hchain : forall h q r s report' h',
            validate h q r s = (Return report', h') ->
            reasoning_validation_of report' = _validate_reasoning_chain s q).
  { intros h q r s report' h' Hv.
    destruct (validate_returns F py_eval py_float float_close py_equal show now
                _ _ _ _ _ _ Hv) as (aa & d & _ & _ & Hreport & _).
    rewrite Hreport. reflexivity. }
  destruct (is_special_case query) eqn:Hspecial.
  - revert Hrun. unfold process_query. rewrite Hspecial. unfold reflect.
    destruct (validate _ query knowledge_response special_case_steps)
      as [[report'|e] h'] eqn:Hv; cbn [bind]; [|discriminate].
    intros [= <- _]. cbn [validation] in Hvalidation.
    injection Hvalidation as <-. cbv zeta.
    rewrite (Hchain _ _ _ _ _ _ Hv). vm_compute. repeat split.
  - destruct (_is_meaningless_query query) eqn:Hbad.
    + revert Hrun. unfold process_query, think. rewrite Hspecial, Hbad.
      intros [= <- _]. discriminate.
    + destruct (tool_execute (fst (think query))
                  (extract_parameters query (fst (think query))))
        as [tool_result|] eqn:Hexec;
        [|rewrite (process_tool_exits st query Hspecial Hbad Hexec) in Hrun;
          discriminate].
      rewrite (process_through_tool st query tool_result Hspecial Hbad Hexec)
        in Hrun.
      destruct (validate _ query (tool_response query tool_result)
                         (tool_steps query tool_result))
        as [[report'|e] h'] eqn:Hv; cbn [fst snd bind] in Hrun; [|discriminate].
      injection Hrun as <- _. cbn [validation] in Hvalidation.
      injection Hvalidation as <-. cbv zeta.
      rewrite (Hchain _ _ _ _ _ _ Hv).
      destruct (chain_by_names (tool_steps query tool_result) query)
        as (Hmissing & Hscore & Hcount & Hconsistent & _).
      cbv zeta in *.
      rewrite (tool_step_names query tool_result Hbad) in Hmissing, Hscore.
      assert (Hlen : List.length (tool_steps query tool_result) = 6%nat).
      { rewrite <- (length_map step), (tool_step_names query tool_result Hbad).
        reflexivity. }
      rewrite Hlen in Hcount.
      change (filter _ critical_steps) with (@nil string) in Hmissing, Hscore.
      change (score_of _ _) with 100 in Hscore.
      repeat split; auto. apply Hconsistent. lia.
Qed.

End MorePipelineFacts.

(** ** The closed instance, continued *)

Lemma extracted_integer_not_negative_witness :
  _extract_result_from_response Closed.F Closed.py_float "Calculation: 2-5 = -3"
  = Some (VInt 3)
  /\ (0 <= 3)%Z.
Proof.
  split; [vm_compute; reflexivity|].
  apply (extracted_integer_not_negative Closed.F Closed.py_float
           "Calculation: 2-5 = -3" 3).
  vm_compute. reflexivity.
Defined.


Lemma recheck_decides_witness :
  exists report,
    Closed.validate [] "calculate 2+2" "Calculation: 2+2 = 4" []
    = (Return report, [report])
    /\ validation_decision report
       = is_correct (Closed.recheck "calculate 2+2" "Calculation: 2+2 = 4").
Proof.
  destruct (recheck_decides Closed.F Closed.py_eval Closed.py_float
              Closed.float_close Closed.py_equal Closed.show Closed.now []
              "calculate 2+2" "Calculation: 2+2 = 4" [])
    as (report & Hrun & Hdec & _); [vm_compute; reflexivity..|].
  exists report. split; [exact Hrun|exact Hdec].
Defined.

Lemma unverifiable_calculation_certified_witness :
  Closed.py_eval "2+" = Raises SyntaxError
  /\ exists report,
       Closed.validate [] "calculate 2+" "Result: 7" [] = (Return report, [report])
       /\ validation_status report = "CORRECT".
Proof.
  split; [reflexivity|].
  destruct (unverifiable_calculation_certified Closed.F Closed.py_eval
              Closed.py_float Closed.float_close Closed.py_equal Closed.show Closed.now []
              "calculate 2+" "Result: 7" "2+" [] SyntaxError)
    as (report & Hrun & _ & Hstatus & _); [vm_compute; reflexivity..|].
  exists report. split; [exact Hrun|exact Hstatus].
Defined.

Lemma no_expression_flagged_witness :
  _extract_math_expression "explain math" = None
  /\ exists report,
       Closed.validate [] "explain math" "Math has 2 branches" []
       = (Return report, [report])
       /\ validation_status report = "INCORRECT"
       /\ confidence_level report = 20%Z.
Proof.
  split; [vm_compute; reflexivity|].
  destruct (no_expression_flagged Closed.F Closed.py_eval
              Closed.py_float Closed.float_close Closed.py_equal Closed.show Closed.now []
              "explain math" "Math has 2 branches" [])
    as (report & Hrun & Hstatus & Hconf & _); [vm_compute; reflexivity..|].
  exists report. auto.
Defined.

Lemma decision_iff_confident_witness :
  exists report history',
    Closed.validate [] "weather in London" "Sunny, 21 degrees" []
    = (Return report, history')
    /\ (validation_decision report = true <-> (70 <= confidence_level report)%Z).
Proof.
  destruct (Closed.validate [] "weather in London" "Sunny, 21 degrees" [])
    as [[report|e] history'] eqn:Hrun; [|vm_compute in Hrun; discriminate].
  exists report, history'. split; [reflexivity|].
  exact (proj1 (decision_iff_confident Closed.F Closed.py_eval Closed.py_float
                  Closed.float_close Closed.py_equal Closed.show Closed.now []
                  "weather in London" "Sunny, 21 degrees" [] report history' Hrun)).
Defined.

Lemma summary_counts_witness :
  let history := snd (Closed.validate [] "calculate 2+2" "Calculation: 2+2 = 4" []) in
  history <> []
  /\ exists s, ClosedReports.summary history = Summarised s
               /\ total_validations s = 1%Z
               /\ recent_total s = 1%Z.
Proof.
  cbv zeta.
  assert (Hne : snd (Closed.validate [] "calculate 2+2" "Calculation: 2+2 = 4" [])
                <> []) by (vm_compute; discriminate).
  split; [exact Hne|].
  destruct (summary_counts Closed.F ClosedReports.percent_rounded
              ClosedReports.mean_rounded _ Hne)
    as (s & Hs & Htotal & Hrecent & _).
  exists s. split; [exact Hs|]. rewrite Hrecent, Htotal.
  split; vm_compute; reflexivity.
Defined.

Lemma summary_after_validation_witness :
  exists report history' s,
    Closed.validate [] "weather in London" "Sunny, 21 degrees" []
    = (Return report, history')
    /\ ClosedReports.summary history' = Summarised s
    /\ total_validations s = 1%Z
    /\ latest_validation s = Closed.now.
Proof.
  destruct (Closed.validate [] "weather in London" "Sunny, 21 degrees" [])
    as [[report|e] history'] eqn:Hrun; [|vm_compute in Hrun; discriminate].
  destruct (summary_after_validation Closed.F Closed.py_eval Closed.py_float
              Closed.float_close Closed.py_equal Closed.show Closed.now
              ClosedReports.percent_rounded ClosedReports.mean_rounded
              [] "weather in London" "Sunny, 21 degrees" [] report history' Hrun)
    as (s & Hs & Htotal & Hlatest & _).
  exists report, history', s. auto.
Defined.

Lemma pipeline_trace_scores_witness :
  exists envelope st' report,
    Closed.process Closed.fresh "weather in London" = (Return envelope, st')
    /\ validation envelope = FromReflector report
    /\ completeness_score (reasoning_validation_of report) = 100%Z
    /\ missing_steps (reasoning_validation_of report) = [].
Proof.
  destruct (Closed.process Closed.fresh "weather in London")
    as [[envelope|e] st'] eqn:Hrun; [|vm_compute in Hrun; discriminate].
  destruct (validation envelope) as [report|verdict] eqn:Hvalidation.
  - pose proof (pipeline_trace_scores Closed.F Closed.py_eval Closed.py_float
                  Closed.float_close Closed.py_equal Closed.show Closed.now Closed.tool_execute
                  Closed.llm_generate Closed.fresh st' "weather in London"
                  envelope report Hrun Hvalidation) as Hscores.
    exists envelope, st', report.
    destruct Hscores as (_ & Hscore & Hmissing & _). auto.
  - exfalso. vm_compute in Hrun. injection Hrun as <- _. discriminate.
Defined.

Lemma result_extracted_iff_digit_witness :
  is_ascii "The answer is 4" = true
  /\ (_extract_result_from_response Closed.F Closed.py_float "no number here"
      = None)
  /\ (_extract_result_from_response Closed.F Closed.py_float "The answer is 4"
      = None
      <-> existsb_str is_digit "The answer is 4" = false).
Proof.
  split; [vm_compute; reflexivity|]. split.
  - destruct (result_extracted_iff_digit Closed.F Closed.py_float
                "no number here") as [Hnone _]; [vm_compute; reflexivity|].
    apply Hnone. vm_compute. reflexivity.
  - destruct (result_extracted_iff_digit Closed.F Closed.py_float
                "The answer is 4") as [_ Hiff]; [vm_compute; reflexivity|].
    apply Hiff. vm_compute. lia.
Defined.

Lemma validate_raises_iff_witness :
  is_ascii "what is rust" = true
  /\ is_ascii "A language" = true
  /\ fst (Closed.validate [] "what is rust" "A language" []) = Raise TypeError
  /\ snd (Closed.validate [] "what is rust" "A language" []) = [].
Proof.
  split; [vm_compute; reflexivity|]. split; [vm_compute; reflexivity|].
  destruct (validate_raises_iff Closed.F Closed.py_eval Closed.py_float
              Closed.float_close Closed.py_equal Closed.show Closed.now []
              "what is rust" "A language" [])
    as [Hiff Hhistory]; [vm_compute; reflexivity..|].
  assert (Hraise : fst (Closed.validate [] "what is rust" "A language" [])
                   = Raise TypeError).
  { apply Hiff. left.
    split; [reflexivity|]. split; [vm_compute; reflexivity|].
    split; [vm_compute; reflexivity|]. split; [vm_compute; reflexivity|].
    vm_compute. lia. }
  split; [exact Hraise|]. exact (Hhistory TypeError Hraise).
Defined.

Lemma process_query_outcomes_witness :
  is_ascii "weather in London" = true
  /\ match fst (Closed.process Closed.fresh "weather in London") with
     | Return envelope =>
         self_reasoning_steps
           (snd (Closed.process Closed.fresh "weather in London"))
         = reasoning_steps envelope
     | Raise _ => False
     end.
Proof.
  split; [vm_compute; reflexivity|].
  assert (Hquery : is_ascii "weather in London" = true)
    by (vm_compute; reflexivity).
  assert (Hanswer :
            match Closed.tool_execute (fst (think "weather in London"))
                    (extract_parameters "weather in London"
                       (fst (think "weather in London"))) with
            | Some tool_result =>
                is_ascii (Traces.tool_response Closed.llm_generate
                            "weather in London" tool_result)
            | None => true
            end = true) by (vm_compute; reflexivity).
  pose proof (process_query_outcomes Closed.F Closed.py_eval Closed.py_float
                Closed.float_close Closed.py_equal Closed.show Closed.now
                Closed.tool_execute Closed.llm_generate Closed.fresh
                "weather in London" Hquery Hanswer) as Houtcome.
  cbv zeta in Houtcome. fold Closed.process in Houtcome.
  revert Houtcome.
  destruct (fst (Closed.process Closed.fresh "weather in London"))
    as [envelope|e] eqn:Hrun.
  - intros [Hsteps _]. exact Hsteps.
  - vm_compute in Hrun. discriminate.
Defined.

(** The query [exit(sum)] is routed to the calculator with itself as the
    expression, passes the character test, and reaches [eval]: what
    [eval] raises there is not caught by the adapter. *)
Example exit_query_reaches_eval :
  _is_meaningless_query "exit(sum)" = false
  /\ fst (think "exit(sum)") = calculator
  /\ extract_parameters "exit(sum)" calculator = "exit(sum)"
  /\ forall py_eval : string -> Tools.Evaluated,
       py_eval "exit(sum)" = Tools.Uncaught ->
       Tools.Calculator.execute py_eval "exit(sum)" = None.
Proof.
  split; [vm_compute; reflexivity|]. split; [vm_compute; reflexivity|].
  split; [vm_compute; reflexivity|].
  intros py_eval Hexit. vm_compute. rewrite Hexit. reflexivity.
Qed.

(** A query whose expected result has 4301 digits: the report cannot be
    printed, and no arithmetic answer to it is ever validated. *)
Example unprintable_result_raises :
  forall (F : Type) (py_eval : string -> Outcome F) (py_float : string -> F)
         (float_close : PyVal F -> PyVal F -> option bool)
         (py_equal : PyVal F -> PyVal F -> bool)
         (show : option (PyVal F) -> string) (now : string)
         (history : list (ValidationReport F)) (steps : list ReasoningStep),
    py_eval "10**4300" = Returns (VInt (10 ^ 4300)) ->
    validate_response F py_eval py_float float_close py_equal show now
                      history "calculate 10^4300" "1" steps
    = (Raise ValueError, history).
Proof.
  intros F py_eval py_float float_close py_equal show now history steps Heval.
  unfold validate_response.
  rewrite (analysis_unprintable F py_eval py_float float_close py_equal show
             "calculate 10^4300" "1"); [reflexivity| | |].
  - vm_compute. reflexivity.
  - vm_compute. reflexivity.
  - unfold _validate_mathematical_answer.
    assert (Hexpr : _extract_math_expression "calculate 10^4300"
                    = Some "10^4300") by (vm_compute; reflexivity).
    rewrite Hexpr. cbv zeta.
    change (replace "X" "*" (replace "x" "*" (replace "^" "**" "10^4300")))
      with "10**4300".
    change (forallb_str (one_of "0123456789+-*/(). ") "10**4300") with true.
    cbv iota. rewrite Heval. cbn [expected_result]. unfold unprintable_result.
    vm_compute. reflexivity.
Qed.
